(** * Budget-tracking backend: token service, account manager, ledger, reports

    A shallow embedding of the request handlers of the budget-tracking
    backend (src/core/security.py, src/apps/auth/views.py,
    src/apps/budget/categories.py, src/apps/budget/expenses.py,
    src/apps/budget/reports.py) and the
    properties the specification states about them.

    Conventions.
    - A handler that raises is modelled with [outcome]; the exception
      carries what the source passes to it (an HTTP status and its detail).
      A handler that writes returns the store it leaves behind; when it
      raises before it commits, that is the store it was given.
    - The relational store is a record of three tables, each a list of rows
      in storage order; [query ... .first()] is the first matching row.
    - [date.today()], [datetime.utcnow()] and the database's [now()] are
      explicit arguments; instants are whole seconds since the epoch, the
      granularity of a token's [exp].  [Expense.expense_date] is the
      date-time the column holds: a calendar day and a time of day.
    - Amounts are [Numeric(10, 2)] columns, held here as integer cents;
      percentages are exact rationals (the rounding of [Decimal] is left
      out).
    - Strings are byte strings; [lower], [isupper], [strip] and the like
      act on ASCII characters.
    - The JWT library and the password hasher are collaborators: the first
      is an ideal signature scheme, the second a pair of section variables.
      A response schema is modelled where the handler calls its
      constructor with keywords of its own choosing
      ([schemas.BudgetSummary], [schemas.ExpenseResponse]); a handler that
      returns a plain dict or a
      report model fed with every field returns the values it hands
      over. *)

From Stdlib Require Import ZArith QArith List String Ascii Bool Lia.
From Stdlib Require Import DecimalString Permutation Sorted Relations.
Import ListNotations.

Open Scope string_scope.
Open Scope list_scope.
Open Scope Z_scope.

(** ** Python values and exceptions *)

Module Py.

(** The exceptions the modelled code can raise.  [HTTPException] is
    FastAPI's, [ValueError] and [OverflowError] come from [datetime.date],
    [ZeroDivisionError] from [/], [IntegrityError] from the store's
    uniqueness constraints on commit, [ValidationError] from the
    constructor of a pydantic model, [AttributeError] from reading an
    attribute an object does not have, [TypeError] from an operator its
    operands do not support. *)
Inductive exn : Type :=
| HTTPException (status_code : Z) (detail : string)
| ValueError (msg : string)
| OverflowError (msg : string)
| ZeroDivisionError
| IntegrityError (constraint : string)
| ValidationError (model : string)
| AttributeError (object attribute : string)
| TypeError (msg : string).

Inductive outcome (A : Type) : Type :=
| Ok (a : A)
| Raise (e : exn).

Arguments Ok {A} a.
Arguments Raise {A} e.

Definition bind {A B : Type} (m : outcome A) (k : A -> outcome B) : outcome B :=
  match m with
  | Ok a => k a
  | Raise e => Raise e
  end.

(** [str(n)] for an integer. *)
Definition str (n : Z) : string := NilZero.string_of_int (Z.to_int n).

(** [x or d] for an optional (nullable) value. *)
Definition or_else {A : Type} (x : option A) (d : A) : A :=
  match x with Some a => a | None => d end.

(** [query.first()]: the first row satisfying the filter. *)
Definition first {A : Type} (p : A -> bool) (rows : list A) : option A :=
  find p rows.

(** Python's [sum(col(r) for r in rows)]. *)
Definition sum_of {A : Type} (col : A -> Z) (rows : list A) : Z :=
  fold_right (fun r acc => col r + acc) 0 rows.

(** SQL's [func.sum(col)] over the selected rows: [NULL] for none. *)
Definition func_sum {A : Type} (col : A -> Z) (rows : list A) : option Z :=
  match rows with
  | [] => None
  | _ :: _ => Some (sum_of col rows)
  end.

(** [a / b] on numbers. *)
Definition truediv (a b : Q) : outcome Q :=
  if Qeq_bool b 0 then Raise ZeroDivisionError else Ok (a / b)%Q.

(** A loop that appends one result per element, stopping at the first
    exception. *)
Fixpoint for_each {A B : Type} (f : A -> outcome B) (l : list A)
    : outcome (list B) :=
  match l with
  | [] => Ok []
  | x :: l' =>
      match f x with
      | Raise e => Raise e
      | Ok y =>
          match for_each f l' with
          | Raise e => Raise e
          | Ok ys => Ok (y :: ys)
          end
      end
  end.

(** [func.count(col)] over the selected rows. *)
Definition count_of {A : Type} (rows : list A) : Z := Z.of_nat (List.length rows).

End Py.

Import Py.

Notation "x <- m ;; k" := (Py.bind m (fun x => k))
  (at level 61, m at next level, right associativity).

(** ** [datetime.date] *)

Module Calendar.

Record date : Type := mkdate { year : Z; month : Z; day : Z }.

Definition MINYEAR : Z := 1.
Definition MAXYEAR : Z := 9999.

Definition is_leap (y : Z) : bool :=
  (y mod 4 =? 0) && (negb (y mod 100 =? 0) || (y mod 400 =? 0)).

(** [_DAYS_IN_MONTH], indexed from 1. *)
Definition DAYS_IN_MONTH (m : Z) : Z :=
  match m with
  | 1 => 31 | 2 => 28 | 3 => 31 | 4 => 30 | 5 => 31 | 6 => 30
  | 7 => 31 | 8 => 31 | 9 => 30 | 10 => 31 | 11 => 30 | 12 => 31
  | _ => -1
  end.

(** [_DAYS_BEFORE_MONTH], indexed from 1. *)
Definition DAYS_BEFORE_MONTH (m : Z) : Z :=
  match m with
  | 1 => 0 | 2 => 31 | 3 => 59 | 4 => 90 | 5 => 120 | 6 => 151
  | 7 => 181 | 8 => 212 | 9 => 243 | 10 => 273 | 11 => 304 | 12 => 334
  | _ => -1
  end.

Definition days_in_month (y m : Z) : Z :=
  if (m =? 2) && is_leap y then 29 else DAYS_IN_MONTH m.

Definition days_before_year (y : Z) : Z :=
  let y := y - 1 in y * 365 + y / 4 - y / 100 + y / 400.

Definition days_before_month (y m : Z) : Z :=
  DAYS_BEFORE_MONTH m + (if (2 <? m) && is_leap y then 1 else 0).

(** The constructor [date(year, month, day)] with its range checks. *)
Definition new_date (y m d : Z) : outcome date :=
  if negb ((MINYEAR <=? y) && (y <=? MAXYEAR)) then
    Raise (ValueError "year is out of range")
  else if negb ((1 <=? m) && (m <=? 12)) then
    Raise (ValueError "month must be in 1..12")
  else if negb ((1 <=? d) && (d <=? days_in_month y m)) then
    Raise (ValueError "day is out of range for month")
  else Ok (mkdate y m d).

Definition valid (t : date) : Prop :=
  MINYEAR <= year t <= MAXYEAR /\ 1 <= month t <= 12 /\
  1 <= day t <= days_in_month (year t) (month t).

(** [d.replace(year=..., month=..., day=...)]; an omitted keyword keeps the
    field. *)
Definition replace (t : date) (y m d : option Z) : outcome date :=
  new_date (or_else y (year t)) (or_else m (month t)) (or_else d (day t)).

(** [d.toordinal()]: 0001-01-01 is day 1. *)
Definition toordinal (t : date) : Z :=
  days_before_year (year t) + days_before_month (year t) (month t) + day t.

Definition MAXORDINAL : Z := 3652059.

(** The month search that ends [_ord2ymd]: from the zero-based day of the
    year to (month, day).  The estimate [(n + 50) >> 5] is the month or one
    more. *)
Definition month_day_of_yday (leapyear : bool) (n : Z) : Z * Z :=
  let m := Z.shiftr (n + 50) 5 in
  let preceding :=
    DAYS_BEFORE_MONTH m + (if (2 <? m) && leapyear then 1 else 0) in
  if n <? preceding then
    let m := m - 1 in
    let preceding :=
      preceding - (DAYS_IN_MONTH m + (if (m =? 2) && leapyear then 1 else 0)) in
    (m, n - preceding + 1)
  else (m, n - preceding + 1).

(** [_ord2ymd]: the inverse of [toordinal], through 400-, 100-, 4- and
    1-year cycles. *)
Definition ord2ymd (n : Z) : date :=
  let n := n - 1 in
  let n400 := n / 146097 in
  let n := n mod 146097 in
  let y := n400 * 400 + 1 in
  let n100 := n / 36524 in
  let n := n mod 36524 in
  let n4 := n / 1461 in
  let n := n mod 1461 in
  let n1 := n / 365 in
  let n := n mod 365 in
  let y := y + n100 * 100 + n4 * 4 + n1 in
  if (n1 =? 4) || (n100 =? 4) then mkdate (y - 1) 12 31
  else
    let leapyear := (n1 =? 3) && (negb (n4 =? 24) || (n100 =? 3)) in
    let (m, d) := month_day_of_yday leapyear n in
    mkdate y m d.

(** [d - timedelta(days=k)]. *)
Definition sub_days (t : date) (k : Z) : outcome date :=
  let o := toordinal t - k in
  if (0 <? o) && (o <=? MAXORDINAL) then Ok (ord2ymd o)
  else Raise (OverflowError "date value out of range").

(** [d + timedelta(days=k)]. *)
Definition add_days (t : date) (k : Z) : outcome date := sub_days t (- k).

(** [d.weekday()]: Monday is 0. *)
Definition weekday (t : date) : Z := (toordinal t + 6) mod 7.


(** Dates compare as their [(year, month, day)] triples. *)
Definition date_leb (a b : date) : bool :=
  (year a <? year b) ||
  ((year a =? year b) &&
   ((month a <? month b) || ((month a =? month b) && (day a <=? day b)))).

(** [datetime.datetime] as the [DateTime] column of the store holds it: the
    calendar day and the time of day, in microseconds since midnight (the
    storage format keeps no time zone). *)
Record datetime : Type := mkdatetime { day_of : date; since_midnight : Z }.

(** A [date] bound to a [DateTime] column: the column's bind processor
    fills in the time 00:00:00. *)
Definition at_midnight (d : date) : datetime := mkdatetime d 0.

Definition date_eqb (a b : date) : bool :=
  (year a =? year b) && (month a =? month b) && (day a =? day b).

(** Date-times compare as their (day, time of day) pairs. *)
Definition datetime_leb (a b : datetime) : bool :=
  if date_eqb (day_of a) (day_of b)
  then since_midnight a <=? since_midnight b
  else date_leb (day_of a) (day_of b).

(** Whether the year at position (b, c, e) of the 400-year cycle, that is
    year 400 a + 100 b + 4 c + e + 1, is a leap year: the [leapyear] test of
    [_ord2ymd]. *)
Definition cycle_leap (b c e : Z) : bool :=
  (e =? 3) && (negb (c =? 24) || (b =? 3)).


End Calendar.

Import Calendar.

(** ** Token service (src/core/security.py) *)

Module Security.

(** src/core/settings.py: the fields the token service reads.  The values
    come from the environment; [default_settings] are the fallbacks. *)
Record Settings : Type := mkSettings {
  SECRET_KEY : string;
  ALGORITHM : string;
  ACCESS_TOKEN_EXPIRE_MINUTES : Z;
  EMAIL_TOKEN_EXPIRE_HOURS : Z
}.

Definition default_settings : Settings :=
  mkSettings "your-secret-key-change-in-production" "HS256" 15 24.

(** The claims of a token: the keys the code writes and reads.  A key that
    is absent from the payload is [None] ([payload.get] returns [None]).
    [exp] is a NumericDate, in whole seconds since the epoch. *)
Record claims : Type := mkclaims {
  sub : option string;
  type : option string;
  exp : option Z
}.

(** A bearer string is either not a JWS at all, or a JWS carrying its
    algorithm, its payload and a signature.  The signature scheme of
    python-jose is an external collaborator and is taken as ideal: a
    signature is determined by the key that produced it, and verifies
    under that key only. *)
Inductive token : Type :=
| Malformed (raw : string)
| Jws (alg : string) (signing_key : string) (payload : claims).

(** [jwt.encode(claims, key, algorithm=alg)]. *)
Definition jwt_encode (c : claims) (key alg : string) : token := Jws alg key c.

Definition signature_verifies (key : string) (algorithms : list string)
    (t : token) : bool :=
  match t with
  | Malformed _ => false
  | Jws alg k _ => existsb (String.eqb alg) algorithms && String.eqb k key
  end.

(** The token's expiry instant lies before [now]. *)
Definition expired (now : Z) (t : token) : bool :=
  match t with
  | Jws _ _ c => match exp c with Some e => e <? now | None => false end
  | Malformed _ => false
  end.

(** The type tag embedded in the token. *)
Definition type_tag (t : token) : option string :=
  match t with
  | Jws _ _ c => type c
  | Malformed _ => None
  end.

(** [jwt.decode(token, key, algorithms=algs)] at time [now]: [None] stands
    for any [JWTError] (malformed, bad signature, expired). *)
Definition jwt_decode (t : token) (key : string) (algorithms : list string)
    (now : Z) : option claims :=
  match t with
  | Malformed _ => None
  | Jws alg k c =>
      if negb (existsb (String.eqb alg) algorithms) then None
      else if negb (String.eqb k key) then None
      else match exp c with
           | Some e => if e <? now then None else Some c
           | None => Some c
           end
  end.

Definition option_string_eqb (a b : option string) : bool :=
  match a, b with
  | Some x, Some y => String.eqb x y
  | None, None => true
  | _, _ => false
  end.

Definition timedelta_hours (h : Z) : Z := h * 3600.
Definition timedelta_minutes (m : Z) : Z := m * 60.

Section WithSettings.

Variable settings : Settings.

(** [create_access_token(data, expires_delta)]; [data] is the payload so
    far.  A zero [timedelta] is falsy, like [None]. *)
Definition create_access_token (data : claims) (expires_delta : option Z)
    (utcnow : Z) : token :=
  let expire :=
    match expires_delta with
    | Some d =>
        if d =? 0 then
          utcnow + timedelta_minutes (ACCESS_TOKEN_EXPIRE_MINUTES settings)
        else utcnow + d
    | None => utcnow + timedelta_minutes (ACCESS_TOKEN_EXPIRE_MINUTES settings)
    end in
  jwt_encode (mkclaims (sub data) (type data) (Some expire))
             (SECRET_KEY settings) (ALGORITHM settings).

Definition create_email_verification_token (email : string) (utcnow : Z)
    : token :=
  let expire := utcnow + timedelta_hours (EMAIL_TOKEN_EXPIRE_HOURS settings) in
  jwt_encode (mkclaims (Some email) (Some "email_verification") (Some expire))
             (SECRET_KEY settings) (ALGORITHM settings).

Definition verify_email_token (t : token) (utcnow : Z) : option string :=
  match jwt_decode t (SECRET_KEY settings) [ALGORITHM settings] utcnow with
  | Some payload =>
      let email := sub payload in
      let token_type := type payload in
      if negb (option_string_eqb token_type (Some "email_verification"))
         || (match email with None => true | Some _ => false end)
      then None
      else email
  | None => None
  end.

Definition create_password_reset_token (email : string) (utcnow : Z)
    : token :=
  let expire := utcnow + timedelta_hours (EMAIL_TOKEN_EXPIRE_HOURS settings) in
  jwt_encode (mkclaims (Some email) (Some "password_reset") (Some expire))
             (SECRET_KEY settings) (ALGORITHM settings).

Definition verify_password_reset_token (t : token) (utcnow : Z)
    : option string :=
  match jwt_decode t (SECRET_KEY settings) [ALGORITHM settings] utcnow with
  | Some payload =>
      let email := sub payload in
      let token_type := type payload in
      if negb (option_string_eqb token_type (Some "password_reset"))
         || (match email with None => true | Some _ => false end)
      then None
      else email
  | None => None
  end.

(** [verify_token]: the decoded payload of a session token. *)
Definition verify_token (t : token) (utcnow : Z) : option claims :=
  jwt_decode t (SECRET_KEY settings) [ALGORITHM settings] utcnow.

(** The three operations that consume a token, the type tag each issues
    its tokens with ([login] issues session tokens with no [type] key), and
    whether the operation's verifier accepts a token. *)
Inductive Consumer : Type := EmailVerification | PasswordReset | SessionAccess.

Definition expected_type (c : Consumer) : option string :=
  match c with
  | EmailVerification => Some "email_verification"
  | PasswordReset => Some "password_reset"
  | SessionAccess => None
  end.

Definition is_some {A : Type} (x : option A) : bool :=
  match x with Some _ => true | None => false end.

Definition accepts (c : Consumer) (t : token) (utcnow : Z) : bool :=
  match c with
  | EmailVerification => is_some (verify_email_token t utcnow)
  | PasswordReset => is_some (verify_password_reset_token t utcnow)
  | SessionAccess => is_some (verify_token t utcnow)
  end.

(** The subject embedded in the token. *)
Definition subject (t : token) : option string :=
  match t with
  | Jws _ _ c => sub c
  | Malformed _ => None
  end.

End WithSettings.

(** [c.isupper()], [c.islower()], [c.isdigit()] on one character, and
    [s.lower()], for ASCII text. *)
Definition isupper (c : ascii) : bool :=
  let n := nat_of_ascii c in (65 <=? n)%nat && (n <=? 90)%nat.
Definition islower (c : ascii) : bool :=
  let n := nat_of_ascii c in (97 <=? n)%nat && (n <=? 122)%nat.
Definition isdigit (c : ascii) : bool :=
  let n := nat_of_ascii c in (48 <=? n)%nat && (n <=? 57)%nat.

Definition lower_char (c : ascii) : ascii :=
  if isupper c then ascii_of_nat (nat_of_ascii c + 32) else c.

Fixpoint lower (s : string) : string :=
  match s with
  | EmptyString => EmptyString
  | String c s' => String (lower_char c) (lower s')
  end.

(** [any(p(c) for c in s)]. *)
Fixpoint any (p : ascii -> bool) (s : string) : bool :=
  match s with
  | EmptyString => false
  | String c s' => p c || any p s'
  end.

Definition validate_password_strength (password : string) : bool * string :=
  if (String.length password <? 8)%nat then
    (false, "Password must be at least 8 characters long")
  else if negb (any isupper password) then
    (false, "Password must contain at least one uppercase letter")
  else if negb (any islower password) then
    (false, "Password must contain at least one lowercase letter")
  else if negb (any isdigit password) then
    (false, "Password must contain at least one number")
  else (true, "Password is valid").

End Security.

Import Security.

(** ** The relational store (src/apps/auth/models.py, src/apps/budget/models.py)

    The rows carry the columns a handler reads or a write of a handler
    changes: of the columns the database fills on its own, [created_at] of
    an expense (the export reads it) and [updated_at] of a category (every
    [UPDATE] of the row refreshes it, [onupdate=func.now()]).
    [Expense.expense_date] is a [DateTime] column: it holds a date-time,
    which the report handlers compare with the dates of a period. *)

Module User.
Record t : Type := mk {
  id : string;
  first_name : string;
  last_name : string;
  email : string;
  hashed_password : string;
  is_active : bool;
  is_verified : bool;
  refresh_token : option string;
  last_login : option Z
}.

Definition with_is_verified (v : bool) (u : t) : t :=
  mk (id u) (first_name u) (last_name u) (email u) (hashed_password u)
     (is_active u) v (refresh_token u) (last_login u).

Definition with_last_login (v : option Z) (u : t) : t :=
  mk (id u) (first_name u) (last_name u) (email u) (hashed_password u)
     (is_active u) (is_verified u) (refresh_token u) v.

(** Two rows agree on every column but [last_login]. *)
Definition same_account (a b : t) : Prop :=
  id a = id b /\ first_name a = first_name b /\ last_name a = last_name b
  /\ email a = email b /\ hashed_password a = hashed_password b
  /\ is_active a = is_active b /\ is_verified a = is_verified b
  /\ refresh_token a = refresh_token b.
End User.

Module BudgetCategory.
Record t : Type := mk {
  id : string;
  user_id : string;
  name : string;
  description : option string;
  budget_amount : Z;
  color : option string;
  icon : option string;
  is_active : bool;
  updated_at : Z
}.

Definition with_is_active (v : bool) (c : t) : t :=
  mk (id c) (user_id c) (name c) (description c) (budget_amount c)
     (color c) (icon c) v (updated_at c).

Definition with_updated_at (v : Z) (c : t) : t :=
  mk (id c) (user_id c) (name c) (description c) (budget_amount c)
     (color c) (icon c) (is_active c) v.

(** Whether two rows agree on every column. *)
Definition eqb (a b : t) : bool :=
  String.eqb (id a) (id b) && String.eqb (user_id a) (user_id b)
  && String.eqb (name a) (name b)
  && option_string_eqb (description a) (description b)
  && (budget_amount a =? budget_amount b)
  && option_string_eqb (color a) (color b)
  && option_string_eqb (icon a) (icon b)
  && Bool.eqb (is_active a) (is_active b)
  && (updated_at a =? updated_at b).

(** Two rows agree on every column but [is_active] and [updated_at]. *)
Definition same_data (a b : t) : Prop :=
  id a = id b /\ user_id a = user_id b /\ name a = name b
  /\ description a = description b /\ budget_amount a = budget_amount b
  /\ color a = color b /\ icon a = icon b.
End BudgetCategory.

Module Expense.
Record t : Type := mk {
  id : string;
  user_id : string;
  category_id : string;
  description : string;
  amount : Z;
  expense_date : datetime;
  notes : option string;
  created_at : Z
}.
End Expense.

Module Store.

Record Db : Type := mkDb {
  users : list User.t;
  budget_categories : list BudgetCategory.t;
  expenses : list Expense.t
}.

Definition with_users (us : list User.t) (db : Db) : Db :=
  mkDb us (budget_categories db) (expenses db).

(** [db.add(user); db.commit()]: the insert is refused when the primary key
    or the unique [email] column is already taken. *)
Definition add_user (u : User.t) (db : Db) : outcome Db :=
  if existsb (fun v => String.eqb (User.id v) (User.id u)) (users db) then
    Raise (IntegrityError "users.id")
  else if existsb (fun v => String.eqb (User.email v) (User.email u))
                  (users db) then
    Raise (IntegrityError "users.email")
  else Ok (with_users (users db ++ [u]) db).

(** Committing a changed attribute of a loaded row: an [UPDATE] of the
    row with that primary key. *)
Definition update_user (pk : string) (f : User.t -> User.t) (db : Db) : Db :=
  with_users
    (map (fun v => if String.eqb (User.id v) pk then f v else v) (users db))
    db.

Definition update_category (pk : string)
    (f : BudgetCategory.t -> BudgetCategory.t) (db : Db) : Db :=
  mkDb (users db)
       (map (fun c => if String.eqb (BudgetCategory.id c) pk then f c else c)
            (budget_categories db))
       (expenses db).

(** Committing a loaded category after the assignments [f]: the unit of
    work emits an [UPDATE] only when a column's value has changed, and the
    statement then also sets [updated_at] to the database's [now()]
    ([onupdate=func.now()]). *)
Definition flush_category (pk : string)
    (f : BudgetCategory.t -> BudgetCategory.t) (db_now : Z) (db : Db) : Db :=
  update_category pk
    (fun c => if BudgetCategory.eqb (f c) c then c
              else BudgetCategory.with_updated_at db_now (f c))
    db.

(** [query(Expense).filter(p).delete()]. *)
Definition delete_expenses (p : Expense.t -> bool) (db : Db) : Db :=
  mkDb (users db) (budget_categories db)
       (filter (fun e => negb (p e)) (expenses db)).

(** [db.delete(category)]: the row goes, and with it the expenses still
    attached to it (the [cascade] of [BudgetCategory.expenses]). *)
Definition delete_category (pk : string) (db : Db) : Db :=
  mkDb (users db)
       (filter (fun c => negb (String.eqb (BudgetCategory.id c) pk))
               (budget_categories db))
       (filter (fun e => negb (String.eqb (Expense.category_id e) pk))
               (expenses db)).

(** The constraints of the schema on the budget tables: [id] is the
    primary key of [budget_categories], [expenses.category_id] is a foreign
    key into it, and amounts are positive (the request schemas accept
    [gt=0] only). *)
Definition category_keys_unique (db : Db) : Prop :=
  NoDup (map BudgetCategory.id (budget_categories db)).

Definition expenses_reference_categories (db : Db) : Prop :=
  forall e, In e (expenses db) ->
    exists c, In c (budget_categories db)
              /\ BudgetCategory.id c = Expense.category_id e.

(** An expense belongs to the owner of its category ([create_expense] and
    [update_expense] look the category up under the caller's id). *)
Definition expenses_owned_by_category_owner (db : Db) : Prop :=
  forall e c, In e (expenses db) -> In c (budget_categories db) ->
    BudgetCategory.id c = Expense.category_id e ->
    Expense.user_id e = BudgetCategory.user_id c.

Definition amounts_positive (db : Db) : Prop :=
  forall e, In e (expenses db) -> 0 < Expense.amount e.

End Store.

Import Store.

(** ** Account manager (src/apps/auth/views.py) *)

Module Auth.

Record UserCreate : Type := mkUserCreate {
  uc_email : string;
  uc_first_name : string;
  uc_last_name : string;
  uc_password : string;
  uc_confirm_password : string
}.

Record UserLogin : Type := mkUserLogin {
  ul_email : string;
  ul_password : string
}.

(** A task handed to [background_tasks]: the verification or reset mail
    for (address, first name, token). *)
Record MailTask : Type := mkMailTask {
  mail_to : string;
  mail_first_name : string;
  mail_token : token
}.

Record RegisterResponse : Type := mkRegisterResponse {
  reg_message : string;
  reg_email : string;
  reg_tasks : list MailTask
}.

Record Token : Type := mkToken {
  access_token : token;
  token_type : string;
  user : User.t
}.

(** The failures, as the handlers raise them. *)
Definition DuplicateEmail : exn :=
  HTTPException 400 "Email address is already registered".
Definition WeakPassword (message : string) : exn := HTTPException 400 message.
Definition InvalidCredentials : exn :=
  HTTPException 401 "Incorrect email or password".
Definition AccountDeactivated : exn :=
  HTTPException 400 "Account has been deactivated. Please contact support.".
Definition EmailNotVerified : exn :=
  HTTPException 400 "Please verify your email address before logging in.".
Definition InvalidToken : exn :=
  HTTPException 400 "Invalid or expired verification token".
Definition UserNotFound : exn := HTTPException 404 "User not found".

Definition by_email (e : string) (u : User.t) : bool :=
  String.eqb (User.email u) e.

Section WithCollaborators.

Variable settings : Settings.

(** The credential verifier (bcrypt through passlib), an opaque
    capability. *)
Variable verify_password : string -> string -> bool.
Variable hash_password : string -> string.

(** [register]; [new_id] is the value of [uuid.uuid4()]. *)
Definition register (user_data : UserCreate) (new_id : string) (utcnow : Z)
    (db : Db) : outcome RegisterResponse * Db :=
  match first (by_email (uc_email user_data)) (users db) with
  | Some _ => (Raise DuplicateEmail, db)
  | None =>
      let (is_valid, message) :=
        validate_password_strength (uc_password user_data) in
      if negb is_valid then (Raise (WeakPassword message), db)
      else
        let hashed_password := hash_password (uc_password user_data) in
        let db_user :=
          User.mk new_id (uc_first_name user_data) (uc_last_name user_data)
                  (lower (uc_email user_data)) hashed_password
                  true false None None in
        match add_user db_user db with
        | Raise e => (Raise e, db)
        | Ok db' =>
            let verification_token :=
              create_email_verification_token settings (User.email db_user)
                                              utcnow in
            (Ok (mkRegisterResponse
                   "Registration successful! Please check your email to verify your account."
                   (User.email db_user)
                   [mkMailTask (User.email db_user) (User.first_name db_user)
                               verification_token]),
             db')
        end
  end.

Definition login (user_credentials : UserLogin) (utcnow : Z) (db : Db)
    : outcome Token * Db :=
  match first (by_email (lower (ul_email user_credentials))) (users db) with
  | None => (Raise InvalidCredentials, db)
  | Some user =>
      if negb (verify_password (ul_password user_credentials)
                               (User.hashed_password user)) then
        (Raise InvalidCredentials, db)
      else if negb (User.is_active user) then (Raise AccountDeactivated, db)
      else if negb (User.is_verified user) then (Raise EmailNotVerified, db)
      else
        let access_token_expires :=
          timedelta_minutes (ACCESS_TOKEN_EXPIRE_MINUTES settings) in
        let access_token :=
          create_access_token settings
            (mkclaims (Some (User.email user)) None None)
            (Some access_token_expires) utcnow in
        let user' := User.with_last_login (Some utcnow) user in
        (Ok (mkToken access_token "bearer" user'),
         update_user (User.id user) (User.with_last_login (Some utcnow)) db)
  end.

(** [verify_email]; an empty subject is falsy, like [None]. *)
Definition verify_email (verification_token : token) (utcnow : Z) (db : Db)
    : outcome string * Db :=
  match verify_email_token settings verification_token utcnow with
  | None => (Raise InvalidToken, db)
  | Some email =>
      if String.eqb email "" then (Raise InvalidToken, db)
      else
        match first (by_email email) (users db) with
        | None => (Raise UserNotFound, db)
        | Some user =>
            if User.is_verified user then
              (Ok "Email address is already verified", db)
            else
              (Ok "Email address verified successfully! You can now log in.",
               update_user (User.id user) (User.with_is_verified true) db)
        end
  end.

End WithCollaborators.

End Auth.

(** ** Budget ledger (src/apps/budget/categories.py) *)

Module Budget.

Definition NotFound : exn := HTTPException 404 "Budget category not found".

Definition HasExpenses (expense_count : Z) : exn :=
  HTTPException 400
    ("Cannot delete category with " ++ str expense_count
     ++ " associated expenses. Use force=true to override.")%string.

(** [BudgetCategory.id == category_id and BudgetCategory.user_id == user.id] *)
Definition owned_category (category_id : string) (current_user : User.t)
    (c : BudgetCategory.t) : bool :=
  String.eqb (BudgetCategory.id c) category_id
  && String.eqb (BudgetCategory.user_id c) (User.id current_user).

(** [Expense.category_id == category_id and Expense.user_id == user.id] *)
Definition expense_of (category_id : string) (current_user : User.t)
    (e : Expense.t) : bool :=
  String.eqb (Expense.category_id e) category_id
  && String.eqb (Expense.user_id e) (User.id current_user).

(** [BudgetCategory.user_id == user.id and BudgetCategory.is_active == True] *)
Definition active_category_of (current_user : User.t) (c : BudgetCategory.t)
    : bool :=
  String.eqb (BudgetCategory.user_id c) (User.id current_user)
  && Bool.eqb (BudgetCategory.is_active c) true.

(** [delete_budget_category]; [db_now] is the database's [now()] at the
    commit. *)
Definition delete_budget_category (category_id : string)
    (current_user : User.t) (force : bool) (db_now : Z) (db : Db)
    : outcome string * Db :=
  match first (owned_category category_id current_user)
              (budget_categories db) with
  | None => (Raise NotFound, db)
  | Some category =>
      let expense_count :=
        count_of (filter (expense_of category_id current_user)
                         (expenses db)) in
      if (0 <? expense_count) && negb force then
        (Raise (HasExpenses expense_count), db)
      else
        let db' :=
          if force then
            delete_category (BudgetCategory.id category)
              (delete_expenses (expense_of category_id current_user) db)
          else
            flush_category (BudgetCategory.id category)
              (BudgetCategory.with_is_active false) db_now db in
        let action := if force then "deleted" else "deactivated" in
        (Ok ("Budget category " ++ action ++ " successfully")%string, db')
  end.

(** [(spent / budget * 100) if budget > 0 else 0], the conditional
    expression every derived percentage is computed with. *)
Definition percent_of (spent budget : Z) : outcome Q :=
  if 0 <? budget then
    q <- truediv (inject_Z spent) (inject_Z budget) ;; Ok (q * 100)%Q
  else Ok 0%Q.





(** The constructor of a pydantic model, the call [Model(field=value, ...)], as far as a
    handler depends on it: a call that leaves out a required field raises
    [ValidationError]; keywords the model does not declare are ignored. *)
Definition construct {A : Type} (model : string)
    (required keywords : list string) (values : A) : outcome A :=
  if forallb (fun field => existsb (String.eqb field) keywords) required
  then Ok values
  else Raise (ValidationError model).




End Budget.

(** ** Report aggregator (src/apps/budget/reports.py) *)

Module Reports.

Import Budget.

Inductive PeriodType : Type := WEEK | MONTH | QUARTER | YEAR | CUSTOM.

Inductive ExportFormat : Type := CSV | PDF | EXCEL.


Definition UnsupportedFormat : exn :=
  HTTPException 400 "Only CSV export is currently supported".

(** [replace(...) - timedelta(days=1)]. *)
Definition day_before (d : outcome date) : outcome date :=
  x <- d ;; sub_days x 1.

Definition get_period_dates (period : PeriodType)
    (start_date end_date : option date) (today : date)
    : outcome (date * date) :=
  match period, start_date, end_date with
  | CUSTOM, Some s, Some e => Ok (s, e)
  | WEEK, _, _ =>
      start <- sub_days today (weekday today) ;;
      end_ <- add_days start 6 ;;
      Ok (start, end_)
  | MONTH, _, _ =>
      start <- replace today None None (Some 1) ;;
      end_ <- (if month today =? 12 then
                 day_before (replace today (Some (year today + 1)) (Some 1)
                                     (Some 1))
               else
                 day_before (replace today None (Some (month today + 1))
                                     (Some 1))) ;;
      Ok (start, end_)
  | QUARTER, _, _ =>
      let quarter_month := ((month today - 1) / 3) * 3 + 1 in
      start <- replace today None (Some quarter_month) (Some 1) ;;
      end_ <- (if quarter_month + 2 <=? 12 then
                 day_before (replace today None (Some (quarter_month + 3))
                                     (Some 1))
               else
                 day_before (replace today (Some (year today + 1)) (Some 1)
                                     (Some 1))) ;;
      Ok (start, end_)
  | YEAR, _, _ =>
      start <- replace today None (Some 1) (Some 1) ;;
      end_ <- replace today None (Some 12) (Some 31) ;;
      Ok (start, end_)
  | _, _, _ =>
      start <- replace today None None (Some 1) ;;
      Ok (start, today)
  end.

(** [Expense.expense_date >= period_start and
     Expense.expense_date <= period_end]: the column is a date-time, each
    bound a date, which the comparison binds as that day's midnight. *)
Definition in_period (period_start period_end : date) (e : Expense.t) : bool :=
  datetime_leb (at_midnight period_start) (Expense.expense_date e)
  && datetime_leb (Expense.expense_date e) (at_midnight period_end).

(** [Expense.user_id == user.id] and the expense date is in the period. *)
Definition spent_in_period (current_user : User.t)
    (period_start period_end : date) (e : Expense.t) : bool :=
  String.eqb (Expense.user_id e) (User.id current_user)
  && in_period period_start period_end e.


(** The total budget of the caller's active categories:
    [query(func.sum(BudgetCategory.budget_amount)).filter(...).scalar() or 0]. *)
Definition total_active_budget (current_user : User.t) (db : Db) : Z :=
  or_else (func_sum BudgetCategory.budget_amount
             (filter (active_category_of current_user)
                     (budget_categories db))) 0.










(** A cell of the CSV file, by the value written into it. *)
Inductive Cell : Type :=
| Text (s : string)
| IsoFormat (d : datetime)
| Number (cents : Z)
| IsoDateTime (t : Z).

Definition header_row : list Cell :=
  [Text "Date"; Text "Amount"; Text "Description"; Text "Category";
   Text "Created At"].

Definition data_row (r : Expense.t * string) : list Cell :=
  let (expense, category_name) := r in
  [IsoFormat (Expense.expense_date expense);
   Number (Expense.amount expense);
   Text (Expense.description expense);
   Text category_name;
   IsoDateTime (Expense.created_at expense)].

(** [query(Expense, BudgetCategory.name).join(BudgetCategory,
     Expense.category_id == BudgetCategory.id)]: one pair per expense and
    matching category row. *)
Definition join_category_name (cats : list BudgetCategory.t)
    (es : list Expense.t) : list (Expense.t * string) :=
  flat_map (fun e =>
              map (fun c => (e, BudgetCategory.name c))
                  (filter (fun c => String.eqb (Expense.category_id e)
                                               (BudgetCategory.id c)) cats))
           es.

(** [order_by(Expense.expense_date.desc())], as a stable insertion sort. *)
Fixpoint insert_desc (r : Expense.t * string)
    (l : list (Expense.t * string)) : list (Expense.t * string) :=
  match l with
  | [] => [r]
  | r' :: l' =>
      if datetime_leb (Expense.expense_date (fst r'))
                      (Expense.expense_date (fst r))
      then r :: r' :: l'
      else r' :: insert_desc r l'
  end.

Definition order_by_expense_date_desc (l : list (Expense.t * string))
    : list (Expense.t * string) :=
  fold_right insert_desc [] l.


Record CsvResponse : Type := mkCsvResponse {
  csv_rows : list (list Cell);
  media_type : string;
  attachment_period : date * date
}.

Definition export_report_data (format : ExportFormat) (period : PeriodType)
    (start_date end_date : option date) (current_user : User.t) (db : Db)
    (today : date) : outcome CsvResponse :=
  match format with
  | CSV =>
      p <- get_period_dates period start_date end_date today ;;
      let (period_start, period_end) := p in
      let expenses :=
        order_by_expense_date_desc
          (join_category_name (budget_categories db)
             (filter (spent_in_period current_user period_start period_end)
                     (expenses db))) in
      Ok (mkCsvResponse (header_row :: map data_row expenses) "text/csv"
                        (period_start, period_end))
  | _ => Raise UnsupportedFormat
  end.

End Reports.

Import Reports.

(** ** Account manager: verification mail and passwords
       (src/apps/auth/views.py, the other handlers) *)

Module Recovery.

Import Auth.

Definition AlreadyVerified : exn :=
  HTTPException 400 "Email address is already verified".
Definition InvalidResetToken : exn :=
  HTTPException 400 "Invalid or expired password reset token".
Definition WrongCurrentPassword : exn :=
  HTTPException 400 "Current password is incorrect".
Definition SamePassword : exn :=
  HTTPException 400 "New password must be different from current password".

Definition with_hashed_password (h : string) (u : User.t) : User.t :=
  User.mk (User.id u) (User.first_name u) (User.last_name u) (User.email u)
          h (User.is_active u) (User.is_verified u) (User.refresh_token u)
          (User.last_login u).

(** The two mails a handler can queue, by the method of the mail service it
    hands to [background_tasks]. *)
Inductive Task : Type :=
| send_verification_email (m : MailTask)
| send_password_reset_email (m : MailTask).

Record Ack : Type := mkAck {
  ack_message : string;
  ack_tasks : list Task
}.

(** The one acknowledgment of [forgot_password]. *)
Definition reset_ack : string :=
  "If the email address is registered, a password reset email has been sent.".

Section WithCollaborators.

Variable settings : Settings.
Variable verify_password : string -> string -> bool.
Variable hash_password : string -> string.

Definition resend_verification (email : string) (utcnow : Z) (db : Db)
    : outcome Ack :=
  match first (by_email (lower email)) (users db) with
  | None =>
      Ok (mkAck
            "If the email address is registered, a verification email has been sent."
            [])
  | Some user =>
      if User.is_verified user then Raise AlreadyVerified
      else
        let verification_token :=
          create_email_verification_token settings (User.email user) utcnow in
        Ok (mkAck "Verification email sent successfully!"
                  [send_verification_email
                     (mkMailTask (User.email user) (User.first_name user)
                                 verification_token)])
  end.

Definition forgot_password (email : string) (utcnow : Z) (db : Db)
    : outcome Ack :=
  match first (by_email (lower email)) (users db) with
  | None => Ok (mkAck reset_ack [])
  | Some user =>
      if negb (User.is_active user) then Ok (mkAck reset_ack [])
      else
        let reset_token :=
          create_password_reset_token settings (User.email user) utcnow in
        Ok (mkAck reset_ack
                  [send_password_reset_email
                     (mkMailTask (User.email user) (User.first_name user)
                                 reset_token)])
  end.

(** [reset_password]; an empty subject is falsy, like [None]. *)
Definition reset_password (reset_token : token) (new_password : string)
    (utcnow : Z) (db : Db) : outcome string * Db :=
  match verify_password_reset_token settings reset_token utcnow with
  | None => (Raise InvalidResetToken, db)
  | Some email =>
      if String.eqb email "" then (Raise InvalidResetToken, db)
      else
        match first (by_email email) (users db) with
        | None => (Raise UserNotFound, db)
        | Some user =>
            if negb (User.is_active user) then (Raise AccountDeactivated, db)
            else
              let (is_valid, message) :=
                validate_password_strength new_password in
              if negb is_valid then (Raise (WeakPassword message), db)
              else
                (Ok "Password reset successfully! You can now log in with your new password.",
                 update_user (User.id user)
                   (with_hashed_password (hash_password new_password)) db)
        end
  end.

(** [change_password]; [current_user] is the row the session resolved
    to, and the answer is the pair of its [success] and [message]. *)
Definition change_password (current_password new_password : string)
    (current_user : User.t) (db : Db) : outcome (bool * string) * Db :=
  if negb (verify_password current_password
                           (User.hashed_password current_user)) then
    (Raise WrongCurrentPassword, db)
  else if verify_password new_password (User.hashed_password current_user)
  then (Raise SamePassword, db)
  else
    let (is_valid, message) := validate_password_strength new_password in
    if negb is_valid then (Raise (WeakPassword message), db)
    else
      (Ok (true, "Password changed successfully!"),
       update_user (User.id current_user)
         (with_hashed_password (hash_password new_password)) db).

End WithCollaborators.

End Recovery.

(** ** Account manager: the constraints of the users table and the calls
       that write it *)

Module Accounts.

Import Auth Recovery.

(** The constraints of the schema on [users]: [id] is the primary key,
    [email] is unique, and every stored address is in lower case (the one
    insert, in [register], lower-cases it). *)
Definition users_consistent (db : Db) : Prop :=
  NoDup (map User.id (users db))
  /\ NoDup (map User.email (users db))
  /\ Forall (fun e => lower e = e) (map User.email (users db)).

Section Steps.

Variable settings : Settings.
Variable verify_password : string -> string -> bool.
Variable hash_password : string -> string.

(** One call of a handler of the account manager that can write, whatever
    it ends in. *)
Inductive account_step : Db -> Db -> Prop :=
| register_step user_data new_id utcnow db r db' :
    register settings hash_password user_data new_id utcnow db = (r, db') ->
    account_step db db'
| login_step user_credentials utcnow db r db' :
    login settings verify_password user_credentials utcnow db = (r, db') ->
    account_step db db'
| verify_email_step verification_token utcnow db r db' :
    verify_email settings verification_token utcnow db = (r, db') ->
    account_step db db'
| reset_password_step reset_token new_password utcnow db r db' :
    reset_password settings hash_password reset_token new_password utcnow db
    = (r, db') ->
    account_step db db'
| change_password_step current_password new_password current_user db r db' :
    change_password verify_password hash_password current_password
                    new_password current_user db = (r, db') ->
    account_step db db'.

End Steps.

End Accounts.

(** ** Report aggregator: spending trends (src/apps/budget/reports.py) *)

Module Trends.

Import Budget.

Record TrendData : Type := mkTrendData {
  tr_period : Z * Z;
  tr_amount : Z;
  tr_budget : Z;
  tr_utilization : Q
}.

(** [range(n)] *)
Definition range (n : Z) : list Z := map Z.of_nat (seq 0 (Z.to_nat n)).

(** The (year, month) that lies [i] months before today's, as the loop
    computes it: at most one step back over a year's end. *)
Definition months_back (today : date) (i : Z) : Z * Z :=
  if month today - i <=? 0 then (year today - 1, month today - i + 12)
  else (year today, month today - i).

(** One turn of the loop of [get_spending_trends], for the month [i] months
    back; the entry's label [f"{year}-{month:02d}"] is held as the pair it
    prints. *)
Definition trend_of_month (total_budget : Z) (current_user : User.t)
    (db : Db) (today : date) (i : Z) : outcome TrendData :=
  let (year, month) := months_back today i in
  period_start <- new_date year month 1 ;;
  period_end <-
    (if month =? 12 then day_before (new_date (year + 1) 1 1)
     else day_before (new_date year (month + 1) 1)) ;;
  let spent :=
    or_else (func_sum Expense.amount
               (filter (spent_in_period current_user period_start period_end)
                       (expenses db))) 0 in
  utilization <- percent_of spent total_budget ;;
  Ok (mkTrendData (year, month) spent total_budget utilization).

Definition get_spending_trends (months : Z) (current_user : User.t) (db : Db)
    (today : date) : outcome (list TrendData) :=
  let total_budget := total_active_budget current_user db in
  trends <-
    for_each (trend_of_month total_budget current_user db today)
             (range months) ;;
  Ok (rev trends).

(** One turn of the loop in closed form, for a month the calendar has: the
    bounds are the first and the last day of the month. *)
Definition month_entry (current_user : User.t) (db : Db) (today : date)
    (i : Z) : TrendData :=
  let (y, m) := months_back today i in
  let spent :=
    sum_of Expense.amount
      (filter (spent_in_period current_user (mkdate y m 1)
                               (mkdate y m (days_in_month y m)))
              (expenses db)) in
  let budget := total_active_budget current_user db in
  mkTrendData (y, m) spent budget
    (if 0 <? budget then (inject_Z spent / inject_Z budget * 100)%Q
     else 0%Q).

End Trends.

(** ** Budget ledger: expenses (src/apps/budget/expenses.py), the creation
       of a category (src/apps/budget/categories.py), the recent expenses
       (src/apps/budget/reports.py) *)

Module Ledger.

Import Budget Reports.

Definition ExpenseNotFound : exn := HTTPException 404 "Expense not found".

Definition DuplicateName (name : string) : exn :=
  HTTPException 400 ("Budget category '" ++ name ++ "' already exists")%string.

(** [c.isspace()] on an ASCII character: tab to carriage return, the four
    separators and the space. *)
Definition isspace (c : ascii) : bool :=
  let n := nat_of_ascii c in
  ((9 <=? n) && (n <=? 13) || (28 <=? n) && (n <=? 32))%nat.

Fixpoint lstrip (l : list ascii) : list ascii :=
  match l with
  | c :: l' => if isspace c then lstrip l' else l
  | [] => []
  end.

(** [s.strip()] *)
Definition strip (s : string) : string :=
  string_of_list_ascii
    (rev (lstrip (rev (lstrip (list_ascii_of_string s))))).

(** Reading an attribute of a request model: a name the model does not
    declare raises [AttributeError]. *)
Definition getattr {A : Type} (model : string) (fields : list string)
    (name : string) (value : A) : outcome A :=
  if existsb (String.eqb name) fields then Ok value
  else Raise (AttributeError model name).

(** *** Creating a category *)

(** src/apps/budget/schemas.py, [class BudgetCategoryCreate]: the fields of
    [BudgetCategoryBase], and no other. *)
Record BudgetCategoryCreate : Type := mkBudgetCategoryCreate {
  bc_name : string;
  bc_budget_amount : Z;
  bc_color : string
}.

Definition BudgetCategoryCreate_fields : list string :=
  ["name"; "budget_amount"; "color"].

(** [BudgetCategory.user_id == user.id and BudgetCategory.name == name and
     BudgetCategory.is_active == True] *)
Definition active_category_named (name : string) (current_user : User.t)
    (c : BudgetCategory.t) : bool :=
  String.eqb (BudgetCategory.user_id c) (User.id current_user)
  && String.eqb (BudgetCategory.name c) name
  && Bool.eqb (BudgetCategory.is_active c) true.

(** [db.add(category); db.commit()] *)
Definition add_category (c : BudgetCategory.t) (db : Db) : outcome Db :=
  if existsb (fun v => String.eqb (BudgetCategory.id v) (BudgetCategory.id c))
             (budget_categories db)
  then Raise (IntegrityError "budget_categories.id")
  else Ok (mkDb (users db) (budget_categories db ++ [c]) (expenses db)).

(** src/apps/budget/schemas.py, [class BudgetCategoryResponse]: the fields
    declared without a default. *)
Definition BudgetCategoryResponse_required : list string :=
  ["name"; "budget_amount"; "color"; "id"; "user_id"; "created_at";
   "updated_at"].

(** [create_budget_category]; the arguments of [BudgetCategory(...)] are
    evaluated in the order they are written, and the answer is held as the
    row, the spent amount and the remaining budget handed to the response
    model. *)
Definition create_budget_category (category_data : BudgetCategoryCreate)
    (current_user : User.t) (new_id : string) (db_now : Z) (db : Db)
    : outcome (BudgetCategory.t * Z * Z) * Db :=
  match first (active_category_named (bc_name category_data) current_user)
              (budget_categories db) with
  | Some _ => (Raise (DuplicateName (bc_name category_data)), db)
  | None =>
      match
        (name <- getattr "BudgetCategoryCreate" BudgetCategoryCreate_fields
                         "name" (bc_name category_data) ;;
         description <- getattr "BudgetCategoryCreate"
                                BudgetCategoryCreate_fields
                                "description" (@None string) ;;
         budget_amount <- getattr "BudgetCategoryCreate"
                                  BudgetCategoryCreate_fields
                                  "budget_amount"
                                  (bc_budget_amount category_data) ;;
         color <- getattr "BudgetCategoryCreate" BudgetCategoryCreate_fields
                          "color" (bc_color category_data) ;;
         icon <- getattr "BudgetCategoryCreate" BudgetCategoryCreate_fields
                         "icon" (@None string) ;;
         let new_category :=
           BudgetCategory.mk new_id (User.id current_user) name description
                             budget_amount (Some color) icon true db_now in
         db' <- add_category new_category db ;;
         Ok (new_category, db'))
      with
      | Raise e => (Raise e, db)
      | Ok (new_category, db') =>
          let spent_amount :=
            or_else (func_sum Expense.amount
                       (filter (expense_of (BudgetCategory.id new_category)
                                           current_user)
                               (expenses db'))) 0 in
          let remaining_budget :=
            BudgetCategory.budget_amount new_category - spent_amount in
          (construct "BudgetCategoryResponse" BudgetCategoryResponse_required
             ["id"; "name"; "description"; "budget_amount"; "spent_amount";
              "remaining_budget"; "user_id"; "color"; "icon"; "is_active";
              "created_at"; "updated_at"]
             (new_category, spent_amount, remaining_budget),
           db')
      end
  end.

(** *** Expenses *)

(** src/apps/budget/schemas.py, [class ExpenseCreate]. *)
Record ExpenseCreate : Type := mkExpenseCreate {
  ec_description : string;
  ec_amount : Z;
  ec_expense_date : datetime;
  ec_notes : option string;
  ec_category_id : string
}.

(** src/apps/budget/schemas.py, [class ExpenseResponse], as far as the
    handlers fill it: [notes], [category_color] and [category_budget] keep
    their default [None]. *)
Record ExpenseResponse : Type := mkExpenseResponse {
  er_id : string;
  er_amount : Z;
  er_description : string;
  er_category_id : string;
  er_category_name : option string;
  er_user_id : string;
  er_expense_date : datetime;
  er_created_at : Z;
  er_remaining_budget : option Z
}.

Definition ExpenseResponse_required : list string :=
  ["description"; "amount"; "expense_date"; "id"; "user_id"; "category_id";
   "created_at"].

(** The call [ExpenseResponse(id=expense.id, amount=expense.amount, ...,
    category_name=..., remaining_budget=...)] the three handlers end in: the
    model validates [description] (1 to 200 characters, then stripped) and
    [amount] (greater than 0), and ignores the keyword [updated_at], which
    it does not declare. *)
Definition ExpenseResponse_of (expense : Expense.t) (category_name : string)
    (remaining_budget : Z) : outcome ExpenseResponse :=
  if (1 <=? String.length (Expense.description expense))%nat
     && (String.length (Expense.description expense) <=? 200)%nat
     && (0 <? Expense.amount expense)
  then
    construct "ExpenseResponse" ExpenseResponse_required
      ["id"; "amount"; "description"; "category_id"; "category_name";
       "user_id"; "expense_date"; "created_at"; "updated_at";
       "remaining_budget"]
      (mkExpenseResponse (Expense.id expense) (Expense.amount expense)
         (strip (Expense.description expense)) (Expense.category_id expense)
         (Some category_name) (Expense.user_id expense)
         (Expense.expense_date expense) (Expense.created_at expense)
         (Some remaining_budget))
  else Raise (ValidationError "ExpenseResponse").

(** [db.add(expense); db.commit()] *)
Definition add_expense (e : Expense.t) (db : Db) : outcome Db :=
  if existsb (fun v => String.eqb (Expense.id v) (Expense.id e)) (expenses db)
  then Raise (IntegrityError "expenses.id")
  else Ok (mkDb (users db) (budget_categories db) (expenses db ++ [e])).

(** [category.budget_amount - total_spent], the total being
    [func.sum(Expense.amount)] over the caller's expenses in the category,
    [or 0]. *)
Definition remaining_budget_of (budget_amount : Z) (category_id : string)
    (current_user : User.t) (db : Db) : Z :=
  budget_amount
  - or_else (func_sum Expense.amount
               (filter (expense_of category_id current_user) (expenses db)))
            0.

(** [create_expense]; [new_id] is the [uuid4] drawn, [db_now] the
    database's [now()] at the insert.  An [expense_date] of the request is
    a date-time, which is never falsy, so the [or] keeps it; the [notes] of
    the request are not read. *)
Definition create_expense (expense_data : ExpenseCreate)
    (current_user : User.t) (new_id : string) (db_now : Z) (db : Db)
    : outcome ExpenseResponse * Db :=
  match first (owned_category (ec_category_id expense_data) current_user)
              (budget_categories db) with
  | None => (Raise NotFound, db)
  | Some category =>
      let new_expense :=
        Expense.mk new_id (User.id current_user)
                   (ec_category_id expense_data)
                   (ec_description expense_data) (ec_amount expense_data)
                   (ec_expense_date expense_data) None db_now in
      match add_expense new_expense db with
      | Raise e => (Raise e, db)
      | Ok db' =>
          (ExpenseResponse_of new_expense (BudgetCategory.name category)
             (remaining_budget_of (BudgetCategory.budget_amount category)
                (BudgetCategory.id category) current_user db'),
           db')
      end
  end.

(** [Expense.id == expense_id and Expense.user_id == user.id] *)
Definition owned_expense (expense_id : string) (current_user : User.t)
    (e : Expense.t) : bool :=
  String.eqb (Expense.id e) expense_id
  && String.eqb (Expense.user_id e) (User.id current_user).

(** The row [expense.category] loads: the category with the expense's
    [category_id] as primary key. *)
Definition category_of (expense : Expense.t) (db : Db)
    : option BudgetCategory.t :=
  first (fun c => String.eqb (BudgetCategory.id c)
                             (Expense.category_id expense))
        (budget_categories db).

(** [get_expense]: the query joins the categories, so an expense without
    its category row is not found. *)
Definition get_expense (expense_id : string) (current_user : User.t)
    (db : Db) : outcome ExpenseResponse :=
  match first (fun e => owned_expense expense_id current_user e
                        && is_some (category_of e db))
              (expenses db) with
  | None => Raise ExpenseNotFound
  | Some expense =>
      match category_of expense db with
      | None => Raise (AttributeError "NoneType" "budget_amount")
      | Some category =>
          ExpenseResponse_of expense (BudgetCategory.name category)
            (remaining_budget_of (BudgetCategory.budget_amount category)
               (Expense.category_id expense) current_user db)
      end
  end.

(** [delete_expense]: [db.delete(expense)] deletes by primary key. *)
Definition delete_expense (expense_id : string) (current_user : User.t)
    (db : Db) : outcome string * Db :=
  match first (owned_expense expense_id current_user) (expenses db) with
  | None => (Raise ExpenseNotFound, db)
  | Some expense =>
      (Ok "Expense deleted successfully",
       delete_expenses
         (fun e => String.eqb (Expense.id e) (Expense.id expense)) db)
  end.

(** *** Recent expenses *)

Record RecentExpenseData : Type := mkRecentExpenseData {
  re_id : string;
  re_amount : Z;
  re_description : string;
  re_category_name : string;
  re_expense_date : datetime;
  re_days_ago : Z
}.

(** [d - t] for a date [d] and a date-time [t]: [date.__sub__] answers
    [NotImplemented] for a date-time operand, and so does the reflected
    operation of the date-time, so the operator raises. *)
Definition date_minus_datetime (d : date) (t : datetime) : outcome Z :=
  Raise (TypeError
           "unsupported operand type(s) for -: 'datetime.date' and 'datetime.datetime'").

(** [order_by(Expense.expense_date.desc(), Expense.created_at.desc())], as
    a stable insertion sort. *)
Definition more_recent (a b : Expense.t) : bool :=
  if datetime_leb (Expense.expense_date a) (Expense.expense_date b)
     && datetime_leb (Expense.expense_date b) (Expense.expense_date a)
  then Expense.created_at b <=? Expense.created_at a
  else datetime_leb (Expense.expense_date b) (Expense.expense_date a).

Fixpoint insert_recent (r : Expense.t * string)
    (l : list (Expense.t * string)) : list (Expense.t * string) :=
  match l with
  | [] => [r]
  | r' :: l' =>
      if more_recent (fst r) (fst r') then r :: r' :: l'
      else r' :: insert_recent r l'
  end.

Definition order_by_recent (l : list (Expense.t * string))
    : list (Expense.t * string) :=
  fold_right insert_recent [] l.

(** [get_recent_expenses] *)
Definition get_recent_expenses (limit : Z) (current_user : User.t) (db : Db)
    (today : date) : outcome (list RecentExpenseData) :=
  let recent_expenses :=
    firstn (Z.to_nat limit)
      (order_by_recent
         (join_category_name (budget_categories db)
            (filter (fun e => String.eqb (Expense.user_id e)
                                         (User.id current_user))
                    (expenses db)))) in
  for_each (fun r =>
              let (expense, category_name) := r : Expense.t * string in
              days_ago <- date_minus_datetime today
                            (Expense.expense_date expense) ;;
              Ok (mkRecentExpenseData (Expense.id expense)
                    (Expense.amount expense) (Expense.description expense)
                    category_name (Expense.expense_date expense) days_ago))
           recent_expenses.

(** *** The constraints of the budget tables and the calls that write
        them *)

(** [id] is the primary key of [expenses]. *)
Definition expense_keys_unique (db : Db) : Prop :=
  NoDup (map Expense.id (expenses db)).

Definition ledger_consistent (db : Db) : Prop :=
  category_keys_unique db
  /\ expense_keys_unique db
  /\ expenses_reference_categories db
  /\ expenses_owned_by_category_owner db
  /\ amounts_positive db.

(** One call by [actor] of [create_budget_category], [create_expense],
    [delete_expense] or [delete_budget_category], whatever it ends in.  The
    request schema of an expense accepts positive amounts only. *)
Inductive ledger_step (actor : User.t) : Db -> Db -> Prop :=
| create_budget_category_step category_data new_id db_now db r db' :
    create_budget_category category_data actor new_id db_now db = (r, db') ->
    ledger_step actor db db'
| create_expense_step expense_data new_id db_now db r db' :
    0 < ec_amount expense_data ->
    create_expense expense_data actor new_id db_now db = (r, db') ->
    ledger_step actor db db'
| delete_expense_step expense_id db r db' :
    delete_expense expense_id actor db = (r, db') ->
    ledger_step actor db db'
| delete_budget_category_step category_id force db_now db r db' :
    delete_budget_category category_id actor force db_now db = (r, db') ->
    ledger_step actor db db'.

(** The rows of the budget tables that belong to other users than
    [actor]. *)
Definition rows_of_others (actor : User.t) (db : Db)
    : list BudgetCategory.t * list Expense.t :=
  (filter (fun c => negb (String.eqb (BudgetCategory.user_id c)
                                     (User.id actor)))
          (budget_categories db),
   filter (fun e => negb (String.eqb (Expense.user_id e) (User.id actor)))
          (expenses db)).

End Ledger.

(** ** A small store to run the handlers on *)

Module Samples.

(** A stand-in for the credential verifier: the hash is the password
    behind a fixed prefix. *)
Definition sample_hash (password : string) : string :=
  ("bcrypt:" ++ password)%string.

Definition sample_verify (plain hashed : string) : bool :=
  String.eqb (sample_hash plain) hashed.

Definition alice : User.t :=
  User.mk "u1" "Alice" "Smith" "alice@example.com"
          (sample_hash "Str0ngPassw0rd") true true None None.

(** Active, not yet verified. *)
Definition bob : User.t :=
  User.mk "u2" "Bob" "Jones" "bob@example.com"
          (sample_hash "An0therPassw0rd") true false None None.

(** Verified, deactivated. *)
Definition carol : User.t :=
  User.mk "u3" "Carol" "King" "carol@example.com"
          (sample_hash "Th1rdPassw0rd") false true None None.

(** Budget 100.00, two expenses: 30.00 and 45.50. *)
Definition food : BudgetCategory.t :=
  BudgetCategory.mk "c1" "u1" "Food" None 10000 (Some "#FF5733") None true
                    1709000000.

(** Soft-deleted, with one expense still attached. *)
Definition travel : BudgetCategory.t :=
  BudgetCategory.mk "c2" "u1" "Travel" None 5000 (Some "#3366FF") None false
                    1709700000.

(** A category of alice's with no expense. *)
Definition books : BudgetCategory.t :=
  BudgetCategory.mk "c3" "u1" "Books" None 2000 (Some "#33AA55") None true
                    1709100000.

(** A time of day, in microseconds since midnight. *)
Definition clock (hour minute : Z) : Z := (hour * 3600 + minute * 60) * 1000000.

(** 2024-03-10 12:30. *)
Definition lunch : Expense.t :=
  Expense.mk "e1" "u1" "c1" "Lunch" 3000
             (mkdatetime (mkdate 2024 3 10) (clock 12 30)) None 1710064800.

(** 2024-03-12 18:00. *)
Definition groceries : Expense.t :=
  Expense.mk "e2" "u1" "c1" "Groceries" 4550
             (mkdatetime (mkdate 2024 3 12) (clock 18 0)) None 1710237600.

(** 2024-03-05 09:15. *)
Definition train : Expense.t :=
  Expense.mk "e3" "u1" "c2" "Train" 2000
             (mkdatetime (mkdate 2024 3 5) (clock 9 15)) None 1709632800.

Definition sample_db : Db :=
  mkDb [alice; bob; carol] [food; travel] [lunch; groceries; train].

(** The same store with the third category. *)
Definition library_db : Db :=
  mkDb [alice; bob; carol] [food; travel; books] [lunch; groceries; train].

Definition today : date := mkdate 2024 3 15.

(** A request of alice's: a coffee of 4.50 on 2024-03-14 at 08:00, in her
    food budget. *)
Definition coffee : Ledger.ExpenseCreate :=
  Ledger.mkExpenseCreate "Coffee" 450
    (mkdatetime (mkdate 2024 3 14) (clock 8 0)) (Some "with milk") "c1".

(** A budget of bob's, with one expense, and the store that holds it
    beside alice's rows. *)
Definition rent : BudgetCategory.t :=
  BudgetCategory.mk "c4" "u2" "Rent" None 80000 (Some "#884422") None true
                    1709200000.

Definition deposit : Expense.t :=
  Expense.mk "e5" "u2" "c4" "Deposit" 50000
             (mkdatetime (mkdate 2024 3 1) (clock 10 0)) None 1709287200.

Definition shared_db : Db :=
  mkDb [alice; bob; carol] [food; travel; rent]
       [lunch; groceries; train; deposit].

(** The verification mail tokens [register] issues for alice and for
    bob. *)
Definition sample_verification_token : token :=
  create_email_verification_token default_settings "alice@example.com"
                                  1700000000.

Definition bobs_token : token :=
  create_email_verification_token default_settings "bob@example.com"
                                  1700000000.

End Samples.

(** * Properties *)

(** ** Token service *)

Section TokenService.

Variable settings : Settings.

Let key := SECRET_KEY settings.
Let algs := [ALGORITHM settings].

Lemma jwt_decode_some (t : token) (now : Z) (c : claims) :
  jwt_decode t key algs now = Some c ->
  signature_verifies key algs t = true /\ expired now t = false /\
  exists alg k, t = Jws alg k c.
Proof.
  destruct t as [raw | alg k p]; simpl; [discriminate |].
  destruct (String.eqb alg (ALGORITHM settings)) eqn:Ealg; simpl;
    [| discriminate].
  destruct (String.eqb k key) eqn:Ek; simpl; [| discriminate].
  destruct (exp p) as [e |] eqn:Eexp.
  - destruct (e <? now) eqn:Elt; [discriminate |].
    intros H; inversion H; subst. repeat split; eauto.
  - intros H; inversion H; subst. repeat split; eauto.
Qed.

Lemma jwt_decode_complete (t : token) (now : Z) :
  signature_verifies key algs t = true -> expired now t = false ->
  exists alg k c, t = Jws alg k c /\ jwt_decode t key algs now = Some c.
Proof.
  destruct t as [raw | alg k p]; simpl; [discriminate |].
  intros Hs He. exists alg, k, p. split; [reflexivity |].
  apply andb_prop in Hs as [Ha Hk]. rewrite Ha, Hk. simpl.
  destruct (exp p); [rewrite He |]; reflexivity.
Qed.

Lemma option_string_eqb_eq (a b : option string) :
  option_string_eqb a b = true <-> a = b.
Proof.
  destruct a, b; simpl; split; intros H; try discriminate; try reflexivity.
  - apply String.eqb_eq in H. now subst.
  - inversion H. apply String.eqb_refl.
Qed.

(** The two typed verifiers differ in their tag only: decode, compare the
    tag, require a subject. *)
Ltac typed_consumer :=
  match goal with
  | |- context [jwt_decode ?t ?key ?algs ?now] =>
      split;
      [ let c := fresh "c" in
        let Hd := fresh "Hd" in
        destruct (jwt_decode t key algs now) as [c |] eqn:Hd;
        [| discriminate];
        apply jwt_decode_some in Hd as (? & ? & ? & ? & ->);
        let Ht := fresh "Ht" in
        destruct (option_string_eqb (type c) _) eqn:Ht; simpl;
        [| discriminate];
        apply option_string_eqb_eq in Ht;
        destruct (sub c) eqn:?; simpl; [| discriminate];
        let H := fresh "H" in
        intros H; inversion H; subst; simpl; auto
      | let Hs := fresh "Hs" in
        let He := fresh "He" in
        let Ht := fresh "Ht" in
        let Hsub := fresh "Hsub" in
        intros (Hs & He & Ht & Hsub);
        destruct (jwt_decode_complete t now Hs He) as (? & ? & ? & -> & ->);
        simpl in Ht, Hsub; rewrite Ht, Hsub; reflexivity ]
  end.

Lemma verify_email_token_spec (t : token) (now : Z) (e : string) :
  verify_email_token settings t now = Some e <->
  signature_verifies key algs t = true /\ expired now t = false /\
  type_tag t = Some "email_verification" /\ subject t = Some e.
Proof.
  unfold verify_email_token. fold key. fold algs. typed_consumer.
Qed.

Lemma verify_password_reset_token_spec (t : token) (now : Z) (e : string) :
  verify_password_reset_token settings t now = Some e <->
  signature_verifies key algs t = true /\ expired now t = false /\
  type_tag t = Some "password_reset" /\ subject t = Some e.
Proof.
  unfold verify_password_reset_token. fold key. fold algs. typed_consumer.
Qed.

Lemma verify_token_spec (t : token) (now : Z) :
  is_some (verify_token settings t now) = true <->
  signature_verifies key algs t = true /\ expired now t = false.
Proof.
  unfold verify_token. fold key. fold algs. split.
  - destruct (jwt_decode t key algs now) as [c |] eqn:Hd; [| discriminate].
    apply jwt_decode_some in Hd as (Hs & He & _). auto.
  - intros [Hs He].
    destruct (jwt_decode_complete t now Hs He) as (alg & k & c & -> & ->).
    reflexivity.
Qed.

Lemma is_some_true {A : Type} (x : option A) :
  is_some x = true <-> exists a, x = Some a.
Proof.
  destruct x; simpl; split; intros H; eauto; try discriminate.
  destruct H as [a H]; discriminate.
Qed.

End TokenService.

(** C1, as stated, fails on the session consumer: a correctly signed,
    unexpired token whose type tag is [email_verification] (the
    verification consumer accepts it) is accepted by [verify_token], although
    session tokens carry no type tag. *)
Lemma session_consumer_accepts_verification_token :
  verify_email_token default_settings Samples.sample_verification_token 1700000060
    = Some "alice@example.com"
  /\ accepts default_settings SessionAccess Samples.sample_verification_token
             1700000060 = true
  /\ type_tag Samples.sample_verification_token <> expected_type SessionAccess.
Proof.
  repeat split; try reflexivity. discriminate.
Qed.

(** C1 (amended): every consumer accepts a token only if its signature
    verifies and it has not expired; the email-verification and
    password-reset consumers accept it only if, in addition, its type tag is
    their own, so each of the two refuses a correctly signed, unexpired token
    that carries any other tag or none. *)
Theorem consumers_check_signature_expiry_and_own_type
    (settings : Settings) (t : token) (now : Z) :
  (forall c, accepts settings c t now = true ->
     signature_verifies (SECRET_KEY settings) [ALGORITHM settings] t = true
     /\ expired now t = false)
  /\ (forall c, c <> SessionAccess ->
        (accepts settings c t now = true <->
         signature_verifies (SECRET_KEY settings) [ALGORITHM settings] t = true
         /\ expired now t = false
         /\ type_tag t = expected_type c
         /\ subject t <> None))
  /\ (forall c, c <> SessionAccess -> type_tag t <> expected_type c ->
        accepts settings c t now = false).
Proof.
  assert (Htyped : forall c, c <> SessionAccess ->
            (accepts settings c t now = true <->
             signature_verifies (SECRET_KEY settings) [ALGORITHM settings] t
               = true
             /\ expired now t = false
             /\ type_tag t = expected_type c
             /\ subject t <> None)).
  { intros c Hc. destruct c; [| | congruence]; simpl; rewrite is_some_true.
    - split.
      + intros [e He]. apply verify_email_token_spec in He
          as (Hs & Hx & Ht & Hsub). rewrite Hsub. repeat split; auto.
        discriminate.
      + intros (Hs & Hx & Ht & Hsub).
        destruct (subject t) as [e |] eqn:Esub; [| congruence].
        exists e. apply verify_email_token_spec. auto.
    - split.
      + intros [e He]. apply verify_password_reset_token_spec in He
          as (Hs & Hx & Ht & Hsub). rewrite Hsub. repeat split; auto.
        discriminate.
      + intros (Hs & Hx & Ht & Hsub).
        destruct (subject t) as [e |] eqn:Esub; [| congruence].
        exists e. apply verify_password_reset_token_spec. auto. }
  split; [| split].
  - intros c Ha. destruct c.
    + apply Htyped in Ha; [tauto | discriminate].
    + apply Htyped in Ha; [tauto | discriminate].
    + apply verify_token_spec; assumption.
  - exact Htyped.
  - intros c Hc Ht. destruct (accepts settings c t now) eqn:Ha; [| reflexivity].
    apply Htyped in Ha; [| assumption]. tauto.
Qed.

(** A verification token is refused by the password-reset consumer, a
    reset token by the verification consumer, and a session token, which
    carries no type tag, by both. *)
Lemma consumers_check_signature_expiry_and_own_type_witness :
  accepts default_settings PasswordReset Samples.sample_verification_token 1700000060
    = false
  /\ accepts default_settings EmailVerification
             (create_password_reset_token default_settings
                "alice@example.com" 1700000000) 1700000060 = false
  /\ accepts default_settings EmailVerification
             (create_access_token default_settings
                (mkclaims (Some "alice@example.com") None None) (Some 900)
                1700000000) 1700000060 = false.
Proof.
  split; [| split].
  - apply (consumers_check_signature_expiry_and_own_type default_settings
             Samples.sample_verification_token 1700000060); discriminate.
  - apply (consumers_check_signature_expiry_and_own_type default_settings
             (create_password_reset_token default_settings
                "alice@example.com" 1700000000) 1700000060); discriminate.
  - apply (consumers_check_signature_expiry_and_own_type default_settings
             (create_access_token default_settings
                (mkclaims (Some "alice@example.com") None None) (Some 900)
                1700000000) 1700000060); discriminate.
Defined.

(** C4: a token issued for subject [s] verifies to [s] under the matching
    consumer from the moment it is issued until its ttl has elapsed, and is
    invalid afterwards; for the mail tokens the ttl is the configured number
    of hours, for a session token the [expires_delta] passed to
    [create_access_token]. *)
Theorem issued_token_round_trip
    (settings : Settings) (s : string) (ttl issued_at now : Z) :
  0 < EMAIL_TOKEN_EXPIRE_HOURS settings ->
  0 < ttl ->
  (verify_email_token settings
     (create_email_verification_token settings s issued_at) issued_at = Some s
   /\ verify_password_reset_token settings
        (create_password_reset_token settings s issued_at) issued_at = Some s
   /\ verify_token settings
        (create_access_token settings (mkclaims (Some s) None None) (Some ttl)
                             issued_at) issued_at
      = Some (mkclaims (Some s) None (Some (issued_at + ttl))))
  /\ (now <= issued_at + timedelta_hours (EMAIL_TOKEN_EXPIRE_HOURS settings) ->
      verify_email_token settings
        (create_email_verification_token settings s issued_at) now = Some s
      /\ verify_password_reset_token settings
           (create_password_reset_token settings s issued_at) now = Some s)
  /\ (issued_at + timedelta_hours (EMAIL_TOKEN_EXPIRE_HOURS settings) < now ->
      verify_email_token settings
        (create_email_verification_token settings s issued_at) now = None
      /\ verify_password_reset_token settings
           (create_password_reset_token settings s issued_at) now = None)
  /\ (now <= issued_at + ttl ->
      verify_token settings
        (create_access_token settings (mkclaims (Some s) None None) (Some ttl)
                             issued_at) now
      = Some (mkclaims (Some s) None (Some (issued_at + ttl))))
  /\ (issued_at + ttl < now ->
      verify_token settings
        (create_access_token settings (mkclaims (Some s) None None) (Some ttl)
                             issued_at) now = None).
Proof.
  intros Hh Httl.
  unfold verify_email_token, verify_password_reset_token, verify_token,
    create_email_verification_token, create_password_reset_token,
    create_access_token, jwt_encode, jwt_decode, timedelta_hours.
  simpl. rewrite !String.eqb_refl. simpl.
  assert (Hz : (ttl =? 0) = false) by (apply Z.eqb_neq; lia).
  rewrite Hz.
  repeat split; intros;
    repeat match goal with
    | |- context [?a <? ?b] => destruct (Z.ltb_spec a b); try lia
    end; reflexivity.
Qed.

Lemma issued_token_round_trip_witness :
  verify_email_token default_settings
    (create_email_verification_token default_settings "alice@example.com"
                                     1700000000)
    1700000000 = Some "alice@example.com"
  /\ verify_email_token default_settings
       (create_email_verification_token default_settings "alice@example.com"
                                        1700000000)
       1700086401 = None.
Proof.
  pose proof (issued_token_round_trip default_settings "alice@example.com"
                900 1700000000 1700086401 eq_refl eq_refl)
    as (Hnow & _ & Hlate & _).
  split.
  - exact (proj1 Hnow).
  - apply Hlate. reflexivity.
Defined.

(** ** The store *)

Section StoreFacts.

(** A row found by a filter is still found, updated, after an [UPDATE] by
    its primary key that leaves the filtered columns alone. *)
Lemma first_update {A : Type} (p : A -> bool) (pk : A -> string)
    (f : A -> A) (rows : list A) (r : A) :
  (forall v, p (f v) = p v) ->
  first p rows = Some r ->
  first p (map (fun v => if String.eqb (pk v) (pk r) then f v else v) rows)
  = Some (f r).
Proof.
  intros Hf. unfold first.
  induction rows as [| v rows IH]; simpl; [discriminate |].
  destruct (p v) eqn:Hv.
  - intros H; inversion H; subst. rewrite String.eqb_refl, Hf, Hv. reflexivity.
  - intros H. specialize (IH H).
    destruct (String.eqb (pk v) (pk r)); try rewrite Hf; rewrite Hv; exact IH.
Qed.

Lemma first_some {A : Type} (p : A -> bool) (rows : list A) (r : A) :
  first p rows = Some r -> In r rows /\ p r = true.
Proof. apply find_some. Qed.

(** An [UPDATE] by primary key changes no row but those with that key. *)
Lemma update_rows_pointwise {A : Type} (pk : A -> string) (k : string)
    (f : A -> A) (rows : list A) :
  Forall2 (fun r0 r1 => r1 = r0 \/ (pk r0 = k /\ r1 = f r0)) rows
          (map (fun v => if String.eqb (pk v) k then f v else v) rows).
Proof.
  induction rows as [| v rows IH]; simpl; constructor; [| exact IH].
  destruct (String.eqb (pk v) k) eqn:E; [| now left].
  right. apply String.eqb_eq in E. auto.
Qed.

Lemma filter_filter_stronger {A : Type} (p q : A -> bool) (l : list A) :
  (forall x, p x = true -> q x = true) ->
  filter p (filter q l) = filter p l.
Proof.
  intros H. induction l as [| x l IH]; simpl; [reflexivity |].
  destruct (p x) eqn:Hp.
  - rewrite (H x Hp). simpl. rewrite Hp, IH. reflexivity.
  - destruct (q x); simpl; [rewrite Hp |]; exact IH.
Qed.

End StoreFacts.

(** ** Account manager *)

Section AccountManager.

Import Auth.

Variable settings : Settings.
Variable verify_password : string -> string -> bool.
Variable hash_password : string -> string.

(** A user found by e-mail is still found, updated, after an [UPDATE] by
    primary key that leaves e-mails alone. *)
Lemma first_by_email_update (e : string) (f : User.t -> User.t)
    (us : list User.t) (u : User.t) :
  (forall v, User.email (f v) = User.email v) ->
  first (by_email e) us = Some u ->
  first (by_email e)
        (map (fun v => if String.eqb (User.id v) (User.id u) then f v else v)
             us)
  = Some (f u).
Proof.
  intros Hf. apply (first_update (by_email e) User.id f us u).
  intros v. unfold by_email. rewrite Hf. reflexivity.
Qed.

(** C5: [login] fails with the one generic [InvalidCredentials] error when
    the user is absent or the password does not verify; otherwise with
    [AccountDeactivated] when the user is not active; otherwise with
    [EmailNotVerified] when the user is not verified; a failure leaves the
    store as it was.  Only when the three checks pass does it return a
    session token for the user's address together with the user's profile;
    the stored row of the user then has its last-login timestamp at the
    current time and every other column as before, the profile returned is
    that row, and every other row of the store is as it was. *)
Theorem login_gating (user_credentials : UserLogin) (now : Z) (db : Db) :
  (first (by_email (lower (ul_email user_credentials))) (users db) = None ->
   login settings verify_password user_credentials now db
   = (Raise InvalidCredentials, db))
  /\ (forall u,
        first (by_email (lower (ul_email user_credentials))) (users db)
          = Some u ->
        (verify_password (ul_password user_credentials)
                         (User.hashed_password u) = false ->
         login settings verify_password user_credentials now db
         = (Raise InvalidCredentials, db))
        /\ (verify_password (ul_password user_credentials)
                            (User.hashed_password u) = true ->
            User.is_active u = false ->
            login settings verify_password user_credentials now db
            = (Raise AccountDeactivated, db))
        /\ (verify_password (ul_password user_credentials)
                            (User.hashed_password u) = true ->
            User.is_active u = true ->
            User.is_verified u = false ->
            login settings verify_password user_credentials now db
            = (Raise EmailNotVerified, db))
        /\ (verify_password (ul_password user_credentials)
                            (User.hashed_password u) = true ->
            User.is_active u = true ->
            User.is_verified u = true ->
            exists db' u',
              login settings verify_password user_credentials now db
              = (Ok (mkToken
                       (create_access_token settings
                          (mkclaims (Some (User.email u)) None None)
                          (Some (timedelta_minutes
                                   (ACCESS_TOKEN_EXPIRE_MINUTES settings)))
                          now)
                       "bearer" u'),
                 db')
              /\ first (by_email (lower (ul_email user_credentials)))
                       (users db')
                 = Some u'
              /\ User.last_login u' = Some now
              /\ User.same_account u u'
              /\ Forall2 (fun v v' =>
                            v' = v
                            \/ (User.id v = User.id u
                                /\ User.last_login v' = Some now
                                /\ User.same_account v v'))
                         (users db) (users db')
              /\ budget_categories db' = budget_categories db
              /\ expenses db' = expenses db))
  /\ (forall tok db',
        login settings verify_password user_credentials now db = (Ok tok, db')
        -> exists u,
             first (by_email (lower (ul_email user_credentials))) (users db)
               = Some u
             /\ verify_password (ul_password user_credentials)
                                (User.hashed_password u) = true
             /\ User.is_active u = true
             /\ User.is_verified u = true).
Proof.
  unfold login. split; [| split].
  - intros ->. reflexivity.
  - intros u Hu. rewrite Hu. repeat split.
    + intros ->. reflexivity.
    + intros -> ->. reflexivity.
    + intros -> -> ->. reflexivity.
    + intros Hp Ha Hv. rewrite Hp, Ha, Hv. simpl.
      exists (update_user (User.id u) (User.with_last_login (Some now)) db),
        (User.with_last_login (Some now) u).
      split; [reflexivity |].
      split; [apply first_by_email_update; [reflexivity | exact Hu] |].
      split; [reflexivity |].
      split; [repeat split |].
      split; [| split; reflexivity].
      eapply Forall2_impl;
        [| apply (update_rows_pointwise User.id (User.id u)
                    (User.with_last_login (Some now)))].
      intros v v' [-> | [E ->]]; [now left |].
      right. repeat split. exact E.
  - intros tok db'.
    destruct (first _ (users db)) as [u |]; [| discriminate].
    destruct (verify_password _ _) eqn:Hp; simpl; [| discriminate].
    destruct (User.is_active u) eqn:Ha; simpl; [| discriminate].
    destruct (User.is_verified u) eqn:Hv; simpl; [| discriminate].
    intros _. exists u. auto.
Qed.

(** C9: a valid email-verification token whose subject (an e-mail
    address, hence not empty) is a stored, already verified user gets the
    "already verified" success and the store is left as it was; and
    verifying twice with valid tokens for the same user leaves the store in
    the state one verification leaves it in, the second call succeeding. *)
Theorem verify_email_idempotent (t1 t2 : token) (now1 now2 : Z) (db : Db)
    (e : string) (u : User.t) :
  verify_email_token settings t1 now1 = Some e ->
  verify_email_token settings t2 now2 = Some e ->
  e <> "" ->
  first (by_email e) (users db) = Some u ->
  (User.is_verified u = true ->
   verify_email settings t1 now1 db
   = (Ok "Email address is already verified", db))
  /\ (exists msg, fst (verify_email settings t1 now1 db) = Ok msg)
  /\ verify_email settings t2 now2 (snd (verify_email settings t1 now1 db))
     = (Ok "Email address is already verified",
        snd (verify_email settings t1 now1 db))
  /\ first (by_email e) (users (snd (verify_email settings t1 now1 db)))
     = Some (User.with_is_verified true u).
Proof.
  intros H1 H2 Hne Hu.
  assert (Hnb : String.eqb e "" = false) by (apply String.eqb_neq; exact Hne).
  assert (Hseen : forall db0 v,
            first (by_email e) (users db0) = Some v ->
            User.is_verified v = true ->
            forall t now, verify_email_token settings t now = Some e ->
            verify_email settings t now db0
            = (Ok "Email address is already verified", db0)).
  { intros db0 v Hv Hver t now Ht. unfold verify_email.
    rewrite Ht, Hnb, Hv, Hver. reflexivity. }
  split; [| split; [| split]].
  - intros Hver. eapply Hseen; eauto.
  - unfold verify_email. rewrite H1, Hnb, Hu.
    destruct (User.is_verified u); simpl; eauto.
  - destruct (User.is_verified u) eqn:Hver.
    + rewrite (Hseen db u Hu Hver t1 now1 H1). simpl.
      eapply Hseen; eauto.
    + unfold verify_email at 2 3. rewrite H1, Hnb, Hu, Hver. simpl.
      eapply Hseen; [| | exact H2].
      * simpl. apply first_by_email_update; [reflexivity | exact Hu].
      * reflexivity.
  - destruct (User.is_verified u) eqn:Hver.
    + rewrite (Hseen db u Hu Hver t1 now1 H1). simpl. rewrite Hu.
      destruct u; simpl in *; subst; reflexivity.
    + unfold verify_email. rewrite H1, Hnb, Hu, Hver. simpl.
      apply first_by_email_update; [reflexivity | exact Hu].
Qed.

(** [register] reports [DuplicateEmail] exactly when a stored e-mail equals
    the request's e-mail as sent, character by character. *)
Lemma register_duplicate_iff (user_data : UserCreate) (new_id : string)
    (now : Z) (db : Db) :
  fst (register settings hash_password user_data new_id now db)
    = Raise DuplicateEmail
  <-> exists u, first (by_email (uc_email user_data)) (users db) = Some u.
Proof.
  unfold register.
  destruct (first (by_email (uc_email user_data)) (users db)) as [u |].
  - simpl. split; eauto.
  - split; [| intros [u Hu]; discriminate].
    unfold validate_password_strength.
    repeat match goal with
           | |- context [if ?b then _ else _] => destruct b; simpl
           end; try discriminate.
    all: unfold add_user;
      repeat match goal with
             | |- context [if ?b then _ else _] => destruct b; simpl
             end; discriminate.
Qed.

(** On success [register] stores the new user last, with the e-mail in
    lower case, unverified and active, and queues the verification mail
    for that address. *)
Lemma register_success (user_data : UserCreate) (new_id : string) (now : Z)
    (db db' : Db) (r : RegisterResponse) :
  register settings hash_password user_data new_id now db = (Ok r, db') ->
  exists u,
    users db' = users db ++ [u]
    /\ User.email u = lower (uc_email user_data)
    /\ User.is_verified u = false
    /\ User.is_active u = true
    /\ User.id u = new_id
    /\ reg_email r = lower (uc_email user_data)
    /\ budget_categories db' = budget_categories db
    /\ expenses db' = expenses db.
Proof.
  unfold register.
  destruct (first _ (users db)); [discriminate |].
  destruct (validate_password_strength _) as [is_valid message].
  destruct is_valid; simpl; [| discriminate].
  unfold add_user. simpl.
  destruct (existsb _ (users db)); [discriminate |].
  destruct (existsb _ (users db)); [discriminate |].
  intros H; inversion H; subst; clear H. simpl.
  eexists. repeat split; reflexivity.
Qed.

End AccountManager.

(** ** Budget ledger *)

Section BudgetLedger.

Import Budget.

Lemma category_eqb_eq (a b : BudgetCategory.t) :
  BudgetCategory.eqb a b = true <-> a = b.
Proof.
  unfold BudgetCategory.eqb. destruct a, b; simpl.
  rewrite !Bool.andb_true_iff, !String.eqb_eq, !option_string_eqb_eq,
    !Z.eqb_eq, Bool.eqb_true_iff.
  split.
  - intros ((((((((-> & ->) & ->) & ->) & ->) & ->) & ->) & ->) & ->).
    reflexivity.
  - intros H; inversion H; subst. repeat split.
Qed.

(** What the commit of [category.is_active = False] writes into the row:
    nothing when the flag was off already, the flag and [updated_at]
    otherwise. *)
Lemma soft_deleted_row (db_now : Z) (c : BudgetCategory.t) :
  let c' :=
    if BudgetCategory.eqb (BudgetCategory.with_is_active false c) c then c
    else BudgetCategory.with_updated_at db_now
           (BudgetCategory.with_is_active false c) in
  BudgetCategory.is_active c' = false
  /\ BudgetCategory.updated_at c'
     = (if BudgetCategory.is_active c then db_now
        else BudgetCategory.updated_at c)
  /\ BudgetCategory.same_data c c'.
Proof.
  simpl.
  destruct (BudgetCategory.eqb (BudgetCategory.with_is_active false c) c)
    eqn:E.
  - apply category_eqb_eq in E.
    assert (Ha : BudgetCategory.is_active c = false)
      by (rewrite <- E; reflexivity).
    rewrite Ha. repeat split.
  - destruct (BudgetCategory.is_active c) eqn:Ha.
    + repeat split.
    + exfalso. apply Bool.not_true_iff_false in E. apply E.
      apply category_eqb_eq. destruct c; simpl in *; subst; reflexivity.
Qed.

(** C6 (amended): on a missing or not-owned category
    [delete_budget_category] fails [NotFound]; without [force], on a
    category with [n > 0] expenses it fails with the conflict error whose
    message carries [n] and changes nothing; without [force], on a category
    with no expense it sets the category's active flag to false and, when
    the flag was on, its [updated_at] to the time of the commit, every
    other column of the row, every other category and the other tables
    staying as they were; with [force] it removes the category's expenses
    and the category, and nothing else. *)
Theorem delete_budget_category_cases (category_id : string)
    (current_user : User.t) (db_now : Z) (db : Db) :
  (first (owned_category category_id current_user) (budget_categories db)
     = None ->
   forall force,
     delete_budget_category category_id current_user force db_now db
     = (Raise NotFound, db))
  /\ (forall c n,
        first (owned_category category_id current_user) (budget_categories db)
          = Some c ->
        n = count_of (filter (expense_of category_id current_user)
                             (expenses db)) ->
        (0 < n ->
         delete_budget_category category_id current_user false db_now db
         = (Raise (HTTPException 400
                     ("Cannot delete category with " ++ str n
                      ++ " associated expenses. Use force=true to override.")
                     %string),
            db))
        /\ (n = 0 ->
            exists db' c',
              delete_budget_category category_id current_user false db_now db
              = (Ok "Budget category deactivated successfully", db')
              /\ users db' = users db
              /\ expenses db' = expenses db
              /\ first (owned_category category_id current_user)
                       (budget_categories db')
                 = Some c'
              /\ BudgetCategory.is_active c' = false
              /\ BudgetCategory.updated_at c'
                 = (if BudgetCategory.is_active c then db_now
                    else BudgetCategory.updated_at c)
              /\ BudgetCategory.same_data c c'
              /\ Forall2
                   (fun c0 c1 =>
                      c1 = c0
                      \/ (BudgetCategory.id c0 = category_id
                          /\ BudgetCategory.is_active c1 = false
                          /\ BudgetCategory.same_data c0 c1))
                   (budget_categories db) (budget_categories db'))
        /\ (exists db',
              delete_budget_category category_id current_user true db_now db
              = (Ok "Budget category deleted successfully", db')
              /\ users db' = users db
              /\ expenses db'
                 = filter (fun e => negb (String.eqb (Expense.category_id e)
                                                     category_id))
                          (expenses db)
              /\ budget_categories db'
                 = filter (fun c' => negb (String.eqb (BudgetCategory.id c')
                                                      category_id))
                          (budget_categories db))).
Proof.
  unfold delete_budget_category. split.
  - intros -> force. reflexivity.
  - intros c n Hc ->. rewrite Hc.
    assert (Hid : BudgetCategory.id c = category_id).
    { apply first_some in Hc as [_ Hc]. unfold owned_category in Hc.
      apply andb_prop in Hc as [Hc _]. now apply String.eqb_eq in Hc. }
    rewrite Hid. split; [| split].
    + intros Hn. apply Z.ltb_lt in Hn. rewrite Hn. reflexivity.
    + intros Hn. rewrite Hn. simpl.
      set (f := fun c0 : BudgetCategory.t =>
                  if BudgetCategory.eqb (BudgetCategory.with_is_active false c0)
                                        c0
                  then c0
                  else BudgetCategory.with_updated_at db_now
                         (BudgetCategory.with_is_active false c0)).
      destruct (soft_deleted_row db_now c) as (Hflag & Hstamp & Hdata).
      exists (flush_category category_id (BudgetCategory.with_is_active false)
                db_now db), (f c).
      split; [reflexivity |]. split; [reflexivity |].
      split; [reflexivity |].
      split.
      { pose proof (first_update (owned_category category_id current_user)
                      BudgetCategory.id f (budget_categories db) c) as Hf.
        rewrite Hid in Hf. apply Hf; [| exact Hc].
        intros v. unfold owned_category.
        destruct (soft_deleted_row db_now v)
          as (_ & _ & Ei & Eu & _). fold (f v) in Ei, Eu.
        rewrite <- Ei, <- Eu. reflexivity. }
      split; [exact Hflag |]. split; [exact Hstamp |].
      split; [exact Hdata |].
      unfold flush_category, update_category. simpl. fold f.
      eapply Forall2_impl;
        [| apply (update_rows_pointwise BudgetCategory.id category_id f)].
      intros c0 c1 [-> | [E ->]]; [now left |].
      right. destruct (soft_deleted_row db_now c0) as (Hf0 & _ & Hd0).
      auto.
    + rewrite andb_false_r. eexists. split; [reflexivity |].
      simpl. repeat split.
      apply filter_filter_stronger. intros e He.
      apply negb_true_iff in He. unfold expense_of. rewrite He. reflexivity.
Qed.

End BudgetLedger.

(** ** Report aggregator: export *)

Section CsvExport.

Import Budget.












(** Under a primary key, the rows with a given key are at most one. *)
Lemma filter_key_absent (cats : list BudgetCategory.t) (k : string) :
  ~ In k (map BudgetCategory.id cats) ->
  filter (fun c => String.eqb k (BudgetCategory.id c)) cats = [].
Proof.
  induction cats as [| c cats IH]; simpl; [reflexivity |].
  intros H. destruct (String.eqb_spec k (BudgetCategory.id c)) as [-> | _].
  - exfalso. apply H. now left.
  - apply IH. intros Hin. apply H. now right.
Qed.

Lemma filter_key_unique (cats : list BudgetCategory.t) (c : BudgetCategory.t) :
  NoDup (map BudgetCategory.id cats) -> In c cats ->
  filter (fun c' => String.eqb (BudgetCategory.id c) (BudgetCategory.id c'))
         cats = [c].
Proof.
  induction cats as [| c0 cats IH]; simpl; [contradiction |].
  intros Hnd Hin. inversion Hnd as [| ? ? Hnotin Hnd']; subst.
  destruct Hin as [-> | Hin].
  - rewrite String.eqb_refl. f_equal. apply filter_key_absent. exact Hnotin.
  - destruct (String.eqb_spec (BudgetCategory.id c) (BudgetCategory.id c0))
      as [E | _].
    + exfalso. apply Hnotin. rewrite <- E. apply in_map. exact Hin.
    + apply IH; assumption.
Qed.

(** Joined on a foreign key, every expense yields exactly one row. *)
Lemma join_one_row_per_expense (cats : list BudgetCategory.t)
    (es : list Expense.t) :
  NoDup (map BudgetCategory.id cats) ->
  (forall e, In e es ->
     exists c, In c cats /\ BudgetCategory.id c = Expense.category_id e) ->
  map fst (join_category_name cats es) = es
  /\ forall e n, In (e, n) (join_category_name cats es) ->
       exists c, In c cats /\ BudgetCategory.id c = Expense.category_id e
                 /\ BudgetCategory.name c = n.
Proof.
  intros Hnd. induction es as [| e es IH]; simpl; intros Hfk.
  - split; [reflexivity | contradiction].
  - destruct (Hfk e (or_introl eq_refl)) as (c & Hc & Hid).
    destruct IH as [IHm IHn]; [intros e' He'; apply Hfk; now right |].
    rewrite <- Hid. rewrite (filter_key_unique cats c Hnd Hc). simpl.
    split; [f_equal; exact IHm |].
    intros e' n [H | H].
    + inversion H; subst. exists c. auto.
    + apply IHn. exact H.
Qed.

(** The rows of the join, read back. *)
Lemma join_category_name_In (cats : list BudgetCategory.t)
    (es : list Expense.t) (e : Expense.t) (n : string) :
  In (e, n) (join_category_name cats es)
  <-> In e es
      /\ exists c, In c cats /\ BudgetCategory.id c = Expense.category_id e
                   /\ BudgetCategory.name c = n.
Proof.
  unfold join_category_name. rewrite in_flat_map. split.
  - intros (e0 & He0 & Hin). apply in_map_iff in Hin as (c & Hc & Hin).
    inversion Hc; subst. apply filter_In in Hin as [Hin Hk].
    apply String.eqb_eq in Hk. eauto.
  - intros (He & c & Hc & Hk & Hn). exists e. split; [exact He |].
    apply in_map_iff. exists c. split; [now rewrite Hn |].
    apply filter_In. split; [exact Hc |]. apply String.eqb_eq. auto.
Qed.


End CsvExport.

(** ** Derived percentages *)

Section Percentages.

Import Budget.

Lemma truediv_nonzero (a : Q) (b : Z) :
  b <> 0 -> truediv a (inject_Z b) = Ok (a / inject_Z b)%Q.
Proof.
  intros Hb. unfold truediv, Qeq_bool, inject_Z. simpl.
  destruct (Z.eqb_spec (b * 1) 0) as [E | _]; [lia | reflexivity].
Qed.

(** The guard of the conditional expression keeps [/] away from a zero
    divisor: [percent_of] always returns. *)
Lemma percent_of_total (spent budget : Z) :
  percent_of spent budget
  = Ok (if 0 <? budget then (inject_Z spent / inject_Z budget * 100)%Q
        else 0%Q).
Proof.
  unfold percent_of. destruct (Z.ltb_spec 0 budget) as [Hb | Hb];
    [| reflexivity].
  rewrite truediv_nonzero by lia. reflexivity.
Qed.



Lemma func_sum_or_zero {A : Type} (col : A -> Z) (rows : list A) :
  or_else (func_sum col rows) 0 = sum_of col rows.
Proof. destruct rows; reflexivity. Qed.













End Percentages.

(** ** Summary against breakdown *)

Section SummaryAndBreakdown.

Import Budget.

Lemma sum_of_app {A : Type} (col : A -> Z) (l1 l2 : list A) :
  sum_of col (l1 ++ l2) = sum_of col l1 + sum_of col l2.
Proof.
  induction l1 as [| x l1 IH]; simpl; [reflexivity |].
  unfold sum_of in *. simpl. rewrite IH. lia.
Qed.










Lemma key_determines_row {A : Type} (pk : A -> string) (l : list A)
    (x y : A) :
  NoDup (map pk l) -> In x l -> In y l -> pk x = pk y -> x = y.
Proof.
  induction l as [| z l IH]; simpl; [contradiction |].
  intros Hnd Hx Hy E. inversion Hnd as [| ? ? Hnotin Hnd']; subst.
  destruct Hx as [-> | Hx], Hy as [-> | Hy].
  - reflexivity.
  - exfalso. apply Hnotin. rewrite E. apply in_map. exact Hy.
  - exfalso. apply Hnotin. rewrite <- E. apply in_map. exact Hx.
  - apply IH; assumption.
Qed.




End SummaryAndBreakdown.

(** ** Calendar arithmetic *)

Ltac eval_closed_tests :=
  repeat match goal with
         | |- context [Z.pos ?p <? Z.pos ?q] =>
             let v := eval vm_compute in (Z.pos p <? Z.pos q) in
             match v with true => idtac | false => idtac end;
             change (Z.pos p <? Z.pos q) with v
         | |- context [Z.pos ?p =? Z.pos ?q] =>
             let v := eval vm_compute in (Z.pos p =? Z.pos q) in
             match v with true => idtac | false => idtac end;
             change (Z.pos p =? Z.pos q) with v
         end;
  cbv beta iota delta [DAYS_BEFORE_MONTH DAYS_IN_MONTH andb].

Ltac month_case :=
  eval_closed_tests;
  match goal with
  | |- context [?x / 32] =>
      match goal with
      | |- _ = (?m0, _) =>
          let H := fresh "Hq" in
          let m1 := eval vm_compute in (m0 + 1) in
          assert (H : x / 32 = m0 \/ x / 32 = m1)
            by (Z.div_mod_to_equations; lia);
          let p0 := eval vm_compute in (m0 - 1) in
          destruct H as [H | H]; rewrite H;
          try change (m0 - 1) with p0; try change (m1 - 1) with m0;
          eval_closed_tests;
          repeat match goal with
                 | |- context [?a <? ?b] => destruct (Z.ltb_spec a b)
                 end;
          try (f_equal; lia);
          try (exfalso; Z.div_mod_to_equations; lia)
      end
  end.

Lemma month_day_of_yday_inverse (leapyear : bool) (m d : Z) :
  1 <= m <= 12 ->
  1 <= d <= DAYS_IN_MONTH m + (if (m =? 2) && leapyear then 1 else 0) ->
  month_day_of_yday leapyear
    (DAYS_BEFORE_MONTH m + (if (2 <? m) && leapyear then 1 else 0) + d - 1)
  = (m, d).
Proof.
  intros Hm Hd.
  assert (Hcases : m = 1 \/ m = 2 \/ m = 3 \/ m = 4 \/ m = 5 \/ m = 6 \/
                   m = 7 \/ m = 8 \/ m = 9 \/ m = 10 \/ m = 11 \/ m = 12)
    by lia.
  unfold month_day_of_yday. rewrite Z.shiftr_div_pow2 by lia.
  change (2 ^ 5) with 32.
  destruct leapyear;
    destruct Hcases as [E | [E | [E | [E | [E | [E | [E | [E | [E | [E | [E | E]]]]]]]]]]];
    subst m; simpl in Hd; month_case.
Qed.

Lemma days_before_year_cycles (a b c e : Z) :
  0 <= a -> 0 <= b < 4 -> 0 <= c < 25 -> 0 <= e < 4 ->
  days_before_year (400 * a + 100 * b + 4 * c + e + 1)
  = 146097 * a + 36524 * b + 1461 * c + 365 * e.
Proof.
  intros Ha Hb Hc He. unfold days_before_year.
  replace (400 * a + 100 * b + 4 * c + e + 1 - 1)
    with (400 * a + 100 * b + 4 * c + e) by lia.
  Z.div_mod_to_equations. lia.
Qed.

Lemma is_leap_cycles (a b c e : Z) :
  0 <= a -> 0 <= b < 4 -> 0 <= c < 25 -> 0 <= e < 4 ->
  is_leap (400 * a + 100 * b + 4 * c + e + 1) = cycle_leap b c e.
Proof.
  intros Ha Hb Hc He. unfold is_leap, cycle_leap.
  repeat match goal with
         | |- context [?x =? ?y] => destruct (Z.eqb_spec x y)
         end; simpl; try reflexivity; exfalso;
    Z.div_mod_to_equations; lia.
Qed.

Lemma year_cycles (y : Z) :
  1 <= y ->
  exists a b c e,
    0 <= a /\ 0 <= b < 4 /\ 0 <= c < 25 /\ 0 <= e < 4
    /\ y = 400 * a + 100 * b + 4 * c + e + 1.
Proof.
  intros Hy.
  exists ((y - 1) / 400), ((y - 1) mod 400 / 100),
         ((y - 1) mod 400 mod 100 / 4), ((y - 1) mod 400 mod 100 mod 4).
  Z.div_mod_to_equations. lia.
Qed.

Lemma cycle_leap_true (b c e : Z) :
  cycle_leap b c e = true <-> e = 3 /\ (c <> 24 \/ b = 3).
Proof.
  unfold cycle_leap.
  destruct (Z.eqb_spec e 3), (Z.eqb_spec c 24), (Z.eqb_spec b 3); simpl;
    split; intros H; try discriminate; try reflexivity; try tauto.
Qed.

Lemma ord2ymd_cycles (a b c e j : Z) :
  0 <= a -> 0 <= b < 4 -> 0 <= c < 25 -> 0 <= e < 4 ->
  0 <= j < 365 + (if cycle_leap b c e then 1 else 0) ->
  ord2ymd (146097 * a + 36524 * b + 1461 * c + 365 * e + j + 1)
  = let (m, d) := month_day_of_yday (cycle_leap b c e) j in
    mkdate (400 * a + 100 * b + 4 * c + e + 1) m d.
Proof.
  intros Ha Hb Hc He Hj. unfold ord2ymd. cbv zeta.
  replace (146097 * a + 36524 * b + 1461 * c + 365 * e + j + 1 - 1)
    with (146097 * a + (36524 * b + 1461 * c + 365 * e + j)) by lia.
  set (N1 := 36524 * b + 1461 * c + 365 * e + j).
  assert (Hlast : j = 365 -> e = 3 /\ (c <> 24 \/ b = 3)).
  { intros ->. apply cycle_leap_true.
    destruct (cycle_leap b c e); [reflexivity | lia]. }
  assert (Hj' : 0 <= j <= 365) by (destruct (cycle_leap b c e); lia).
  assert (HN1 : 0 <= N1 < 146097) by (unfold N1; lia).
  assert (H1 : (146097 * a + N1) / 146097 = a)
    by (symmetry; apply Z.div_unique with (r := N1); lia).
  assert (H2 : (146097 * a + N1) mod 146097 = N1)
    by (symmetry; apply Z.mod_unique with (q := a); lia).
  rewrite H1, H2. clear H1 H2.
  destruct (Z.eq_dec j 365) as [Ej | Nj].
  - (* the last day of a leap year *)
    destruct (Hlast Ej) as [-> Hcb]. subst j.
    rewrite (proj2 (cycle_leap_true b c 3) (conj eq_refl Hcb)).
    change (month_day_of_yday true 365) with (12, 31).
    destruct (Z.eq_dec c 24) as [-> | Nc].
    + assert (b = 3) by lia. subst b.
      change N1 with 146096. change (146096 / 36524) with 4.
      change (4 =? 4) with true. rewrite orb_true_r.
      change (146096 mod 36524) with 0.
      change (0 / 1461) with 0. change (0 mod 1461) with 0.
      change (0 / 365) with 0. f_equal. lia.
    + assert (H3 : N1 / 36524 = b)
        by (symmetry; apply Z.div_unique with (r := 1461 * c + 1460);
            unfold N1; lia).
      assert (H4 : N1 mod 36524 = 1461 * c + 1460)
        by (symmetry; apply Z.mod_unique with (q := b); unfold N1; lia).
      rewrite H3, H4.
      assert (H5 : (1461 * c + 1460) / 1461 = c)
        by (symmetry; apply Z.div_unique with (r := 1460); lia).
      assert (H6 : (1461 * c + 1460) mod 1461 = 1460)
        by (symmetry; apply Z.mod_unique with (q := c); lia).
      rewrite H5, H6.
      change (1460 / 365) with 4. change (4 =? 4) with true.
      rewrite orb_true_l. f_equal. lia.
  - assert (H3 : N1 / 36524 = b)
      by (symmetry; apply Z.div_unique with (r := 1461 * c + 365 * e + j);
          unfold N1; lia).
    assert (H4 : N1 mod 36524 = 1461 * c + (365 * e + j))
      by (symmetry; apply Z.mod_unique with (q := b); unfold N1; lia).
    rewrite H3, H4.
    assert (H5 : (1461 * c + (365 * e + j)) / 1461 = c)
      by (symmetry; apply Z.div_unique with (r := 365 * e + j); lia).
    assert (H6 : (1461 * c + (365 * e + j)) mod 1461 = 365 * e + j)
      by (symmetry; apply Z.mod_unique with (q := c); lia).
    rewrite H5, H6.
    assert (H7 : (365 * e + j) / 365 = e)
      by (symmetry; apply Z.div_unique with (r := j); lia).
    assert (H8 : (365 * e + j) mod 365 = j)
      by (symmetry; apply Z.mod_unique with (q := e); lia).
    rewrite H7, H8.
    destruct (Z.eqb_spec e 4); [lia |].
    destruct (Z.eqb_spec b 4); [lia |].
    change (false || false) with false. cbv iota.
    fold (cycle_leap b c e).
    destruct (month_day_of_yday (cycle_leap b c e) j) as [m d].
    f_equal. lia.
Qed.

Lemma yday_range (leapyear : bool) (m d : Z) :
  1 <= m <= 12 ->
  1 <= d <= DAYS_IN_MONTH m + (if (m =? 2) && leapyear then 1 else 0) ->
  0 <= DAYS_BEFORE_MONTH m + (if (2 <? m) && leapyear then 1 else 0) + d - 1
    < 365 + (if leapyear then 1 else 0).
Proof.
  intros Hm Hd.
  assert (Hcases : m = 1 \/ m = 2 \/ m = 3 \/ m = 4 \/ m = 5 \/ m = 6 \/
                   m = 7 \/ m = 8 \/ m = 9 \/ m = 10 \/ m = 11 \/ m = 12)
    by lia.
  destruct leapyear;
    destruct Hcases as [E | [E | [E | [E | [E | [E | [E | [E | [E | [E | [E | E]]]]]]]]]]];
    subst m; simpl in Hd; eval_closed_tests; lia.
Qed.

Lemma yday_split (leapyear : bool) (j : Z) :
  0 <= j < 365 + (if leapyear then 1 else 0) ->
  exists m d,
    1 <= m <= 12
    /\ 1 <= d <= DAYS_IN_MONTH m + (if (m =? 2) && leapyear then 1 else 0)
    /\ j = DAYS_BEFORE_MONTH m + (if (2 <? m) && leapyear then 1 else 0)
           + d - 1.
Proof.
  intros Hj.
  set (l := if leapyear then 1 else 0) in *.
  assert (Hl : l = if leapyear then 1 else 0) by reflexivity.
  destruct (Z.lt_ge_cases j 31);
    [exists 1, (j + 1); destruct leapyear; eval_closed_tests; lia |].
  destruct (Z.lt_ge_cases j (59 + l));
    [exists 2, (j - 30); destruct leapyear; eval_closed_tests; lia |].
  destruct (Z.lt_ge_cases j (90 + l));
    [exists 3, (j - 58 - l); destruct leapyear; eval_closed_tests; lia |].
  destruct (Z.lt_ge_cases j (120 + l));
    [exists 4, (j - 89 - l); destruct leapyear; eval_closed_tests; lia |].
  destruct (Z.lt_ge_cases j (151 + l));
    [exists 5, (j - 119 - l); destruct leapyear; eval_closed_tests; lia |].
  destruct (Z.lt_ge_cases j (181 + l));
    [exists 6, (j - 150 - l); destruct leapyear; eval_closed_tests; lia |].
  destruct (Z.lt_ge_cases j (212 + l));
    [exists 7, (j - 180 - l); destruct leapyear; eval_closed_tests; lia |].
  destruct (Z.lt_ge_cases j (243 + l));
    [exists 8, (j - 211 - l); destruct leapyear; eval_closed_tests; lia |].
  destruct (Z.lt_ge_cases j (273 + l));
    [exists 9, (j - 242 - l); destruct leapyear; eval_closed_tests; lia |].
  destruct (Z.lt_ge_cases j (304 + l));
    [exists 10, (j - 272 - l); destruct leapyear; eval_closed_tests; lia |].
  destruct (Z.lt_ge_cases j (334 + l));
    [exists 11, (j - 303 - l); destruct leapyear; eval_closed_tests; lia |].
  exists 12, (j - 333 - l); destruct leapyear; eval_closed_tests; lia.
Qed.

Lemma ordinal_cycles (n : Z) :
  1 <= n ->
  exists a b c e j,
    0 <= a /\ 0 <= b < 4 /\ 0 <= c < 25 /\ 0 <= e < 4
    /\ 0 <= j < 365 + (if cycle_leap b c e then 1 else 0)
    /\ n = 146097 * a + 36524 * b + 1461 * c + 365 * e + j + 1.
Proof.
  intros Hn.
  destruct (Z.eq_dec ((n - 1) mod 146097) 146096) as [E1 | N1].
  { exists ((n - 1) / 146097), 3, 24, 3, 365.
    change (cycle_leap 3 24 3) with true.
    repeat split; try lia; Z.div_mod_to_equations; lia. }
  destruct (Z.eq_dec ((n - 1) mod 146097 mod 36524 mod 1461) 1460)
    as [E2 | N2].
  { exists ((n - 1) / 146097), ((n - 1) mod 146097 / 36524),
           ((n - 1) mod 146097 mod 36524 / 1461), 3, 365.
    assert (Hleap : cycle_leap ((n - 1) mod 146097 / 36524)
                               ((n - 1) mod 146097 mod 36524 / 1461) 3
                    = true).
    { apply cycle_leap_true. split; [reflexivity |]. left.
      Z.div_mod_to_equations. lia. }
    rewrite Hleap.
    repeat split; try lia; Z.div_mod_to_equations; lia. }
  exists ((n - 1) / 146097), ((n - 1) mod 146097 / 36524),
         ((n - 1) mod 146097 mod 36524 / 1461),
         ((n - 1) mod 146097 mod 36524 mod 1461 / 365),
         ((n - 1) mod 146097 mod 36524 mod 1461 mod 365).
  assert (Hj : 0 <= (n - 1) mod 146097 mod 36524 mod 1461 mod 365 < 365)
    by (apply Z.mod_pos_bound; lia).
  repeat split; try lia;
    try (destruct (cycle_leap _ _ _); lia);
    Z.div_mod_to_equations; lia.
Qed.

Lemma days_in_month_leap (y m : Z) :
  days_in_month y m
  = DAYS_IN_MONTH m + (if (m =? 2) && is_leap y then 1 else 0).
Proof.
  unfold days_in_month. destruct (Z.eqb_spec m 2) as [-> | _]; simpl.
  - destruct (is_leap y); reflexivity.
  - lia.
Qed.

(** [ord2ymd] undoes [toordinal] on every valid date. *)
Lemma ord2ymd_toordinal (t : date) : valid t -> ord2ymd (toordinal t) = t.
Proof.
  destruct t as [y m d]. unfold valid, MINYEAR. cbn [year month day].
  intros (Hy & Hm & Hd).
  destruct (year_cycles y) as (a & b & c & e & Ha & Hb & Hc & He & ->);
    [lia |].
  rewrite days_in_month_leap, is_leap_cycles in Hd by assumption.
  unfold toordinal, days_before_month. cbn [year month day].
  rewrite days_before_year_cycles, is_leap_cycles by assumption.
  pose proof (yday_range (cycle_leap b c e) m d Hm Hd) as Hj.
  replace (146097 * a + 36524 * b + 1461 * c + 365 * e
           + (DAYS_BEFORE_MONTH m
              + (if (2 <? m) && cycle_leap b c e then 1 else 0)) + d)
    with (146097 * a + 36524 * b + 1461 * c + 365 * e
          + (DAYS_BEFORE_MONTH m
             + (if (2 <? m) && cycle_leap b c e then 1 else 0) + d - 1) + 1)
    by lia.
  rewrite ord2ymd_cycles by assumption.
  rewrite month_day_of_yday_inverse by assumption. reflexivity.
Qed.

(** Every ordinal in range is the ordinal of a valid date, the one
    [ord2ymd] returns. *)
Lemma toordinal_ord2ymd (n : Z) :
  1 <= n <= MAXORDINAL ->
  valid (ord2ymd n) /\ toordinal (ord2ymd n) = n.
Proof.
  unfold MAXORDINAL. intros Hn.
  destruct (ordinal_cycles n) as (a & b & c & e & j & Ha & Hb & Hc & He & Hj & ->);
    [lia |].
  rewrite ord2ymd_cycles by assumption.
  destruct (yday_split (cycle_leap b c e) j Hj) as (m & d & Hm & Hd & ->).
  rewrite month_day_of_yday_inverse by assumption.
  unfold valid, toordinal, days_before_month, MINYEAR, MAXYEAR.
  cbn [year month day].
  rewrite days_in_month_leap, days_before_year_cycles, is_leap_cycles
    by assumption.
  pose proof (yday_range (cycle_leap b c e) m d Hm Hd) as Hr.
  repeat split; try lia.
Qed.

Lemma toordinal_range (t : date) : valid t -> 1 <= toordinal t <= MAXORDINAL.
Proof.
  destruct t as [y m d]. unfold valid, MINYEAR, MAXYEAR, MAXORDINAL. cbn [year month day].
  intros (Hy & Hm & Hd).
  destruct (year_cycles y) as (a & b & c & e & Ha & Hb & Hc & He & ->);
    [lia |].
  rewrite days_in_month_leap, is_leap_cycles in Hd by assumption.
  unfold toordinal, days_before_month. cbn [year month day].
  rewrite days_before_year_cycles, is_leap_cycles by assumption.
  pose proof (yday_range (cycle_leap b c e) m d Hm Hd) as Hj.
  assert (Hl : (if cycle_leap b c e then 1 else 0) = 1 -> e = 3).
  { destruct (cycle_leap b c e) eqn:E; [| lia].
    intros _. apply cycle_leap_true in E. tauto. }
  destruct (cycle_leap b c e); lia.
Qed.

(** ** Period resolution *)

Lemma new_date_valid (y m d : Z) :
  valid (mkdate y m d) -> new_date y m d = Ok (mkdate y m d).
Proof.
  unfold valid, new_date. cbn [year month day]. intros (Hy & Hm & Hd).
  destruct (Z.leb_spec MINYEAR y); [| lia].
  destruct (Z.leb_spec y MAXYEAR); [| lia].
  destruct (Z.leb_spec 1 m); [| lia].
  destruct (Z.leb_spec m 12); [| lia].
  destruct (Z.leb_spec 1 d); [| lia].
  destruct (Z.leb_spec d (days_in_month y m)); [reflexivity | lia].
Qed.

Lemma sub_days_to (t t' : date) (k : Z) :
  valid t' -> toordinal t - k = toordinal t' -> sub_days t k = Ok t'.
Proof.
  intros Hv Ho. unfold sub_days. rewrite Ho.
  pose proof (toordinal_range t' Hv) as Hr.
  destruct (Z.ltb_spec 0 (toordinal t')); [| lia].
  destruct (Z.leb_spec (toordinal t') MAXORDINAL); [| lia].
  simpl. rewrite ord2ymd_toordinal by exact Hv. reflexivity.
Qed.

Lemma days_in_month_range (y m : Z) :
  1 <= m <= 12 -> 28 <= days_in_month y m <= 31.
Proof.
  intros Hm. unfold days_in_month.
  assert (Hcases : m = 1 \/ m = 2 \/ m = 3 \/ m = 4 \/ m = 5 \/ m = 6 \/
                   m = 7 \/ m = 8 \/ m = 9 \/ m = 10 \/ m = 11 \/ m = 12)
    by lia.
  destruct (is_leap y);
    destruct Hcases as [E | [E | [E | [E | [E | [E | [E | [E | [E | [E | [E | E]]]]]]]]]]];
    subst m; simpl; lia.
Qed.

(** The day before the first of the next month is the last day of the
    month. *)
Lemma last_day_of_month_ordinal (y m : Z) :
  1 <= m < 12 ->
  toordinal (mkdate y (m + 1) 1) - 1
  = toordinal (mkdate y m (days_in_month y m)).
Proof.
  intros Hm. unfold toordinal, days_before_month, days_in_month.
  cbn [year month day].
  assert (Hcases : m = 1 \/ m = 2 \/ m = 3 \/ m = 4 \/ m = 5 \/ m = 6 \/
                   m = 7 \/ m = 8 \/ m = 9 \/ m = 10 \/ m = 11)
    by lia.
  destruct (is_leap y);
    destruct Hcases as [E | [E | [E | [E | [E | [E | [E | [E | [E | [E | E]]]]]]]]]];
    subst m; simpl; lia.
Qed.

(** The day before January 1 is December 31 of the year before. *)
Lemma last_day_of_year_ordinal (y : Z) :
  1 <= y ->
  toordinal (mkdate (y + 1) 1 1) - 1 = toordinal (mkdate y 12 31).
Proof.
  intros Hy. unfold toordinal, days_before_month, days_before_year, is_leap.
  cbn [year month day].
  replace (y + 1 - 1) with y by lia.
  change (2 <? 1) with false. change (2 <? 12) with true.
  cbn [andb DAYS_BEFORE_MONTH].
  repeat match goal with
         | |- context [?x =? ?z] => destruct (Z.eqb_spec x z)
         end; cbn [andb orb negb]; Z.div_mod_to_equations; lia.
Qed.

Section PeriodResolution.

Variable today : date.
Hypothesis today_valid : valid today.
Variables start_date end_date : option date.

Let y := year today.
Let m := month today.

Lemma first_of_month_valid : valid (mkdate y m 1).
Proof.
  destruct today_valid as (Hy & Hm & Hd). unfold valid. cbn [year month day].
  pose proof (days_in_month_range y m Hm). fold y m in Hy, Hm. lia.
Qed.

Lemma last_of_month_valid : valid (mkdate y m (days_in_month y m)).
Proof.
  destruct today_valid as (Hy & Hm & Hd). unfold valid. cbn [year month day].
  pose proof (days_in_month_range y m Hm). fold y m in Hy, Hm. lia.
Qed.

(** X3: [month]: the first through the last calendar day of today's month
    (the last month of year 9999 has no day after it to step back from). *)
Lemma month_period :
  m < 12 \/ y < MAXYEAR ->
  get_period_dates MONTH start_date end_date today
  = Ok (mkdate y m 1, mkdate y m (days_in_month y m)).
Proof.
  intros Hlast. destruct today_valid as (Hy & Hm & Hd).
  fold y m in Hy, Hm. unfold MINYEAR, MAXYEAR in *.
  unfold get_period_dates, replace, or_else. fold y m.
  rewrite (new_date_valid y m 1 first_of_month_valid). cbn [bind].
  destruct (Z.eqb_spec m 12) as [E | N].
  - rewrite (new_date_valid (y + 1) 1 1)
      by (unfold valid, MINYEAR, MAXYEAR; cbn; lia).
    unfold day_before. cbn [bind].
    rewrite (sub_days_to _ (mkdate y 12 31)).
    + cbn [bind]. rewrite E. reflexivity.
    + unfold valid, MINYEAR, MAXYEAR. cbn. lia.
    + apply last_day_of_year_ordinal. lia.
  - rewrite (new_date_valid y (m + 1) 1)
      by (unfold valid, MINYEAR, MAXYEAR; cbn [year month day];
          pose proof (days_in_month_range y (m + 1)); lia).
    unfold day_before. cbn [bind].
    rewrite (sub_days_to _ (mkdate y m (days_in_month y m))).
    + reflexivity.
    + exact last_of_month_valid.
    + apply last_day_of_month_ordinal. lia.
Qed.

(** X4: [quarter], for a today in January through September: the first day of
    the quarter through its last day. *)
Lemma quarter_period :
  m <= 9 ->
  get_period_dates QUARTER start_date end_date today
  = Ok (mkdate y ((m - 1) / 3 * 3 + 1) 1,
        mkdate y ((m - 1) / 3 * 3 + 3)
               (days_in_month y ((m - 1) / 3 * 3 + 3))).
Proof.
  intros H9. destruct today_valid as (Hy & Hm & Hd).
  fold y m in Hy, Hm. unfold MINYEAR, MAXYEAR in *.
  unfold get_period_dates, replace, or_else. fold y m.
  set (q := (m - 1) / 3 * 3 + 1).
  assert (Hq : 1 <= q <= 7) by (unfold q; Z.div_mod_to_equations; lia).
  replace ((m - 1) / 3 * 3 + 3) with (q + 2) by (unfold q; lia).
  rewrite (new_date_valid y q 1)
    by (unfold valid, MINYEAR, MAXYEAR; cbn [year month day];
        pose proof (days_in_month_range y q); lia).
  cbn [bind].
  destruct (Z.leb_spec (q + 2) 12); [| lia].
  rewrite (new_date_valid y (q + 3) 1)
    by (unfold valid, MINYEAR, MAXYEAR; cbn [year month day];
        pose proof (days_in_month_range y (q + 3)); lia).
  unfold day_before. cbn [bind].
  rewrite (sub_days_to _ (mkdate y (q + 2) (days_in_month y (q + 2)))).
  - reflexivity.
  - unfold valid, MINYEAR, MAXYEAR. cbn [year month day].
    pose proof (days_in_month_range y (q + 2)). lia.
  - replace (q + 3) with (q + 2 + 1) by lia.
    apply last_day_of_month_ordinal. lia.
Qed.

(** X5: [year]: January 1 through December 31 of today's year. *)
Lemma year_period :
  get_period_dates YEAR start_date end_date today
  = Ok (mkdate y 1 1, mkdate y 12 31).
Proof.
  destruct today_valid as (Hy & Hm & Hd).
  fold y m in Hy, Hm. unfold MINYEAR, MAXYEAR in *.
  unfold get_period_dates, replace, or_else. fold y.
  rewrite (new_date_valid y 1 1)
    by (unfold valid, MINYEAR, MAXYEAR; cbn; lia).
  rewrite (new_date_valid y 12 31)
    by (unfold valid, MINYEAR, MAXYEAR; cbn; lia).
  reflexivity.
Qed.

(** X6: [custom] with a bound missing falls to the default: the first of
    today's month through today. *)
Lemma default_period :
  start_date = None \/ end_date = None ->
  get_period_dates CUSTOM start_date end_date today
  = Ok (mkdate y m 1, today).
Proof.
  intros Hmissing.
  assert (H : get_period_dates CUSTOM start_date end_date today
              = (start <- replace today None None (Some 1) ;;
                 Ok (start, today))).
  { destruct Hmissing as [-> | ->]; [reflexivity |].
    destruct start_date; reflexivity. }
  rewrite H. unfold replace, or_else. fold y m.
  rewrite (new_date_valid y m 1 first_of_month_valid). reflexivity.
Qed.

(** X7: [week]: the Monday through Sunday containing today (the last days of
    year 9999 have no Sunday after them). *)
Lemma week_period :
  toordinal today - weekday today + 6 <= MAXORDINAL ->
  exists monday sunday,
    get_period_dates WEEK start_date end_date today = Ok (monday, sunday)
    /\ valid monday /\ valid sunday
    /\ weekday monday = 0 /\ weekday sunday = 6
    /\ toordinal sunday = toordinal monday + 6
    /\ toordinal monday <= toordinal today <= toordinal sunday.
Proof.
  intros Hmax.
  pose proof (toordinal_range today today_valid) as Hr.
  assert (Hw : 0 <= weekday today < 7)
    by (unfold weekday; apply Z.mod_pos_bound; lia).
  assert (Hmon : 1 <= toordinal today - weekday today).
  { unfold weekday in *. Z.div_mod_to_equations. lia. }
  destruct (toordinal_ord2ymd (toordinal today - weekday today))
    as [Hv1 Ho1]; [lia |].
  destruct (toordinal_ord2ymd (toordinal today - weekday today + 6))
    as [Hv2 Ho2]; [lia |].
  exists (ord2ymd (toordinal today - weekday today)),
         (ord2ymd (toordinal today - weekday today + 6)).
  split.
  - unfold get_period_dates.
    rewrite (sub_days_to today _ (weekday today) Hv1) by (symmetry; exact Ho1).
    cbn [bind]. unfold add_days.
    rewrite (sub_days_to _ _ (- 6) Hv2) by (rewrite Ho1, Ho2; lia).
    reflexivity.
  - repeat split; try assumption; try apply Hv1; try apply Hv2.
    + unfold weekday at 1. rewrite Ho1. unfold weekday.
      Z.div_mod_to_equations. lia.
    + unfold weekday at 1. rewrite Ho2. unfold weekday.
      Z.div_mod_to_equations. lia.
    + rewrite Ho1, Ho2. lia.
    + rewrite Ho1. lia.
    + rewrite Ho2. lia.
Qed.

End PeriodResolution.

(** ** Period resolution: the last quarter *)

Section LastQuarter.

(** C2 fails on the code for the last quarter: with today = 2024-12-20
    (a valid date) the quarter period does not resolve to
    [2024-10-01, 2024-12-31]; the guard [quarter_month + 2 <= 12] holds
    for October too, so the code asks for month 13 and [date.replace]
    raises [ValueError]. *)
Theorem quarter_period_2024_12_20_raises :
  new_date 2024 12 20 = Ok (mkdate 2024 12 20)
  /\ get_period_dates QUARTER None None (mkdate 2024 12 20)
     = Raise (ValueError "month must be in 1..12")
  /\ get_period_dates QUARTER None None (mkdate 2024 12 20)
     <> Ok (mkdate 2024 10 1, mkdate 2024 12 31).
Proof.
  split; [reflexivity |]. split; [reflexivity | discriminate].
Qed.

(** X8: On every day of October, November and December the quarter period does
    not resolve: the guard [quarter_month + 2 <= 12] holds for October, the
    code asks [date.replace] for month 13 and it raises. *)
Lemma quarter_period_raises_in_last_quarter (today : date)
    (start_date end_date : option date) :
  valid today ->
  10 <= month today ->
  get_period_dates QUARTER start_date end_date today
  = Raise (ValueError "month must be in 1..12").
Proof.
  intros (Hy & Hm & Hd) H10.
  assert (Hq : (month today - 1) / 3 * 3 + 1 = 10).
  { assert ((month today - 1) / 3 = 3); [| lia].
    symmetry. apply Z.div_unique with (r := month today - 10); lia. }
  unfold get_period_dates. rewrite Hq.
  unfold replace, new_date, MINYEAR, MAXYEAR in *. simpl.
  destruct (Z.leb_spec 1 (year today)); [| lia].
  destruct (Z.leb_spec (year today) 9999); [| lia].
  reflexivity.
Qed.

Lemma quarter_period_raises_in_last_quarter_witness :
  get_period_dates QUARTER None None (mkdate 2024 10 1)
  = Raise (ValueError "month must be in 1..12").
Proof.
  apply (quarter_period_raises_in_last_quarter (mkdate 2024 10 1) None None).
  - unfold valid, MINYEAR, MAXYEAR; cbn; lia.
  - cbn; lia.
Defined.

(** With both bounds given, a custom period is those bounds. *)
Lemma custom_period (s e today : date) :
  get_period_dates CUSTOM (Some s) (Some e) today = Ok (s, e).
Proof. reflexivity. Qed.

(** The periods of the specification's other examples. *)
Example month_period_2024_03_15 :
  get_period_dates MONTH None None (mkdate 2024 3 15)
  = Ok (mkdate 2024 3 1, mkdate 2024 3 31).
Proof. reflexivity. Qed.

Example quarter_period_2024_03_15 :
  get_period_dates QUARTER None None (mkdate 2024 3 15)
  = Ok (mkdate 2024 1 1, mkdate 2024 3 31).
Proof. reflexivity. Qed.

Example month_period_2024_12_20 :
  get_period_dates MONTH None None (mkdate 2024 12 20)
  = Ok (mkdate 2024 12 1, mkdate 2024 12 31).
Proof. reflexivity. Qed.

Example week_period_2024_12_20 :
  get_period_dates WEEK None None (mkdate 2024 12 20)
  = Ok (mkdate 2024 12 16, mkdate 2024 12 22).
Proof. reflexivity. Qed.

End LastQuarter.

(** ** The handlers on the sample store *)

Section OnTheSampleStore.

Import Auth Budget Samples.

(** C3 fails on the code: the store holds alice@example.com and the
    request spells the address Alice@example.com.  The duplicate check
    compares the address as sent, finds no row, and the insert of the
    lower-cased address is refused by the unique index: the request ends in
    an [IntegrityError], not in [DuplicateEmail].  No user is created. *)
Theorem register_case_variant_email_not_reported_duplicate
    (settings : Settings) (hash_password : string -> string) :
  lower "Alice@example.com" = User.email alice
  /\ register settings hash_password
       (mkUserCreate "Alice@example.com" "Alice" "Smith" "Str0ngPassw0rd"
                     "Str0ngPassw0rd")
       "u9" 1700000000 sample_db
     = (Raise (IntegrityError "users.email"), sample_db)
  /\ register settings hash_password
       (mkUserCreate "alice@example.com" "Alice" "Smith" "Str0ngPassw0rd"
                     "Str0ngPassw0rd")
       "u9" 1700000000 sample_db
     = (Raise DuplicateEmail, sample_db).
Proof. repeat split. Qed.

Lemma verify_email_idempotent_witness :
  verify_email default_settings bobs_token 1700000120
    (snd (verify_email default_settings bobs_token 1700000060 sample_db))
  = (Ok "Email address is already verified",
     snd (verify_email default_settings bobs_token 1700000060 sample_db))
  /\ first (by_email "bob@example.com")
           (users (snd (verify_email default_settings bobs_token 1700000060
                                     sample_db)))
     = Some (User.with_is_verified true bob).
Proof.
  assert (Hne : "bob@example.com" <> "") by discriminate.
  exact (proj2 (proj2
           (verify_email_idempotent default_settings bobs_token bobs_token
              1700000060 1700000120 sample_db "bob@example.com" bob
              eq_refl eq_refl Hne eq_refl))).
Defined.

(** The login gating of the specification: bob is active and unverified,
    carol is verified and deactivated, alice passes the three checks and
    her row, which had no last login, gets the time of the call. *)
Lemma login_gating_witness :
  (User.last_login alice = None
   /\ exists tok db',
        login default_settings sample_verify
              (mkUserLogin "Alice@Example.com" "Str0ngPassw0rd") 1700000000
              sample_db
        = (Ok tok, db')
        /\ access_token tok
           = create_access_token default_settings
               (mkclaims (Some "alice@example.com") None None)
               (Some 900) 1700000000
        /\ User.id (user tok) = "u1"
        /\ User.last_login (user tok) = Some 1700000000
        /\ first (by_email "alice@example.com") (users db') = Some (user tok)
        /\ users db'
           = [User.mk "u1" "Alice" "Smith" "alice@example.com"
                      (sample_hash "Str0ngPassw0rd") true true None
                      (Some 1700000000);
              bob; carol])
  /\ login default_settings sample_verify
        (mkUserLogin "Bob@Example.com" "An0therPassw0rd") 1700000000 sample_db
  = (Raise EmailNotVerified, sample_db)
  /\ login default_settings sample_verify
           (mkUserLogin "carol@example.com" "Th1rdPassw0rd") 1700000000
           sample_db
     = (Raise AccountDeactivated, sample_db)
  /\ login default_settings sample_verify
           (mkUserLogin "carol@example.com" "wrong") 1700000000 sample_db
     = (Raise InvalidCredentials, sample_db)
  /\ login default_settings sample_verify
           (mkUserLogin "nobody@example.com" "wrong") 1700000000 sample_db
     = (Raise InvalidCredentials, sample_db).
Proof.
  split; [| split; [| split; [| split]]].
  - split; [reflexivity |].
    destruct (login_gating default_settings sample_verify
                (mkUserLogin "Alice@Example.com" "Str0ngPassw0rd") 1700000000
                sample_db) as (_ & H & _).
    destruct (proj2 (proj2 (proj2 (H alice eq_refl))) eq_refl eq_refl eq_refl)
      as (db' & u' & Hrun & Hrow & Hlast & Hsame & _).
    exists (mkToken
              (create_access_token default_settings
                 (mkclaims (Some (User.email alice)) None None)
                 (Some (timedelta_minutes
                          (ACCESS_TOKEN_EXPIRE_MINUTES default_settings)))
                 1700000000)
              "bearer" u'), db'.
    split; [exact Hrun |]. split; [reflexivity |].
    split; [symmetry; exact (proj1 Hsame) |].
    split; [exact Hlast |]. split; [exact Hrow |].
    assert (Hdb : login default_settings sample_verify
                    (mkUserLogin "Alice@Example.com" "Str0ngPassw0rd")
                    1700000000 sample_db
                  = (Ok (mkToken
                           (create_access_token default_settings
                              (mkclaims (Some (User.email alice)) None None)
                              (Some (timedelta_minutes
                                       (ACCESS_TOKEN_EXPIRE_MINUTES
                                          default_settings)))
                              1700000000)
                           "bearer"
                           (User.with_last_login (Some 1700000000) alice)),
                     update_user "u1" (User.with_last_login (Some 1700000000))
                                 sample_db))
      by reflexivity.
    rewrite Hdb in Hrun. inversion Hrun; subst. reflexivity.
  - destruct (login_gating default_settings sample_verify
                (mkUserLogin "Bob@Example.com" "An0therPassw0rd") 1700000000
                sample_db) as (_ & H & _).
    exact (proj1 (proj2 (proj2 (H bob eq_refl))) eq_refl eq_refl eq_refl).
  - destruct (login_gating default_settings sample_verify
                (mkUserLogin "carol@example.com" "Th1rdPassw0rd") 1700000000
                sample_db) as (_ & H & _).
    exact (proj1 (proj2 (H carol eq_refl)) eq_refl eq_refl).
  - destruct (login_gating default_settings sample_verify
                (mkUserLogin "carol@example.com" "wrong") 1700000000
                sample_db) as (_ & H & _).
    exact (proj1 (H carol eq_refl) eq_refl).
  - destruct (login_gating default_settings sample_verify
                (mkUserLogin "nobody@example.com" "wrong") 1700000000
                sample_db) as (H & _).
    exact (H eq_refl).
Defined.

(** Delete-with-dependents: the category with two expenses; and the soft
    delete of the category with none, committed at 1710500000. *)
Lemma delete_budget_category_cases_witness :
  delete_budget_category "c1" alice false 1710500000 library_db
  = (Raise (HTTPException 400
       "Cannot delete category with 2 associated expenses. Use force=true to override."),
     library_db)
  /\ delete_budget_category "c1" alice true 1710500000 library_db
     = (Ok "Budget category deleted successfully",
        mkDb [alice; bob; carol] [travel; books] [train])
  /\ delete_budget_category "c1" bob true 1710500000 library_db
     = (Raise NotFound, library_db)
  /\ exists db' c',
       delete_budget_category "c3" alice false 1710500000 library_db
       = (Ok "Budget category deactivated successfully", db')
       /\ first (owned_category "c3" alice) (budget_categories db') = Some c'
       /\ BudgetCategory.is_active books = true
       /\ BudgetCategory.is_active c' = false
       /\ BudgetCategory.updated_at c' = 1710500000
       /\ BudgetCategory.same_data books c'
       /\ expenses db' = [lunch; groceries; train]
       /\ users db' = [alice; bob; carol].
Proof.
  destruct (delete_budget_category_cases "c1" alice 1710500000 library_db)
    as (_ & H).
  destruct (H food 2 eq_refl eq_refl) as (Hconflict & _ & db' & Hforce & _).
  split; [exact (Hconflict eq_refl) |].
  split; [reflexivity |].
  split;
    [exact (proj1 (delete_budget_category_cases "c1" bob 1710500000
                     library_db) eq_refl true) |].
  destruct (delete_budget_category_cases "c3" alice 1710500000 library_db)
    as (_ & H3).
  destruct (H3 books 0 eq_refl eq_refl)
    as (_ & Hsoft & _).
  destruct (Hsoft eq_refl)
    as (db3 & c' & Hrun & Husers & Hexp & Hrow & Hflag & Hstamp & Hdata & _).
  exists db3, c'.
  split; [exact Hrun |]. split; [exact Hrow |]. split; [reflexivity |].
  split; [exact Hflag |]. split; [exact Hstamp |]. split; [exact Hdata |].
  split; [exact Hexp | exact Husers].
Defined.

(** C6 fails as stated: the soft delete of the category "Books", last
    updated at 1709100000 and without expenses, committed at 1710500000,
    leaves the row with the active flag off and with [updated_at] at
    1710500000: the record is not otherwise intact. *)
Lemma soft_delete_refreshes_updated_at :
  BudgetCategory.updated_at books = 1709100000
  /\ count_of (filter (expense_of "c3" alice) (expenses library_db)) = 0
  /\ delete_budget_category "c3" alice false 1710500000 library_db
     = (Ok "Budget category deactivated successfully",
        mkDb [alice; bob; carol]
             [food; travel;
              BudgetCategory.mk "c3" "u1" "Books" None 2000 (Some "#33AA55")
                                None false 1710500000]
             [lunch; groceries; train])
  /\ BudgetCategory.mk "c3" "u1" "Books" None 2000 (Some "#33AA55") None false
                       1710500000
     <> BudgetCategory.with_is_active false books.
Proof.
  repeat split. discriminate.
Qed.

Lemma sample_keys_unique : category_keys_unique sample_db.
Proof.
  unfold category_keys_unique. simpl.
  repeat constructor; simpl; intuition discriminate.
Qed.

Lemma sample_expenses_reference_categories :
  expenses_reference_categories sample_db.
Proof.
  intros e He. simpl in He.
  destruct He as [<- | [<- | [<- | []]]];
    [exists food | exists food | exists travel]; simpl; auto.
Qed.



(** C7 fails on the code: alice has three expenses dated from 2024-03-05
    to 2024-03-12, and the export for the period [2024-03-05, 2024-03-12]
    has a header and two rows.  The groceries, bought on 2024-03-12 at
    18:00, are missing: the query compares the date-time of the expense
    with the last day of the period taken at 00:00:00. *)
Theorem export_leaves_out_expense_on_last_day :
  map (fun e => day_of (Expense.expense_date e))
      (filter (fun e => String.eqb (Expense.user_id e) (User.id alice))
              (expenses sample_db))
  = [mkdate 2024 3 10; mkdate 2024 3 12; mkdate 2024 3 5]
  /\ get_period_dates CUSTOM (Some (mkdate 2024 3 5)) (Some (mkdate 2024 3 12))
                      today
     = Ok (mkdate 2024 3 5, mkdate 2024 3 12)
  /\ export_report_data CSV CUSTOM (Some (mkdate 2024 3 5))
                        (Some (mkdate 2024 3 12)) alice sample_db today
     = Ok (mkCsvResponse
             [header_row; data_row (lunch, "Food");
              data_row (train, "Travel")]
             "text/csv" (mkdate 2024 3 5, mkdate 2024 3 12))
  /\ Expense.expense_date groceries
     = mkdatetime (mkdate 2024 3 12) (clock 18 0)
  /\ in_period (mkdate 2024 3 5) (mkdate 2024 3 12) groceries = false.
Proof. repeat split. Qed.

(** The same export for the whole month: a header and three rows, most
    recent expense first; PDF is refused. *)
Example export_march_2024 :
  export_report_data PDF MONTH None None alice sample_db today
  = Raise UnsupportedFormat
  /\ export_report_data CSV MONTH None None alice sample_db today
     = Ok (mkCsvResponse
             [header_row; data_row (groceries, "Food");
              data_row (lunch, "Food"); data_row (train, "Travel")]
             "text/csv" (mkdate 2024 3 1, mkdate 2024 3 31)).
Proof. split; reflexivity. Qed.



End OnTheSampleStore.

(** ** Account manager: the flows across handlers *)

Section LowerCase.

Lemma lower_char_idempotent (c : ascii) : lower_char (lower_char c) = lower_char c.
Proof.
  destruct c as [[] [] [] [] [] [] [] []]; reflexivity.
Qed.

Lemma lower_idempotent (s : string) : lower (lower s) = lower s.
Proof.
  induction s as [| c s IH]; simpl; [reflexivity |].
  rewrite lower_char_idempotent, IH. reflexivity.
Qed.

Lemma lower_empty (s : string) : lower s = "" <-> s = "".
Proof.
  destruct s; simpl; split; intros H; try reflexivity; discriminate.
Qed.

Lemma first_app_none {A : Type} (p : A -> bool) (l1 l2 : list A) :
  first p l1 = None -> first p (l1 ++ l2) = first p l2.
Proof.
  unfold first. induction l1 as [| x l1 IH]; simpl; [reflexivity |].
  destruct (p x); [discriminate | exact IH].
Qed.

Lemma first_none_existsb {A : Type} (p : A -> bool) (l : list A) :
  existsb p l = false -> first p l = None.
Proof.
  unfold first. induction l as [| x l IH]; simpl; [reflexivity |].
  destruct (p x); simpl; [discriminate | exact IH].
Qed.

End LowerCase.

Section IssuedTokens.

Variable settings : Settings.

Lemma verify_issued_email_token (s : string) (issued_at now : Z) :
  now <= issued_at + timedelta_hours (EMAIL_TOKEN_EXPIRE_HOURS settings) ->
  verify_email_token settings
    (create_email_verification_token settings s issued_at) now = Some s.
Proof.
  intros Hnow.
  unfold verify_email_token, create_email_verification_token, jwt_encode,
    jwt_decode.
  simpl. rewrite !String.eqb_refl. simpl.
  destruct (Z.ltb_spec
              (issued_at + timedelta_hours (EMAIL_TOKEN_EXPIRE_HOURS settings))
              now); [lia | reflexivity].
Qed.

Lemma verify_issued_reset_token (s : string) (issued_at now : Z) :
  now <= issued_at + timedelta_hours (EMAIL_TOKEN_EXPIRE_HOURS settings) ->
  verify_password_reset_token settings
    (create_password_reset_token settings s issued_at) now = Some s.
Proof.
  intros Hnow.
  unfold verify_password_reset_token, create_password_reset_token, jwt_encode,
    jwt_decode.
  simpl. rewrite !String.eqb_refl. simpl.
  destruct (Z.ltb_spec
              (issued_at + timedelta_hours (EMAIL_TOKEN_EXPIRE_HOURS settings))
              now); [lia | reflexivity].
Qed.

(** The session token of [login], read back at the moment it is issued. *)
Lemma verify_login_token (email : string) (now : Z) :
  0 <= ACCESS_TOKEN_EXPIRE_MINUTES settings ->
  exists expire,
    verify_token settings
      (create_access_token settings (mkclaims (Some email) None None)
         (Some (timedelta_minutes (ACCESS_TOKEN_EXPIRE_MINUTES settings)))
         now) now
    = Some (mkclaims (Some email) None (Some expire)).
Proof.
  intros Hm. unfold verify_token, create_access_token, jwt_encode, jwt_decode,
    timedelta_minutes.
  simpl. rewrite !String.eqb_refl. simpl.
  destruct (ACCESS_TOKEN_EXPIRE_MINUTES settings * 60 =? 0);
    eexists;
    match goal with
    | |- context [?a <? ?b] => destruct (Z.ltb_spec a b); [lia | reflexivity]
    end.
Qed.

End IssuedTokens.

Section AccountFlows.

Import Auth Recovery.

Variable settings : Settings.
Variable verify_password : string -> string -> bool.
Variable hash_password : string -> string.

(** The credential verifier accepts a password against its own hash. *)
Hypothesis verify_hash :
  forall password, verify_password password (hash_password password) = true.

(** What a successful [register] leaves behind: the new row, found under
    its lower-cased address. *)
Lemma register_ok_inv (user_data : UserCreate) (new_id : string) (now : Z)
    (db db1 : Db) (r : RegisterResponse) :
  register settings hash_password user_data new_id now db = (Ok r, db1) ->
  let u := User.mk new_id (uc_first_name user_data) (uc_last_name user_data)
                   (lower (uc_email user_data))
                   (hash_password (uc_password user_data))
                   true false None None in
  db1 = with_users (users db ++ [u]) db
  /\ r = mkRegisterResponse
           "Registration successful! Please check your email to verify your account."
           (lower (uc_email user_data))
           [mkMailTask (lower (uc_email user_data)) (uc_first_name user_data)
              (create_email_verification_token settings
                 (lower (uc_email user_data)) now)]
  /\ first (by_email (lower (uc_email user_data))) (users db1) = Some u
  /\ fst (validate_password_strength (uc_password user_data)) = true.
Proof.
  unfold register.
  destruct (first (by_email (uc_email user_data)) (users db));
    [discriminate |].
  destruct (validate_password_strength (uc_password user_data))
    as [is_valid message].
  destruct is_valid; simpl; [| discriminate].
  unfold add_user. simpl.
  destruct (existsb _ (users db)); [discriminate |].
  destruct (existsb (fun v => String.eqb (User.email v)
                                          (lower (uc_email user_data)))
                    (users db)) eqn:Hfresh; [discriminate |].
  intros H; inversion H; subst; clear H. simpl.
  repeat split.
  rewrite first_app_none by (apply first_none_existsb; exact Hfresh).
  unfold first, by_email. simpl. rewrite String.eqb_refl. reflexivity.
Qed.

(** X9: A new account, end to end: after a successful [register] the login is
    refused until the mailed token has been presented to [verify_email];
    from then on the login succeeds, under any spelling of the address, and
    returns a session token for the stored address. *)
Theorem register_verify_login (user_data : UserCreate) (new_id email : string)
    (t0 t1 t2 : Z) (db db1 : Db) (r : RegisterResponse) :
  register settings hash_password user_data new_id t0 db = (Ok r, db1) ->
  uc_email user_data <> "" ->
  lower email = lower (uc_email user_data) ->
  t1 <= t0 + timedelta_hours (EMAIL_TOKEN_EXPIRE_HOURS settings) ->
  0 <= ACCESS_TOKEN_EXPIRE_MINUTES settings ->
  exists mail db2 db3 session,
    reg_tasks r = [mail]
    /\ mail_to mail = lower (uc_email user_data)
    /\ login settings verify_password
             (mkUserLogin email (uc_password user_data)) t0 db1
       = (Raise EmailNotVerified, db1)
    /\ verify_email settings (mail_token mail) t1 db1
       = (Ok "Email address verified successfully! You can now log in.", db2)
    /\ login settings verify_password
             (mkUserLogin email (uc_password user_data)) t2 db2
       = (Ok session, db3)
    /\ User.id (user session) = new_id
    /\ User.email (user session) = lower (uc_email user_data)
    /\ option_map sub (verify_token settings (access_token session) t2)
       = Some (Some (lower (uc_email user_data))).
Proof.
  intros Hreg Hne Hcase Ht1 Hmin.
  destruct (register_ok_inv _ _ _ _ _ _ Hreg) as (-> & -> & Hfound & _).
  set (u := User.mk new_id (uc_first_name user_data) (uc_last_name user_data)
                    (lower (uc_email user_data))
                    (hash_password (uc_password user_data))
                    true false None None) in *.
  assert (Hne' : String.eqb (lower (uc_email user_data)) "" = false).
  { apply String.eqb_neq. intros E. apply Hne. apply lower_empty. exact E. }
  eexists. exists (update_user new_id (User.with_is_verified true)
                     (with_users (users db ++ [u]) db)).
  assert (Hfound2 :
            first (by_email (lower (uc_email user_data)))
                  (users (update_user new_id (User.with_is_verified true)
                            (with_users (users db ++ [u]) db)))
            = Some (User.with_is_verified true u)).
  { apply (first_by_email_update _ (User.with_is_verified true) _ u);
      [reflexivity | exact Hfound]. }
  destruct (verify_login_token settings (lower (uc_email user_data)) t2 Hmin)
    as (expire & Htok).
  eexists.
  exists (mkToken
            (create_access_token settings
               (mkclaims (Some (lower (uc_email user_data))) None None)
               (Some (timedelta_minutes (ACCESS_TOKEN_EXPIRE_MINUTES settings)))
               t2)
            "bearer"
            (User.with_last_login (Some t2) (User.with_is_verified true u))).
  split; [reflexivity |]. split; [reflexivity |].
  split.
  { unfold login. simpl ul_email. rewrite Hcase, Hfound. simpl.
    rewrite verify_hash. reflexivity. }
  split.
  { unfold verify_email. simpl mail_token.
    rewrite verify_issued_email_token by exact Ht1.
    rewrite Hne', Hfound. reflexivity. }
  split.
  { unfold login. simpl ul_email. rewrite Hcase, Hfound2. simpl.
    rewrite verify_hash. simpl. reflexivity. }
  split; [reflexivity |]. split; [reflexivity |].
  cbn [access_token]. rewrite Htok. reflexivity.
Qed.


(** X10: [forgot_password], then [reset_password] with the mailed token, then
    [login] with the new password. *)
Theorem forgot_reset_login (email new_password : string) (t0 t1 t2 : Z)
    (db : Db) (u : User.t) :
  first (by_email (lower email)) (users db) = Some u ->
  User.is_active u = true ->
  User.is_verified u = true ->
  email <> "" ->
  fst (validate_password_strength new_password) = true ->
  t1 <= t0 + timedelta_hours (EMAIL_TOKEN_EXPIRE_HOURS settings) ->
  exists mail db1 db2 session,
    forgot_password settings email t0 db
    = Ok (mkAck reset_ack [send_password_reset_email mail])
    /\ mail_to mail = User.email u
    /\ reset_password settings hash_password (mail_token mail) new_password
                      t1 db
       = (Ok "Password reset successfully! You can now log in with your new password.",
          db1)
    /\ login settings verify_password (mkUserLogin email new_password) t2 db1
       = (Ok session, db2)
    /\ User.id (user session) = User.id u
    /\ User.hashed_password (user session) = hash_password new_password.
Proof.
  intros Hfound Hact Hver Hne Hstrong Ht1.
  destruct (first_some _ _ _ Hfound) as [_ Hmail].
  unfold by_email in Hmail. apply String.eqb_eq in Hmail.
  assert (Hne' : String.eqb (User.email u) "" = false).
  { apply String.eqb_neq. rewrite Hmail. intros E. apply Hne.
    apply lower_empty. exact E. }
  assert (Hfound' : first (by_email (User.email u)) (users db) = Some u)
    by (rewrite Hmail; exact Hfound).
  set (db1 := update_user (User.id u)
                (with_hashed_password (hash_password new_password)) db).
  assert (Hfound1 : first (by_email (lower email)) (users db1)
                    = Some (with_hashed_password (hash_password new_password)
                                                 u)).
  { apply (first_by_email_update _
             (with_hashed_password (hash_password new_password)) _ u);
      [reflexivity | exact Hfound]. }
  eexists. exists db1. eexists.
  exists (mkToken
            (create_access_token settings
               (mkclaims (Some (User.email u)) None None)
               (Some (timedelta_minutes (ACCESS_TOKEN_EXPIRE_MINUTES settings)))
               t2)
            "bearer"
            (User.with_last_login (Some t2)
               (with_hashed_password (hash_password new_password) u))).
  split.
  { unfold forgot_password. rewrite Hfound, Hact. reflexivity. }
  split; [reflexivity |].
  split.
  { unfold reset_password. simpl mail_token.
    rewrite verify_issued_reset_token by exact Ht1.
    rewrite Hne', Hfound', Hact. simpl negb. cbv iota.
    destruct (validate_password_strength new_password) as [is_valid message].
    simpl in Hstrong. subst is_valid. reflexivity. }
  split.
  { unfold login. simpl ul_email. rewrite Hfound1. simpl.
    rewrite verify_hash, Hact, Hver. reflexivity. }
  split; reflexivity.
Qed.

(** X11: The acknowledgment of [forgot_password] does not tell whether the
    address is known: the call never raises and the message is always the
    same; a mail is queued exactly when the address belongs to an active
    user, and goes to the stored address. *)
Theorem forgot_password_uniform (email : string) (now : Z) (db : Db) :
  exists tasks,
    forgot_password settings email now db = Ok (mkAck reset_ack tasks)
    /\ (tasks <> [] <->
        exists u, first (by_email (lower email)) (users db) = Some u
                  /\ User.is_active u = true)
    /\ forall task, In task tasks ->
         exists m, task = send_password_reset_email m
                   /\ mail_to m = lower email.
Proof.
  unfold forgot_password.
  destruct (first (by_email (lower email)) (users db)) as [u |] eqn:Hfound.
  - destruct (User.is_active u) eqn:Hact; simpl; eexists; split;
      try reflexivity; split.
    + split; [intros _; eauto | intros _; discriminate].
    + intros task [<- | []]. eexists; split; [reflexivity |]. simpl.
      destruct (first_some _ _ _ Hfound) as [_ Hmail].
      apply String.eqb_eq in Hmail. exact Hmail.
    + split; [intros H; now destruct H |].
      intros (u' & Hu' & Hact'). inversion Hu'; subst. congruence.
    + intros task [].
  - eexists; split; [reflexivity |]. split.
    + split; [intros H; now destruct H | intros (u' & Hu' & _); discriminate].
    + intros task [].
Qed.

(** The time a token is read at decides only whether it has expired: read
    at two moments at which it is accepted, a reset token names the same
    subject. *)
Lemma reset_token_subject_stable (t : token) (now1 now2 : Z)
    (e1 e2 : string) :
  verify_password_reset_token settings t now1 = Some e1 ->
  verify_password_reset_token settings t now2 = Some e2 ->
  e1 = e2.
Proof.
  intros H1 H2.
  apply verify_password_reset_token_spec in H1 as (_ & _ & _ & H1).
  apply verify_password_reset_token_spec in H2 as (_ & _ & _ & H2).
  congruence.
Qed.

(** X12: A reset token is not used up: after a reset, the same token, while it
    has not expired, resets the password again. *)
Theorem reset_token_not_consumed (t : token) (p1 p2 m1 : string)
    (now1 now2 : Z) (db db1 : Db) :
  reset_password settings hash_password t p1 now1 db = (Ok m1, db1) ->
  is_some (verify_password_reset_token settings t now2) = true ->
  fst (validate_password_strength p2) = true ->
  exists e u db2,
    reset_password settings hash_password t p2 now2 db1 = (Ok m1, db2)
    /\ verify_password_reset_token settings t now2 = Some e
    /\ first (by_email e) (users db2) = Some u
    /\ User.hashed_password u = hash_password p2.
Proof.
  intros H1 H2 Hstrong.
  apply is_some_true in H2 as [e2 H2].
  unfold reset_password in H1.
  destruct (verify_password_reset_token settings t now1) as [e |] eqn:Hv1;
    [| discriminate].
  assert (e = e2) by (eapply reset_token_subject_stable; eassumption).
  subst e2.
  destruct (String.eqb e "") eqn:Hne; [discriminate |].
  destruct (first (by_email e) (users db)) as [u |] eqn:Hfound;
    [| discriminate].
  destruct (User.is_active u) eqn:Hact; simpl in H1; [| discriminate].
  destruct (validate_password_strength p1) as [v1 msg1].
  destruct v1; simpl in H1; [| discriminate].
  inversion H1; subst m1 db1; clear H1.
  pose proof (first_by_email_update e
                (with_hashed_password (hash_password p1)) _ u
                (fun v => eq_refl) Hfound) as Hfound1.
  pose proof (first_by_email_update e
                (with_hashed_password (hash_password p2)) _ _
                (fun v => eq_refl) Hfound1) as Hfound2.
  exists e. eexists. eexists.
  split.
  { unfold reset_password. rewrite H2, Hne.
    unfold update_user at 1. simpl users. rewrite Hfound1.
    simpl User.is_active. rewrite Hact. simpl negb. cbv iota.
    destruct (validate_password_strength p2) as [v2 msg2].
    simpl in Hstrong. subst v2. reflexivity. }
  split; [exact H2 |].
  split; [exact Hfound2 | reflexivity].
Qed.


(** X13: A changed password opens the next session: when [change_password]
    succeeds for the user stored under an address, it answers success, the
    current password had verified, the new one is strong and did not verify
    against the old hash, and [login] with the new password succeeds. *)
Theorem change_password_then_login (current_password new_password email : string)
    (current_user : User.t) (now : Z) (db db1 : Db) (m : bool * string) :
  first (by_email (lower email)) (users db) = Some current_user ->
  User.is_active current_user = true ->
  User.is_verified current_user = true ->
  change_password verify_password hash_password current_password new_password
                  current_user db = (Ok m, db1) ->
  m = (true, "Password changed successfully!")
  /\ verify_password current_password (User.hashed_password current_user) = true
  /\ verify_password new_password (User.hashed_password current_user) = false
  /\ fst (validate_password_strength new_password) = true
  /\ exists session db2,
       login settings verify_password (mkUserLogin email new_password) now db1
       = (Ok session, db2)
       /\ User.id (user session) = User.id current_user
       /\ User.hashed_password (user session) = hash_password new_password.
Proof.
  intros Hfound Hact Hver. unfold change_password.
  destruct (verify_password current_password _) eqn:Hcur; simpl;
    [| discriminate].
  destruct (verify_password new_password _) eqn:Hnew; [discriminate |].
  destruct (validate_password_strength new_password) as [v msg].
  destruct v; simpl; [| discriminate].
  intros H; inversion H; subst m db1; clear H.
  repeat split.
  pose proof (first_by_email_update (lower email)
                (with_hashed_password (hash_password new_password)) _
                current_user (fun v => eq_refl) Hfound) as Hfound1.
  eexists. eexists. split.
  { unfold login. simpl ul_email. unfold update_user at 1. simpl users.
    rewrite Hfound1. simpl. rewrite verify_hash, Hact, Hver. simpl.
    reflexivity. }
  split; reflexivity.
Qed.

End AccountFlows.

Section AccountRefusals.

Import Auth Recovery.

Variable settings : Settings.
Variable verify_password : string -> string -> bool.
Variable hash_password : string -> string.

(** X14: [change_password] never accepts the current password as the new one:
    whatever the verifier, the call is refused and the store is as it
    was. *)
Theorem change_password_same_refused (password : string)
    (current_user : User.t) (db : Db) :
  let r := change_password verify_password hash_password password password
                           current_user db in
  (fst r = Raise WrongCurrentPassword \/ fst r = Raise SamePassword)
  /\ snd r = db.
Proof.
  unfold change_password.
  destruct (verify_password password (User.hashed_password current_user));
    simpl; auto.
Qed.

(** X15: The three kinds of token do not stand in for one another at the
    handlers: [reset_password] refuses a verification token and a session
    token, [verify_email] refuses a reset token and a session token, and the
    store stays as it was. *)
Theorem mailed_tokens_not_interchangeable (email new_password : string)
    (data : claims) (expires_delta : option Z) (issued_at now : Z) (db : Db) :
  type data = None ->
  reset_password settings hash_password
    (create_email_verification_token settings email issued_at) new_password
    now db = (Raise InvalidResetToken, db)
  /\ reset_password settings hash_password
       (create_access_token settings data expires_delta issued_at)
       new_password now db = (Raise InvalidResetToken, db)
  /\ verify_email settings
       (create_password_reset_token settings email issued_at) now db
     = (Raise InvalidToken, db)
  /\ verify_email settings
       (create_access_token settings data expires_delta issued_at) now db
     = (Raise InvalidToken, db).
Proof.
  intros Htype.
  unfold reset_password, verify_email, verify_password_reset_token,
    verify_email_token, create_email_verification_token,
    create_password_reset_token, create_access_token, jwt_encode, jwt_decode.
  simpl. rewrite !String.eqb_refl, Htype. simpl.
  repeat split;
    repeat match goal with
           | |- context [if ?b then _ else _] => destruct b; simpl
           | |- context [match ?o with Some _ => _ | None => _ end] =>
               destruct o; simpl
           end; reflexivity.
Qed.

(** X16: [resend_verification] for an unverified account queues one mail to the
    stored address, and the token in it, presented to [verify_email] before
    it expires, verifies the account; for a verified account the call is
    refused, and for an unknown address it queues nothing. *)
Theorem resend_verification_then_verify (email : string) (t0 t1 : Z)
    (db : Db) :
  email <> "" ->
  t1 <= t0 + timedelta_hours (EMAIL_TOKEN_EXPIRE_HOURS settings) ->
  match first (by_email (lower email)) (users db) with
  | None =>
      exists m, resend_verification settings email t0 db = Ok (mkAck m [])
  | Some u =>
      if User.is_verified u then
        resend_verification settings email t0 db = Raise AlreadyVerified
      else
        exists m mail db1 u1,
          resend_verification settings email t0 db
          = Ok (mkAck m [send_verification_email mail])
          /\ mail_to mail = lower email
          /\ mail_first_name mail = User.first_name u
          /\ verify_email settings (mail_token mail) t1 db
             = (Ok "Email address verified successfully! You can now log in.",
                db1)
          /\ first (by_email (lower email)) (users db1) = Some u1
          /\ User.is_verified u1 = true
          /\ User.id u1 = User.id u
          /\ User.hashed_password u1 = User.hashed_password u
  end.
Proof.
  intros Hne Ht1. unfold resend_verification.
  destruct (first (by_email (lower email)) (users db)) as [u |] eqn:Hfound;
    [| eauto].
  destruct (User.is_verified u) eqn:Hver; [reflexivity |].
  destruct (first_some _ _ _ Hfound) as [_ Hmail].
  unfold by_email in Hmail. apply String.eqb_eq in Hmail.
  assert (Hne' : String.eqb (User.email u) "" = false).
  { apply String.eqb_neq. rewrite Hmail. intros E. apply Hne.
    apply lower_empty. exact E. }
  eexists. eexists. eexists. exists (User.with_is_verified true u).
  split; [reflexivity |]. split; [exact Hmail |].
  split; [reflexivity |].
  split.
  { unfold verify_email. simpl mail_token.
    rewrite verify_issued_email_token by exact Ht1.
    rewrite Hne', Hmail, Hfound, Hver. reflexivity. }
  split.
  { apply (first_by_email_update _ (User.with_is_verified true) _ u);
      [reflexivity | exact Hfound]. }
  repeat split.
Qed.

End AccountRefusals.

Section AccountInvariant.

Import Auth Recovery Accounts.

Variable settings : Settings.
Variable verify_password : string -> string -> bool.
Variable hash_password : string -> string.

(** An [UPDATE] of a user by primary key that keeps [id] and [email]
    keeps both columns of the table. *)
Lemma update_user_keys (pk : string) (f : User.t -> User.t) (db : Db) :
  (forall v, User.id (f v) = User.id v) ->
  (forall v, User.email (f v) = User.email v) ->
  map User.id (users (update_user pk f db)) = map User.id (users db)
  /\ map User.email (users (update_user pk f db)) = map User.email (users db).
Proof.
  intros Hid Hmail. unfold update_user. simpl. rewrite !map_map.
  split; apply map_ext; intros v;
    destruct (String.eqb (User.id v) pk); auto.
Qed.

Lemma existsb_eqb_in {A : Type} (col : A -> string) (k : string)
    (rows : list A) :
  existsb (fun v => String.eqb (col v) k) rows = false ->
  ~ In k (map col rows).
Proof.
  intros H Hin. apply in_map_iff in Hin as (v & <- & Hin).
  assert (existsb (fun v0 => String.eqb (col v0) (col v)) rows = true)
    by (apply existsb_exists; exists v; split;
        [exact Hin | apply String.eqb_refl]).
  congruence.
Qed.

Lemma fresh_key_appended (keys : list string) (k : string) :
  NoDup keys -> ~ In k keys -> NoDup (keys ++ [k]).
Proof.
  intros Hkeys Hfresh. induction Hkeys as [| x keys Hx _ IH]; simpl.
  - constructor; [intros [] | constructor].
  - constructor.
    + rewrite in_app_iff. intros [H | [-> | []]]; [auto |].
      apply Hfresh. now left.
    + apply IH. intros H. apply Hfresh. now right.
Qed.

(** What one step does to the two key columns of [users]: nothing, or one
    fresh (id, lower-case address) pair at the end. *)
Lemma account_step_keys (db db' : Db) :
  account_step settings verify_password hash_password db db' ->
  (map User.id (users db') = map User.id (users db)
   /\ map User.email (users db') = map User.email (users db))
  \/ exists new_id email,
       map User.id (users db') = map User.id (users db) ++ [new_id]
       /\ map User.email (users db')
          = map User.email (users db) ++ [lower email]
       /\ ~ In new_id (map User.id (users db))
       /\ ~ In (lower email) (map User.email (users db)).
Proof.
  intros [user_data new_id utcnow db0 r db0' H
         | user_credentials utcnow db0 r db0' H
         | verification_token utcnow db0 r db0' H
         | reset_token new_password utcnow db0 r db0' H
         | current_password new_password current_user db0 r db0' H].
  - unfold register in H.
    destruct (first _ (users db0));
      [inversion H; subst; left; split; reflexivity |].
    destruct (validate_password_strength _) as [is_valid message].
    destruct is_valid; simpl in H;
      [| inversion H; subst; left; split; reflexivity].
    unfold add_user in H. simpl in H.
    destruct (existsb _ (users db0)) eqn:Hid;
      [inversion H; subst; left; split; reflexivity |].
    destruct (existsb (fun v => String.eqb (User.email v)
                                            (lower (uc_email user_data)))
                      (users db0)) eqn:Hmail;
      [inversion H; subst; left; split; reflexivity |].
    inversion H; subst; clear H. right.
    exists new_id, (uc_email user_data). simpl. rewrite !map_app. simpl.
    repeat split.
    + apply (existsb_eqb_in User.id). exact Hid.
    + apply (existsb_eqb_in User.email). exact Hmail.
  - left. unfold login in H.
    destruct (first _ (users db0)) as [u |];
      [| inversion H; subst; split; reflexivity].
    repeat match type of H with
           | context [if ?b then _ else _] => destruct b
           end; inversion H; subst; try (split; reflexivity).
    apply update_user_keys; reflexivity.
  - left. unfold verify_email in H.
    destruct (verify_email_token _ _ _);
      [| inversion H; subst; split; reflexivity].
    destruct (String.eqb _ ""); [inversion H; subst; split; reflexivity |].
    destruct (first _ (users db0)) as [u |];
      [| inversion H; subst; split; reflexivity].
    destruct (User.is_verified u); inversion H; subst;
      [split; reflexivity | apply update_user_keys; reflexivity].
  - left. unfold reset_password in H.
    destruct (verify_password_reset_token _ _ _);
      [| inversion H; subst; split; reflexivity].
    destruct (String.eqb _ ""); [inversion H; subst; split; reflexivity |].
    destruct (first _ (users db0)) as [u |];
      [| inversion H; subst; split; reflexivity].
    destruct (negb _); [inversion H; subst; split; reflexivity |].
    destruct (validate_password_strength _) as [is_valid message].
    destruct (negb _); inversion H; subst;
      [split; reflexivity | apply update_user_keys; reflexivity].
  - left. unfold change_password in H.
    destruct (negb _); [inversion H; subst; split; reflexivity |].
    destruct (verify_password new_password _);
      [inversion H; subst; split; reflexivity |].
    destruct (validate_password_strength _) as [is_valid message].
    destruct (negb _); inversion H; subst;
      [split; reflexivity | apply update_user_keys; reflexivity].
Qed.

(** X17: Whatever sequence of calls the account manager serves, the [users]
    table keeps its constraints: ids stay unique, addresses stay unique,
    and every stored address is in lower case. *)
Theorem users_consistent_preserved (db db' : Db) :
  users_consistent db ->
  clos_refl_trans Db (account_step settings verify_password hash_password)
                  db db' ->
  users_consistent db'.
Proof.
  intros Hok Hsteps. induction Hsteps as [db db' Hstep | db | db db1 db2 _ IH1 _ IH2];
    [| exact Hok | auto].
  destruct Hok as (Hid & Hmail & Hlow). unfold users_consistent.
  destruct (account_step_keys _ _ Hstep)
    as [[-> ->] | (new_id & email & -> & -> & Hfresh_id & Hfresh_mail)];
    [auto |].
  repeat split.
  - apply fresh_key_appended; assumption.
  - apply fresh_key_appended; assumption.
  - apply Forall_app. split; [exact Hlow |].
    constructor; [apply lower_idempotent | constructor].
Qed.

(** X18: No call of the account manager removes an account or changes the id or
    the address of one: over any sequence of calls the id column and the
    address column of [users] only grow at the end. *)
Theorem accounts_only_grow (db db' : Db) :
  clos_refl_trans Db (account_step settings verify_password hash_password)
                  db db' ->
  exists new_ids new_emails,
    map User.id (users db') = map User.id (users db) ++ new_ids
    /\ map User.email (users db') = map User.email (users db) ++ new_emails
    /\ List.length new_ids = List.length new_emails.
Proof.
  intros Hsteps.
  induction Hsteps as [db db' Hstep | db | db db1 db2 _ IH1 _ IH2].
  - destruct (account_step_keys _ _ Hstep)
      as [[-> ->] | (new_id & email & -> & -> & _)].
    + exists [], []. now rewrite !app_nil_r.
    + exists [new_id], [lower email]. auto.
  - exists [], []. now rewrite !app_nil_r.
  - destruct IH1 as (i1 & m1 & Hi1 & Hm1 & Hl1).
    destruct IH2 as (i2 & m2 & Hi2 & Hm2 & Hl2).
    exists (i1 ++ i2), (m1 ++ m2).
    rewrite Hi2, Hm2, Hi1, Hm1, !app_assoc, !length_app. auto.
Qed.

End AccountInvariant.

(** ** The account flows on the sample store *)

Section AccountFlowsOnTheSampleStore.

Import Auth Recovery Accounts Samples.

Lemma sample_verify_hash (password : string) :
  sample_verify password (sample_hash password) = true.
Proof. unfold sample_verify. apply String.eqb_refl. Qed.

Lemma register_verify_login_witness :
  exists r db1,
    register default_settings sample_hash
      (mkUserCreate "Dave@Example.com" "Dave" "Lee" "F0urthPassw0rd"
                    "F0urthPassw0rd")
      "u4" 1700000000 sample_db = (Ok r, db1)
    /\ exists mail db2 db3 session,
         reg_tasks r = [mail]
         /\ mail_to mail = "dave@example.com"
         /\ login default_settings sample_verify
                  (mkUserLogin "DAVE@example.com" "F0urthPassw0rd")
                  1700000000 db1
            = (Raise EmailNotVerified, db1)
         /\ verify_email default_settings (mail_token mail) 1700003600 db1
            = (Ok "Email address verified successfully! You can now log in.",
               db2)
         /\ login default_settings sample_verify
                  (mkUserLogin "DAVE@example.com" "F0urthPassw0rd")
                  1700007200 db2
            = (Ok session, db3)
         /\ User.id (user session) = "u4"
         /\ User.email (user session) = "dave@example.com"
         /\ option_map sub
              (verify_token default_settings (access_token session)
                            1700007200)
            = Some (Some "dave@example.com").
Proof.
  eexists. eexists. split; [reflexivity |].
  apply (register_verify_login default_settings sample_verify sample_hash
           sample_verify_hash
           (mkUserCreate "Dave@Example.com" "Dave" "Lee" "F0urthPassw0rd"
              "F0urthPassw0rd")
           "u4" "DAVE@example.com" 1700000000
           1700003600 1700007200 sample_db _ _ eq_refl).
  - discriminate.
  - reflexivity.
  - vm_compute. discriminate.
  - vm_compute. discriminate.
Defined.

Lemma forgot_reset_login_witness :
  exists mail db1 db2 session,
    forgot_password default_settings "Alice@Example.com" 1700000000 sample_db
    = Ok (mkAck reset_ack [send_password_reset_email mail])
    /\ mail_to mail = "alice@example.com"
    /\ reset_password default_settings sample_hash (mail_token mail)
                      "N3wPassw0rd" 1700003600 sample_db
       = (Ok "Password reset successfully! You can now log in with your new password.",
          db1)
    /\ login default_settings sample_verify
             (mkUserLogin "Alice@Example.com" "N3wPassw0rd") 1700007200 db1
       = (Ok session, db2)
    /\ User.id (user session) = "u1"
    /\ User.hashed_password (user session) = sample_hash "N3wPassw0rd".
Proof.
  apply (forgot_reset_login default_settings sample_verify sample_hash
           sample_verify_hash "Alice@Example.com" "N3wPassw0rd" 1700000000
           1700003600 1700007200 sample_db alice eq_refl eq_refl eq_refl).
  - discriminate.
  - reflexivity.
  - vm_compute. discriminate.
Defined.

Lemma reset_token_not_consumed_witness :
  exists e u db1 db2,
    reset_password default_settings sample_hash
      (create_password_reset_token default_settings "alice@example.com"
                                   1700000000)
      "N3wPassw0rd" 1700003600 sample_db
    = (Ok "Password reset successfully! You can now log in with your new password.",
       db1)
    /\ reset_password default_settings sample_hash
         (create_password_reset_token default_settings "alice@example.com"
                                      1700000000)
         "An0therN3wOne" 1700007200 db1
       = (Ok "Password reset successfully! You can now log in with your new password.",
          db2)
    /\ verify_password_reset_token default_settings
         (create_password_reset_token default_settings "alice@example.com"
                                      1700000000)
         1700007200 = Some e
    /\ first (by_email e) (users db2) = Some u
    /\ User.hashed_password u = sample_hash "An0therN3wOne".
Proof.
  destruct (reset_token_not_consumed default_settings sample_hash
              (create_password_reset_token default_settings
                 "alice@example.com" 1700000000)
              "N3wPassw0rd" "An0therN3wOne" _ 1700003600 1700007200
              sample_db _ eq_refl eq_refl eq_refl)
    as (e & u & db2 & H2 & He & Hu & Hp).
  exists e, u. eexists. exists db2.
  split; [reflexivity |]. split; [exact H2 |].
  split; [exact He |]. split; [exact Hu | exact Hp].
Defined.

Lemma change_password_then_login_witness :
  exists db1 session db2,
    change_password sample_verify sample_hash "Str0ngPassw0rd" "N3wPassw0rd"
                    alice sample_db
    = (Ok (true, "Password changed successfully!"), db1)
    /\ login default_settings sample_verify
             (mkUserLogin "alice@example.com" "N3wPassw0rd") 1700007200 db1
       = (Ok session, db2)
    /\ User.id (user session) = "u1"
    /\ User.hashed_password (user session) = sample_hash "N3wPassw0rd".
Proof.
  eexists.
  destruct (change_password_then_login default_settings sample_verify
              sample_hash sample_verify_hash "Str0ngPassw0rd" "N3wPassw0rd"
              "alice@example.com" alice 1700007200 sample_db _ _
              eq_refl eq_refl eq_refl eq_refl)
    as (_ & _ & _ & _ & session & db2 & Hlogin & Hid & Hp).
  exists session, db2.
  split; [reflexivity |]. split; [exact Hlogin |].
  split; [exact Hid | exact Hp].
Defined.

Lemma mailed_tokens_not_interchangeable_witness :
  reset_password default_settings sample_hash sample_verification_token
                 "N3wPassw0rd" 1700000060 sample_db
  = (Raise InvalidResetToken, sample_db)
  /\ reset_password default_settings sample_hash
       (create_access_token default_settings
          (mkclaims (Some "alice@example.com") None None) (Some 900)
          1700000000)
       "N3wPassw0rd" 1700000060 sample_db
     = (Raise InvalidResetToken, sample_db)
  /\ verify_email default_settings
       (create_password_reset_token default_settings "alice@example.com"
                                    1700000000)
       1700000060 sample_db
     = (Raise InvalidToken, sample_db)
  /\ verify_email default_settings
       (create_access_token default_settings
          (mkclaims (Some "alice@example.com") None None) (Some 900)
          1700000000)
       1700000060 sample_db
     = (Raise InvalidToken, sample_db).
Proof.
  exact (mailed_tokens_not_interchangeable default_settings sample_hash
           "alice@example.com" "N3wPassw0rd"
           (mkclaims (Some "alice@example.com") None None) (Some 900)
           1700000000 1700000060 sample_db eq_refl).
Defined.

Lemma resend_verification_then_verify_witness :
  exists m mail db1 u1,
    resend_verification default_settings "Bob@Example.com" 1700000000
                        sample_db
    = Ok (mkAck m [send_verification_email mail])
    /\ mail_to mail = "bob@example.com"
    /\ mail_first_name mail = User.first_name bob
    /\ verify_email default_settings (mail_token mail) 1700003600 sample_db
       = (Ok "Email address verified successfully! You can now log in.", db1)
    /\ first (by_email "bob@example.com") (users db1) = Some u1
    /\ User.is_verified u1 = true
    /\ User.id u1 = User.id bob
    /\ User.hashed_password u1 = User.hashed_password bob.
Proof.
  assert (Hne : "Bob@Example.com" <> "") by discriminate.
  assert (Hle : 1700003600
                <= 1700000000
                   + timedelta_hours (EMAIL_TOKEN_EXPIRE_HOURS default_settings))
    by (vm_compute; discriminate).
  exact (resend_verification_then_verify default_settings "Bob@Example.com"
           1700000000 1700003600 sample_db Hne Hle).
Defined.

Lemma sample_users_consistent : users_consistent sample_db.
Proof.
  unfold users_consistent. simpl.
  repeat split; repeat constructor; simpl; intuition discriminate.
Qed.

Lemma users_consistent_preserved_witness :
  users_consistent
    (snd (login default_settings sample_verify
            (mkUserLogin "alice@example.com" "Str0ngPassw0rd") 1700007200
            (snd (register default_settings sample_hash
                    (mkUserCreate "Dave@Example.com" "Dave" "Lee"
                                  "F0urthPassw0rd" "F0urthPassw0rd")
                    "u4" 1700000000 sample_db)))).
Proof.
  apply (users_consistent_preserved default_settings sample_verify
           sample_hash sample_db _ sample_users_consistent).
  eapply rt_trans; apply rt_step.
  - eapply (register_step _ _ _
              (mkUserCreate "Dave@Example.com" "Dave" "Lee" "F0urthPassw0rd"
              "F0urthPassw0rd")
              "u4" 1700000000 sample_db).
    apply surjective_pairing.
  - eapply (login_step _ _ _
              (mkUserLogin "alice@example.com" "Str0ngPassw0rd") 1700007200).
    apply surjective_pairing.
Defined.

Lemma accounts_only_grow_witness :
  exists new_ids new_emails,
    map User.id
        (users (snd (register default_settings sample_hash
                       (mkUserCreate "Dave@Example.com" "Dave" "Lee"
                                     "F0urthPassw0rd" "F0urthPassw0rd")
                       "u4" 1700000000 sample_db)))
    = map User.id (users sample_db) ++ new_ids
    /\ map User.email
           (users (snd (register default_settings sample_hash
                          (mkUserCreate "Dave@Example.com" "Dave" "Lee"
                                        "F0urthPassw0rd" "F0urthPassw0rd")
                          "u4" 1700000000 sample_db)))
       = map User.email (users sample_db) ++ new_emails
    /\ List.length new_ids = List.length new_emails.
Proof.
  apply (accounts_only_grow default_settings sample_verify sample_hash
           sample_db).
  apply rt_step.
  eapply (register_step _ _ _
              (mkUserCreate "Dave@Example.com" "Dave" "Lee" "F0urthPassw0rd"
              "F0urthPassw0rd")
              "u4" 1700000000 sample_db).
  apply surjective_pairing.
Defined.

End AccountFlowsOnTheSampleStore.

(** ** Report aggregator: spending trends *)

Section SpendingTrends.

Import Budget Trends.

(** A month of a year, as the loop resolves it: from its first day to its
    last. *)
Lemma month_bounds (y m : Z) :
  MINYEAR <= y <= MAXYEAR -> 1 <= m <= 12 -> m < 12 \/ y < MAXYEAR ->
  new_date y m 1 = Ok (mkdate y m 1)
  /\ (if m =? 12 then day_before (new_date (y + 1) 1 1)
      else day_before (new_date y (m + 1) 1))
     = Ok (mkdate y m (days_in_month y m)).
Proof.
  intros Hy Hm Hlast. unfold MINYEAR, MAXYEAR in *.
  pose proof (days_in_month_range y m Hm) as Hd.
  assert (Hfirst : valid (mkdate y m 1))
    by (unfold valid, MINYEAR, MAXYEAR; cbn [year month day]; lia).
  assert (Hend : valid (mkdate y m (days_in_month y m)))
    by (unfold valid, MINYEAR, MAXYEAR; cbn [year month day]; lia).
  split; [apply new_date_valid; exact Hfirst |].
  destruct (Z.eqb_spec m 12) as [E | N].
  - rewrite (new_date_valid (y + 1) 1 1)
      by (unfold valid, MINYEAR, MAXYEAR; cbn; lia).
    unfold day_before. cbn [bind]. subst m.
    apply sub_days_to; [exact Hend |].
    apply last_day_of_year_ordinal. lia.
  - rewrite (new_date_valid y (m + 1) 1)
      by (unfold valid, MINYEAR, MAXYEAR; cbn [year month day];
          pose proof (days_in_month_range y (m + 1)); lia).
    unfold day_before. cbn [bind].
    apply sub_days_to; [exact Hend |].
    apply last_day_of_month_ordinal. lia.
Qed.

Lemma range_In (n i : Z) : In i (range n) <-> 0 <= i < n.
Proof.
  unfold range. rewrite in_map_iff. split.
  - intros (k & <- & Hk). apply in_seq in Hk. lia.
  - intros Hi. exists (Z.to_nat i). split; [lia |]. apply in_seq. lia.
Qed.

Lemma range_split (k n : Z) :
  0 <= k < n -> exists rest, range n = range k ++ k :: rest.
Proof.
  intros Hk. unfold range.
  replace (Z.to_nat n) with (Z.to_nat k + S (Z.to_nat (n - k - 1)))%nat by lia.
  rewrite seq_app, map_app. simpl. rewrite Z2Nat.id by lia. eauto.
Qed.

(** A loop raises what its first failing iteration raises. *)
Lemma for_each_raises {A B : Type} (f : A -> outcome B) (g : A -> B)
    (done rest : list A) (x : A) (e : exn) :
  (forall y, In y done -> f y = Ok (g y)) -> f x = Raise e ->
  for_each f (done ++ x :: rest) = Raise e.
Proof.
  intros Hdone Hx. induction done as [| y done IH]; simpl.
  - rewrite Hx. reflexivity.
  - rewrite (Hdone y (or_introl eq_refl)), IH; [reflexivity |].
    intros z Hz. apply Hdone. now right.
Qed.

Variable current_user : User.t.
Variable db : Db.
Variable today : date.
Hypothesis today_valid : valid today.

Lemma iteration_ok (i : Z) :
  0 <= i < month today + 12 ->
  (month today <= i -> 2 <= year today) ->
  month today < 12 \/ year today < MAXYEAR ->
  trend_of_month (total_active_budget current_user db) current_user db today
                 i
  = Ok (month_entry current_user db today i).
Proof.
  intros Hi Hwrap Hlast. destruct today_valid as (Hy & Hm & _).
  unfold MINYEAR, MAXYEAR in *.
  unfold trend_of_month, month_entry, months_back.
  destruct (Z.leb_spec (month today - i) 0) as [Hle | Hgt].
  - destruct (month_bounds (year today - 1) (month today - i + 12))
      as [-> ->]; unfold MINYEAR, MAXYEAR; try lia.
    cbn [bind]. rewrite func_sum_or_zero, percent_of_total. reflexivity.
  - destruct (month_bounds (year today) (month today - i))
      as [-> ->]; unfold MINYEAR, MAXYEAR; try lia.
    cbn [bind]. rewrite func_sum_or_zero, percent_of_total. reflexivity.
Qed.


(** X20: Asked for more months than lie between today and the January of
    last year, [get_spending_trends] computes month number 0 and the
    constructor of the date raises: the request fails although the bound of
    24 months admits it. *)
Theorem spending_trends_raises_beyond_last_january (months : Z) :
  month today + 12 < months ->
  2 <= year today ->
  month today < 12 \/ year today < MAXYEAR ->
  get_spending_trends months current_user db today
  = Raise (ValueError "month must be in 1..12").
Proof.
  intros Hmonths Hyear Hlast. destruct today_valid as (Hy & Hm & _).
  unfold MINYEAR, MAXYEAR in *.
  unfold get_spending_trends.
  destruct (range_split (month today + 12) months) as [rest ->]; [lia |].
  rewrite (for_each_raises _ (month_entry current_user db today) _ _ _
             (ValueError "month must be in 1..12")); [reflexivity | |].
  - intros i Hi. apply range_In in Hi.
    apply iteration_ok; [lia | intros; lia | exact Hlast].
  - unfold trend_of_month, months_back.
    destruct (Z.leb_spec (month today - (month today + 12)) 0); [| lia].
    replace (month today - (month today + 12) + 12) with 0 by lia.
    unfold new_date, MINYEAR, MAXYEAR.
    destruct (Z.leb_spec 1 (year today - 1)); [| lia].
    destruct (Z.leb_spec (year today - 1) 9999); [| lia].
    reflexivity.
Qed.

End SpendingTrends.

(** ** Report aggregator: breakdown against summary, insights *)

Section ReportRules.

Import Budget.





End ReportRules.

(** ** The reports on the sample store *)

Section ReportsOnTheSampleStore.

Import Budget Trends Samples.

Lemma today_valid : valid today.
Proof. unfold valid, MINYEAR, MAXYEAR. cbn. lia. Qed.

Lemma december_20_valid : valid (mkdate 2024 12 20).
Proof. unfold valid, MINYEAR, MAXYEAR. cbn. lia. Qed.

Lemma week_period_witness :
  exists monday sunday,
    get_period_dates WEEK None None (mkdate 2024 12 20) = Ok (monday, sunday)
    /\ weekday monday = 0 /\ weekday sunday = 6
    /\ monday = mkdate 2024 12 16 /\ sunday = mkdate 2024 12 22.
Proof.
  assert (Hroom : toordinal (mkdate 2024 12 20) - weekday (mkdate 2024 12 20)
                  + 6 <= MAXORDINAL) by (vm_compute; discriminate).
  destruct (week_period (mkdate 2024 12 20) december_20_valid None None Hroom)
    as (monday & sunday & Hrun & _ & _ & Hmon & Hsun & _).
  exists monday, sunday. split; [exact Hrun |].
  split; [exact Hmon |]. split; [exact Hsun |].
  assert (Hcalc : get_period_dates WEEK None None (mkdate 2024 12 20)
                  = Ok (mkdate 2024 12 16, mkdate 2024 12 22))
    by reflexivity.
  rewrite Hcalc in Hrun. inversion Hrun. split; reflexivity.
Defined.

Lemma month_period_witness :
  get_period_dates MONTH None None (mkdate 2024 2 10)
  = Ok (mkdate 2024 2 1, mkdate 2024 2 29).
Proof.
  assert (Hv : valid (mkdate 2024 2 10))
    by (unfold valid, MINYEAR, MAXYEAR; cbn; lia).
  assert (Hlast : month (mkdate 2024 2 10) < 12
                  \/ year (mkdate 2024 2 10) < MAXYEAR)
    by (left; reflexivity).
  exact (month_period (mkdate 2024 2 10) Hv None None Hlast).
Defined.

Lemma quarter_period_witness :
  get_period_dates QUARTER None None today
  = Ok (mkdate 2024 1 1, mkdate 2024 3 31).
Proof.
  assert (Hm : month today <= 9) by (vm_compute; discriminate).
  exact (quarter_period today today_valid None None Hm).
Defined.

Lemma year_period_witness :
  get_period_dates YEAR None None today
  = Ok (mkdate 2024 1 1, mkdate 2024 12 31).
Proof. exact (year_period today today_valid None None). Defined.

Lemma default_period_witness :
  get_period_dates CUSTOM (Some (mkdate 2024 1 1)) None today
  = Ok (mkdate 2024 3 1, mkdate 2024 3 15).
Proof.
  exact (default_period today today_valid (Some (mkdate 2024 1 1)) None
           (or_intror eq_refl)).
Defined.






Lemma spending_trends_raises_beyond_last_january_witness :
  get_spending_trends 16 alice sample_db today
  = Raise (ValueError "month must be in 1..12").
Proof.
  assert (H1 : month today + 12 < 16) by reflexivity.
  assert (H2 : 2 <= year today) by (vm_compute; discriminate).
  assert (H3 : month today < 12 \/ year today < MAXYEAR)
    by (left; reflexivity).
  exact (spending_trends_raises_beyond_last_january alice sample_db today
           today_valid 16 H1 H2 H3).
Defined.

End ReportsOnTheSampleStore.

(** ** Budget ledger: expenses and the creation of a category *)

Section LedgerCalls.

Import Budget Ledger.

Lemma first_none_iff {A : Type} (p : A -> bool) (rows : list A) :
  first p rows = None <-> forall r, In r rows -> p r = false.
Proof.
  unfold first. induction rows as [| v rows IH]; simpl.
  - split; [intros _ r [] | reflexivity].
  - destruct (p v) eqn:Hv.
    + split; [discriminate |]. intros H.
      rewrite (H v (or_introl eq_refl)) in Hv. discriminate.
    + rewrite IH. split.
      * intros H r [<- | Hr]; auto.
      * intros H r Hr. apply H. now right.
Qed.

Lemma owned_category_true (category_id : string) (current_user : User.t)
    (c : BudgetCategory.t) :
  owned_category category_id current_user c = true
  <-> BudgetCategory.id c = category_id
      /\ BudgetCategory.user_id c = User.id current_user.
Proof.
  unfold owned_category. rewrite Bool.andb_true_iff, !String.eqb_eq. tauto.
Qed.

Lemma owned_expense_true (expense_id : string) (current_user : User.t)
    (e : Expense.t) :
  owned_expense expense_id current_user e = true
  <-> Expense.id e = expense_id /\ Expense.user_id e = User.id current_user.
Proof.
  unfold owned_expense. rewrite Bool.andb_true_iff, !String.eqb_eq. tauto.
Qed.

Lemma expense_of_true (category_id : string) (current_user : User.t)
    (e : Expense.t) :
  expense_of category_id current_user e = true
  <-> Expense.category_id e = category_id
      /\ Expense.user_id e = User.id current_user.
Proof.
  unfold expense_of. rewrite Bool.andb_true_iff, !String.eqb_eq. tauto.
Qed.

Example strip_description :
  strip "  Flat white " = "Flat white" /\ strip "   " = ""
  /\ strip "a b" = "a b".
Proof. repeat split. Qed.

(** X23: No call of [create_budget_category] creates a category: a name the
    caller already uses for an active category is refused, and otherwise
    the handler reads [category_data.description], which the request model
    does not declare, before anything is stored. *)
Theorem create_budget_category_never_creates
    (category_data : BudgetCategoryCreate) (current_user : User.t)
    (new_id : string) (db_now : Z) (db : Db) :
  create_budget_category category_data current_user new_id db_now db
  = (if existsb (fun c =>
                   String.eqb (BudgetCategory.user_id c) (User.id current_user)
                   && String.eqb (BudgetCategory.name c)
                                 (bc_name category_data)
                   && BudgetCategory.is_active c)
                (budget_categories db)
     then Raise (HTTPException 400
                   ("Budget category '" ++ bc_name category_data
                    ++ "' already exists")%string)
     else Raise (AttributeError "BudgetCategoryCreate" "description"),
     db).
Proof.
  unfold create_budget_category.
  destruct (first _ (budget_categories db)) as [c |] eqn:Hc.
  - apply first_some in Hc as [Hin Hp].
    assert (H : existsb (fun c0 =>
                   String.eqb (BudgetCategory.user_id c0) (User.id current_user)
                   && String.eqb (BudgetCategory.name c0)
                                 (bc_name category_data)
                   && BudgetCategory.is_active c0)
                (budget_categories db) = true).
    { apply existsb_exists. exists c. split; [exact Hin |].
      unfold active_category_named in Hp.
      destruct (BudgetCategory.is_active c); [| rewrite Bool.andb_false_r in Hp;
                                                 discriminate].
      rewrite Bool.andb_true_r in *. exact Hp. }
    rewrite H. reflexivity.
  - assert (H : existsb (fun c0 =>
                   String.eqb (BudgetCategory.user_id c0) (User.id current_user)
                   && String.eqb (BudgetCategory.name c0)
                                 (bc_name category_data)
                   && BudgetCategory.is_active c0)
                (budget_categories db) = false).
    { apply Bool.not_true_is_false. intros H.
      apply existsb_exists in H as (c & Hin & Hp).
      pose proof (proj1 (first_none_iff _ _) Hc c Hin) as Hn.
      unfold active_category_named in Hn.
      destruct (BudgetCategory.is_active c);
        [| rewrite Bool.andb_false_r in Hp; discriminate].
      rewrite Bool.andb_true_r in *. congruence. }
    rewrite H. reflexivity.
Qed.

Lemma insert_recent_length (r : Expense.t * string)
    (l : list (Expense.t * string)) :
  List.length (insert_recent r l) = S (List.length l).
Proof.
  induction l as [| r' l IH]; simpl; [reflexivity |].
  destruct (more_recent (fst r) (fst r')); simpl; [| rewrite IH]; reflexivity.
Qed.

Lemma order_by_recent_length (l : list (Expense.t * string)) :
  List.length (order_by_recent l) = List.length l.
Proof.
  induction l as [| r l IH]; simpl; [reflexivity |].
  rewrite insert_recent_length, IH. reflexivity.
Qed.

(** X24: [get_recent_expenses] answers only a caller who has nothing to show:
    with no expense of the caller joined to a category the list is empty,
    and with one or more the first turn of the loop subtracts the
    date-time of the expense from today's date and raises [TypeError]. *)
Theorem get_recent_expenses_raises (limit : Z) (current_user : User.t)
    (db : Db) (today : date) :
  1 <= limit ->
  ((forall e c, In e (expenses db) -> In c (budget_categories db) ->
      Expense.user_id e = User.id current_user ->
      BudgetCategory.id c <> Expense.category_id e) ->
   get_recent_expenses limit current_user db today = Ok [])
  /\ (forall e c, In e (expenses db) -> In c (budget_categories db) ->
        Expense.user_id e = User.id current_user ->
        BudgetCategory.id c = Expense.category_id e ->
        get_recent_expenses limit current_user db today
        = Raise (TypeError
                   "unsupported operand type(s) for -: 'datetime.date' and 'datetime.datetime'")).
Proof.
  intros Hlimit. unfold get_recent_expenses.
  set (joined := join_category_name (budget_categories db)
                   (filter (fun e => String.eqb (Expense.user_id e)
                                                (User.id current_user))
                           (expenses db))).
  split.
  - intros Hnone.
    assert (Hj : joined = []).
    { destruct joined as [| [e n] rest] eqn:Hj; [reflexivity |]. exfalso.
      assert (Hin : In (e, n) joined) by (rewrite Hj; now left).
      apply join_category_name_In in Hin as (He & c & Hc & Hk & _).
      apply filter_In in He as [He Hu]. apply String.eqb_eq in Hu.
      exact (Hnone e c He Hc Hu Hk). }
    rewrite Hj. simpl. destruct (Z.to_nat limit); reflexivity.
  - intros e c He Hc Hu Hk.
    assert (Hin : In (e, BudgetCategory.name c) joined).
    { apply join_category_name_In. split.
      - apply filter_In. split; [exact He |]. now apply String.eqb_eq.
      - exists c. auto. }
    pose proof (order_by_recent_length joined) as Hlen.
    destruct (order_by_recent joined) as [| [e0 n0] rest].
    + destruct joined; [contradiction | discriminate].
    + destruct (Z.to_nat limit) eqn:Hn; [lia |]. reflexivity.
Qed.

(** What the store looks like after [create_expense]: as before, or with
    the new expense at the end. *)
Lemma create_expense_inv (expense_data : ExpenseCreate)
    (current_user : User.t) (new_id : string) (db_now : Z) (db db' : Db)
    (r : outcome ExpenseResponse) :
  create_expense expense_data current_user new_id db_now db = (r, db') ->
  (db' = db
   /\ (r = Raise NotFound \/ r = Raise (IntegrityError "expenses.id")))
  \/ exists category,
       let new_expense :=
         Expense.mk new_id (User.id current_user)
                    (ec_category_id expense_data)
                    (ec_description expense_data) (ec_amount expense_data)
                    (ec_expense_date expense_data) None db_now in
       first (owned_category (ec_category_id expense_data) current_user)
             (budget_categories db) = Some category
       /\ (forall e, In e (expenses db) -> Expense.id e <> new_id)
       /\ db' = mkDb (users db) (budget_categories db)
                     (expenses db ++ [new_expense])
       /\ r = ExpenseResponse_of new_expense (BudgetCategory.name category)
                (remaining_budget_of (BudgetCategory.budget_amount category)
                   (BudgetCategory.id category) current_user db').
Proof.
  unfold create_expense.
  destruct (first _ (budget_categories db)) as [category |] eqn:Hc.
  - unfold add_expense. simpl.
    destruct (existsb _ (expenses db)) eqn:Hfresh.
    + intros H; inversion H; subst. left. auto.
    + intros H; inversion H; subst. right. exists category.
      repeat split.
      intros e He E.
      assert (existsb (fun v => String.eqb (Expense.id v) new_id)
                      (expenses db) = true)
        by (apply existsb_exists; exists e; split;
            [exact He | now apply String.eqb_eq]).
      congruence.
  - intros H; inversion H; subst. left. auto.
Qed.

Lemma delete_expense_inv (expense_id : string) (current_user : User.t)
    (db db' : Db) (r : outcome string) :
  delete_expense expense_id current_user db = (r, db') ->
  (db' = db /\ r = Raise ExpenseNotFound)
  \/ exists expense,
       In expense (expenses db)
       /\ Expense.id expense = expense_id
       /\ Expense.user_id expense = User.id current_user
       /\ db' = delete_expenses
                  (fun e => String.eqb (Expense.id e) expense_id) db
       /\ r = Ok "Expense deleted successfully".
Proof.
  unfold delete_expense.
  destruct (first _ (expenses db)) as [expense |] eqn:He.
  - apply first_some in He as [Hin Ho].
    apply owned_expense_true in Ho as [Hid Hu].
    intros H; inversion H; subst. right. exists expense. auto.
  - intros H; inversion H; subst. left. auto.
Qed.

Lemma delete_budget_category_inv (category_id : string)
    (current_user : User.t) (force : bool) (db_now : Z) (db db' : Db)
    (r : outcome string) :
  delete_budget_category category_id current_user force db_now db = (r, db') ->
  (db' = db /\ exists e, r = Raise e)
  \/ exists category,
       In category (budget_categories db)
       /\ BudgetCategory.id category = category_id
       /\ BudgetCategory.user_id category = User.id current_user
       /\ ((force = false
            /\ db' = flush_category category_id
                       (BudgetCategory.with_is_active false) db_now db)
           \/ (force = true
               /\ db' = delete_category category_id
                          (delete_expenses
                             (expense_of category_id current_user) db))).
Proof.
  unfold delete_budget_category.
  destruct (first _ (budget_categories db)) as [category |] eqn:Hc;
    [| intros H; inversion H; subst; left; eauto].
  pose proof (first_some _ _ _ Hc) as [Hin Ho].
  apply owned_category_true in Ho as [Hid Hu]. rewrite Hid.
  destruct force; simpl.
  - rewrite Bool.andb_false_r. intros H; inversion H; subst.
    right. exists category. auto 10.
  - rewrite Bool.andb_true_r.
    destruct (0 <? count_of _).
    + intros H; inversion H; subst. left. eauto.
    + intros H; inversion H; subst. right. exists category. auto 10.
Qed.

(** The one row with a primary key is the row a lookup by that key
    finds. *)
Lemma first_by_key {A : Type} (pk : A -> string) (rows : list A) (r : A) :
  NoDup (map pk rows) -> In r rows ->
  first (fun v => String.eqb (pk v) (pk r)) rows = Some r.
Proof.
  intros Hnd Hin.
  destruct (first (fun v => String.eqb (pk v) (pk r)) rows) as [v |] eqn:Hv.
  - apply first_some in Hv as [Hv E]. apply String.eqb_eq in E.
    f_equal. apply (key_determines_row pk rows); assumption.
  - pose proof (proj1 (first_none_iff _ _) Hv r Hin) as E.
    simpl in E. rewrite String.eqb_refl in E. discriminate.
Qed.

(** A row with a fresh key at the end of a table is the one row removed
    by a [DELETE] of that key. *)
Lemma delete_appended {A : Type} (pk : A -> string) (rows : list A) (r : A) :
  (forall v, In v rows -> pk v <> pk r) ->
  filter (fun v => negb (String.eqb (pk v) (pk r))) (rows ++ [r]) = rows.
Proof.
  intros Hfresh. rewrite filter_app. simpl. rewrite String.eqb_refl. simpl.
  rewrite app_nil_r.
  induction rows as [| v rows IH]; simpl; [reflexivity |].
  destruct (String.eqb_spec (pk v) (pk r)) as [E | _].
  - exfalso. exact (Hfresh v (or_introl eq_refl) E).
  - simpl. f_equal. apply IH. intros w Hw. apply Hfresh. now right.
Qed.

Lemma first_app_fresh {A : Type} (p : A -> bool) (rows : list A) (r : A) :
  (forall v, In v rows -> p v = false) -> p r = true ->
  first p (rows ++ [r]) = Some r.
Proof.
  intros Hrows Hr. rewrite first_app_none by (apply first_none_iff; exact Hrows).
  unfold first. simpl. rewrite Hr. reflexivity.
Qed.

(** X25: An expense that was created can be read back: after a successful
    [create_expense], [get_expense] with the new id gives the caller the
    same answer, which holds the request's values, the name of the category
    and what is left of its budget after the new expense. *)
Theorem create_then_get_expense (expense_data : ExpenseCreate)
    (current_user : User.t) (new_id : string) (db_now : Z) (db db' : Db)
    (r : ExpenseResponse) :
  category_keys_unique db ->
  create_expense expense_data current_user new_id db_now db = (Ok r, db') ->
  get_expense new_id current_user db' = Ok r
  /\ expenses db'
     = expenses db
       ++ [Expense.mk new_id (User.id current_user)
                      (ec_category_id expense_data)
                      (ec_description expense_data) (ec_amount expense_data)
                      (ec_expense_date expense_data) None db_now]
  /\ er_id r = new_id
  /\ er_user_id r = User.id current_user
  /\ er_category_id r = ec_category_id expense_data
  /\ er_amount r = ec_amount expense_data
  /\ er_description r = strip (ec_description expense_data)
  /\ er_expense_date r = ec_expense_date expense_data
  /\ exists category,
       In category (budget_categories db)
       /\ BudgetCategory.id category = ec_category_id expense_data
       /\ BudgetCategory.user_id category = User.id current_user
       /\ er_category_name r = Some (BudgetCategory.name category)
       /\ er_remaining_budget r
          = Some (BudgetCategory.budget_amount category
                  - (sum_of Expense.amount
                       (filter (fun e =>
                                  String.eqb (Expense.category_id e)
                                             (ec_category_id expense_data)
                                  && String.eqb (Expense.user_id e)
                                                (User.id current_user))
                               (expenses db))
                     + ec_amount expense_data)).
Proof.
  intros Hck Hrun.
  apply create_expense_inv in Hrun
    as [[_ [H | H]] | (category & Hc & Hfresh & -> & Hr)];
    try discriminate.
  cbv zeta in Hr.
  apply first_some in Hc as [Hc Ho].
  apply owned_category_true in Ho as [Hcid Hcu].
  set (new_expense :=
         Expense.mk new_id (User.id current_user)
                    (ec_category_id expense_data)
                    (ec_description expense_data) (ec_amount expense_data)
                    (ec_expense_date expense_data) None db_now) in *.
  set (db' := mkDb (users db) (budget_categories db)
                   (expenses db ++ [new_expense])) in *.
  assert (Hcat : category_of new_expense db' = Some category).
  { unfold category_of. simpl. rewrite <- Hcid.
    apply (first_by_key BudgetCategory.id); assumption. }
  split.
  { unfold get_expense.
    replace (expenses db') with (expenses db ++ [new_expense]) by reflexivity.
    rewrite (first_app_fresh _ _ new_expense).
    - rewrite Hcat, Hr, Hcid. reflexivity.
    - intros e He. apply Bool.andb_false_intro1.
      unfold owned_expense.
      destruct (String.eqb_spec (Expense.id e) new_id) as [E | _];
        [now apply Hfresh in E | reflexivity].
    - rewrite Hcat. unfold owned_expense. simpl.
      rewrite !String.eqb_refl. reflexivity. }
  split; [reflexivity |].
  unfold ExpenseResponse_of, construct in Hr.
  destruct (_ && _ && _) in Hr; [| discriminate].
  simpl in Hr. inversion Hr; subst r; clear Hr. simpl.
  repeat split.
  exists category. repeat split; try assumption.
  unfold remaining_budget_of. rewrite func_sum_or_zero.
  replace (expenses db') with (expenses db ++ [new_expense]) by reflexivity.
  rewrite filter_app, sum_of_app. simpl.
  unfold expense_of at 2. simpl. rewrite Hcid, !String.eqb_refl. simpl.
  unfold expense_of. f_equal. lia.
Qed.

(** X26: An expense that was stored can be taken back: whenever
    [create_expense] has changed the store, whether it then answered or
    failed on its response, [delete_expense] with the new id restores the
    store the creation started from. *)
Theorem create_then_delete_expense (expense_data : ExpenseCreate)
    (current_user : User.t) (new_id : string) (db_now : Z) (db db' : Db)
    (r : outcome ExpenseResponse) :
  create_expense expense_data current_user new_id db_now db = (r, db') ->
  (db' = db
   /\ (r = Raise (HTTPException 404 "Budget category not found")
       \/ r = Raise (IntegrityError "expenses.id")))
  \/ (expenses db'
      = expenses db
        ++ [Expense.mk new_id (User.id current_user)
                       (ec_category_id expense_data)
                       (ec_description expense_data) (ec_amount expense_data)
                       (ec_expense_date expense_data) None db_now]
      /\ (r = Raise (ValidationError "ExpenseResponse")
          \/ exists response, r = Ok response)
      /\ delete_expense new_id current_user db'
         = (Ok "Expense deleted successfully", db)).
Proof.
  intros Hrun.
  apply create_expense_inv in Hrun
    as [[-> H] | (category & Hc & Hfresh & -> & Hr)]; [left; auto |].
  right. cbv zeta in Hr.
  set (new_expense :=
         Expense.mk new_id (User.id current_user)
                    (ec_category_id expense_data)
                    (ec_description expense_data) (ec_amount expense_data)
                    (ec_expense_date expense_data) None db_now) in *.
  split; [reflexivity |]. split.
  { rewrite Hr. unfold ExpenseResponse_of, construct.
    destruct (_ && _ && _); [right; simpl; eauto | now left]. }
  unfold delete_expense. simpl expenses.
  rewrite (first_app_fresh _ _ new_expense).
  - unfold delete_expenses. simpl.
    change (fun e : Expense.t => negb (String.eqb (Expense.id e) new_id))
      with (fun e : Expense.t =>
              negb (String.eqb (Expense.id e) (Expense.id new_expense))).
    rewrite (delete_appended Expense.id (expenses db) new_expense)
      by exact Hfresh.
    destruct db; reflexivity.
  - intros e He. unfold owned_expense.
    destruct (String.eqb_spec (Expense.id e) new_id) as [E | _];
      [now apply Hfresh in E | reflexivity].
  - unfold owned_expense. simpl. rewrite !String.eqb_refl. reflexivity.
Qed.

(** X27: The response is validated after the commit: a request whose
    description is empty (the request model strips a description after it
    has checked its length) is stored, yet the call raises
    [ValidationError]; from then on [get_expense] raises it for that
    expense too, while the expense counts in the spending of its
    category. *)
Theorem create_expense_commits_before_validation
    (expense_data : ExpenseCreate) (current_user : User.t) (new_id : string)
    (db_now : Z) (db : Db) (category : BudgetCategory.t) :
  first (owned_category (ec_category_id expense_data) current_user)
        (budget_categories db) = Some category ->
  (forall e, In e (expenses db) -> Expense.id e <> new_id) ->
  ec_description expense_data = "" ->
  exists db',
    create_expense expense_data current_user new_id db_now db
    = (Raise (ValidationError "ExpenseResponse"), db')
    /\ expenses db'
       = expenses db
         ++ [Expense.mk new_id (User.id current_user)
                        (ec_category_id expense_data) ""
                        (ec_amount expense_data)
                        (ec_expense_date expense_data) None db_now]
    /\ users db' = users db
    /\ budget_categories db' = budget_categories db
    /\ get_expense new_id current_user db'
       = Raise (ValidationError "ExpenseResponse")
    /\ sum_of Expense.amount
         (filter (fun e =>
                    String.eqb (Expense.category_id e)
                               (ec_category_id expense_data)
                    && String.eqb (Expense.user_id e) (User.id current_user))
                 (expenses db'))
       = sum_of Expense.amount
           (filter (fun e =>
                      String.eqb (Expense.category_id e)
                                 (ec_category_id expense_data)
                      && String.eqb (Expense.user_id e)
                                    (User.id current_user))
                   (expenses db))
         + ec_amount expense_data.
Proof.
  intros Hc Hfresh Hd.
  pose proof (first_some _ _ _ Hc) as [Hin Ho].
  apply owned_category_true in Ho as [Hcid Hcu].
  set (new_expense :=
         Expense.mk new_id (User.id current_user)
                    (ec_category_id expense_data) ""
                    (ec_amount expense_data)
                    (ec_expense_date expense_data) None db_now).
  exists (mkDb (users db) (budget_categories db)
               (expenses db ++ [new_expense])).
  assert (Hnew : existsb (fun v => String.eqb (Expense.id v) new_id)
                         (expenses db) = false).
  { apply Bool.not_true_is_false. intros H.
    apply existsb_exists in H as (e & He & E). apply String.eqb_eq in E.
    exact (Hfresh e He E). }
  split.
  { unfold create_expense. rewrite Hc. unfold add_expense. simpl.
    rewrite Hnew, Hd. reflexivity. }
  split; [reflexivity |]. split; [reflexivity |]. split; [reflexivity |].
  split.
  - unfold get_expense. simpl expenses.
    assert (Hcat : is_some (category_of new_expense
                              (mkDb (users db) (budget_categories db)
                                    (expenses db ++ [new_expense]))) = true).
    { unfold category_of. simpl.
      destruct (first (fun c => String.eqb (BudgetCategory.id c)
                                           (ec_category_id expense_data))
                      (budget_categories db)) as [c |] eqn:Hn;
        [reflexivity |].
      pose proof (proj1 (first_none_iff _ _) Hn category Hin) as E.
      simpl in E. rewrite Hcid, String.eqb_refl in E. discriminate. }
    rewrite (first_app_fresh _ _ new_expense).
    + destruct (category_of new_expense _); [reflexivity | discriminate].
    + intros e He. apply Bool.andb_false_intro1. unfold owned_expense.
      destruct (String.eqb_spec (Expense.id e) new_id) as [E | _];
        [now apply Hfresh in E | reflexivity].
    + rewrite Hcat. unfold owned_expense. simpl.
      rewrite !String.eqb_refl. reflexivity.
  - simpl expenses. rewrite filter_app, sum_of_app. simpl.
    rewrite !String.eqb_refl. simpl. lia.
Qed.

(** X28: The expense handlers do not reach the rows of another user: an
    expense of someone else is not found by [get_expense] and
    [delete_expense], which leaves the store as it was, and
    [create_expense] refuses a category of someone else and stores
    nothing. *)
Theorem expense_handlers_refuse_foreign_rows (current_user : User.t)
    (db : Db) :
  expense_keys_unique db ->
  category_keys_unique db ->
  (forall e, In e (expenses db) ->
     Expense.user_id e <> User.id current_user ->
     get_expense (Expense.id e) current_user db
     = Raise (HTTPException 404 "Expense not found")
     /\ delete_expense (Expense.id e) current_user db
        = (Raise (HTTPException 404 "Expense not found"), db))
  /\ (forall c expense_data new_id db_now,
        In c (budget_categories db) ->
        BudgetCategory.user_id c <> User.id current_user ->
        ec_category_id expense_data = BudgetCategory.id c ->
        create_expense expense_data current_user new_id db_now db
        = (Raise (HTTPException 404 "Budget category not found"), db)).
Proof.
  intros Hek Hck. split.
  - intros e He Hu.
    assert (Hnone : forall e', In e' (expenses db) ->
                      owned_expense (Expense.id e) current_user e' = false).
    { intros e' He'. apply Bool.not_true_is_false. intros Ho.
      apply owned_expense_true in Ho as [Hid Hu'].
      rewrite (key_determines_row Expense.id _ e' e Hek He' He Hid) in Hu'.
      contradiction. }
    split.
    + unfold get_expense.
      replace (first _ (expenses db)) with (@None Expense.t);
        [reflexivity |].
      symmetry. apply first_none_iff. intros e' He'.
      rewrite (Hnone e' He'). reflexivity.
    + unfold delete_expense.
      replace (first _ (expenses db)) with (@None Expense.t);
        [reflexivity |].
      symmetry. apply first_none_iff. exact Hnone.
  - intros c expense_data new_id db_now Hc Hu Hid.
    unfold create_expense.
    replace (first _ (budget_categories db)) with (@None BudgetCategory.t);
      [reflexivity |].
    symmetry. apply first_none_iff. intros c' Hc'.
    apply Bool.not_true_is_false. intros Ho.
    apply owned_category_true in Ho as [Hid' Hu'].
    rewrite (key_determines_row BudgetCategory.id _ c' c Hck Hc' Hc) in Hu'
      by congruence.
    contradiction.
Qed.

End LedgerCalls.

(** ** Budget ledger: the constraints of the tables, and whose rows a call
       touches *)

Section LedgerInvariant.

Import Budget Ledger.

(** A selection of rows keeps a primary key a key. *)
Lemma selected_rows_keys_unique {A : Type} (pk : A -> string)
    (keep : A -> bool) (rows : list A) :
  NoDup (map pk rows) -> NoDup (map pk (filter keep rows)).
Proof.
  induction rows as [| r rows IH]; simpl; intros Hnd; [constructor |].
  inversion Hnd as [| ? ? Hfresh Hrest]; subst.
  destruct (keep r); simpl; [| apply IH; exact Hrest].
  constructor; [| apply IH; exact Hrest].
  intros Hin. apply Hfresh. apply in_map_iff in Hin as (r' & Hr' & Hin).
  apply filter_In in Hin as [Hin _]. rewrite <- Hr'. apply in_map. exact Hin.
Qed.

(** Removing expenses breaks no constraint. *)
Lemma consistent_fewer_expenses (keep : Expense.t -> bool) (db : Db) :
  ledger_consistent db ->
  ledger_consistent
    (mkDb (users db) (budget_categories db) (filter keep (expenses db))).
Proof.
  intros (Hck & Hek & Hrc & Hoc & Hap).
  unfold ledger_consistent, category_keys_unique, expense_keys_unique,
    expenses_reference_categories, expenses_owned_by_category_owner,
    amounts_positive in *. simpl.
  repeat split.
  - exact Hck.
  - apply selected_rows_keys_unique. exact Hek.
  - intros e He. apply filter_In in He as [He _]. auto.
  - intros e c He Hc. apply filter_In in He as [He _]. auto.
  - intros e He. apply filter_In in He as [He _]. auto.
Qed.

(** An [UPDATE] of a category by primary key that keeps [id] and [user_id]
    breaks no constraint. *)
Lemma consistent_update_category (pk : string)
    (f : BudgetCategory.t -> BudgetCategory.t) (db : Db) :
  (forall c, BudgetCategory.id (f c) = BudgetCategory.id c) ->
  (forall c, BudgetCategory.user_id (f c) = BudgetCategory.user_id c) ->
  ledger_consistent db -> ledger_consistent (update_category pk f db).
Proof.
  intros Hid Huid (Hck & Hek & Hrc & Hoc & Hap).
  assert (Hrow : forall c',
             In c' (budget_categories (update_category pk f db)) ->
             exists c, In c (budget_categories db)
                       /\ BudgetCategory.id c' = BudgetCategory.id c
                       /\ BudgetCategory.user_id c' = BudgetCategory.user_id c).
  { intros c' Hc'. simpl in Hc'. apply in_map_iff in Hc' as (c & <- & Hc).
    exists c. destruct (String.eqb (BudgetCategory.id c) pk); auto. }
  unfold ledger_consistent, category_keys_unique, expense_keys_unique,
    expenses_reference_categories, expenses_owned_by_category_owner,
    amounts_positive in *.
  repeat split.
  - simpl. rewrite map_map.
    erewrite map_ext; [exact Hck |]. intros c. simpl.
    destruct (String.eqb (BudgetCategory.id c) pk); auto.
  - exact Hek.
  - intros e He. destruct (Hrc e He) as (c & Hc & Hcid).
    exists (if String.eqb (BudgetCategory.id c) pk then f c else c).
    split.
    + simpl. apply in_map_iff. exists c. auto.
    + destruct (String.eqb (BudgetCategory.id c) pk); [rewrite Hid |];
        exact Hcid.
  - intros e c' He Hc' Hcid. destruct (Hrow c' Hc') as (c & Hc & Ei & Eu).
    rewrite Eu. apply Hoc; [exact He | exact Hc | congruence].
  - exact Hap.
Qed.

(** [db.delete(category)] with its cascade breaks no constraint. *)
Lemma consistent_delete_category (pk : string) (db : Db) :
  ledger_consistent db -> ledger_consistent (delete_category pk db).
Proof.
  intros (Hck & Hek & Hrc & Hoc & Hap).
  unfold ledger_consistent, category_keys_unique, expense_keys_unique,
    expenses_reference_categories, expenses_owned_by_category_owner,
    amounts_positive in *. simpl.
  repeat split.
  - apply selected_rows_keys_unique. exact Hck.
  - apply selected_rows_keys_unique. exact Hek.
  - intros e He. apply filter_In in He as [He Hk].
    destruct (Hrc e He) as (c & Hc & Hcid). exists c. split; [| exact Hcid].
    apply filter_In. split; [exact Hc |]. rewrite Hcid. exact Hk.
  - intros e c He Hc. apply filter_In in He as [He _].
    apply filter_In in Hc as [Hc _]. auto.
  - intros e He. apply filter_In in He as [He _]. auto.
Qed.

(** The row a soft delete writes keeps its key and its owner. *)
Lemma flushed_row_keys (db_now : Z) (c : BudgetCategory.t) :
  let c' :=
    if BudgetCategory.eqb (BudgetCategory.with_is_active false c) c then c
    else BudgetCategory.with_updated_at db_now
           (BudgetCategory.with_is_active false c) in
  BudgetCategory.id c' = BudgetCategory.id c
  /\ BudgetCategory.user_id c' = BudgetCategory.user_id c.
Proof.
  simpl. destruct (BudgetCategory.eqb _ c); split; reflexivity.
Qed.

Lemma create_budget_category_store (category_data : BudgetCategoryCreate)
    (current_user : User.t) (new_id : string) (db_now : Z) (db : Db) :
  snd (create_budget_category category_data current_user new_id db_now db)
  = db.
Proof.
  unfold create_budget_category.
  destruct (first _ (budget_categories db)); reflexivity.
Qed.

(** Each call of the ledger keeps the constraints of the budget tables. *)
Lemma ledger_step_consistent (actor : User.t) (db db' : Db) :
  ledger_consistent db -> ledger_step actor db db' -> ledger_consistent db'.
Proof.
  intros Hok Hstep. revert Hok.
  destruct Hstep
    as [category_data new_id db_now db0 r db0' H
       | expense_data new_id db_now db0 r db0' Hpos H
       | expense_id db0 r db0' H
       | category_id force db_now db0 r db0' H]; intros Hok.
  - pose proof (create_budget_category_store category_data actor new_id
                  db_now db0) as Hs.
    rewrite H in Hs. simpl in Hs. subst db0'. exact Hok.
  - apply create_expense_inv in H
      as [[-> _] | (category & Hc & Hfresh & -> & _)]; [exact Hok |].
    destruct Hok as (Hck & Hek & Hrc & Hoc & Hap).
    apply first_some in Hc as [Hc Ho].
    apply owned_category_true in Ho as [Hcid Hcu].
    unfold ledger_consistent, category_keys_unique, expense_keys_unique,
      expenses_reference_categories, expenses_owned_by_category_owner,
      amounts_positive in *. simpl.
    repeat split.
    + exact Hck.
    + rewrite map_app. simpl. apply fresh_key_appended; [exact Hek |].
      intros Hin. apply in_map_iff in Hin as (e & E & He).
      exact (Hfresh e He E).
    + intros e He. apply in_app_iff in He as [He | [<- | []]]; [auto |].
      exists category. auto.
    + intros e c He Hc'. apply in_app_iff in He as [He | [<- | []]];
        [auto |]. simpl. intros E.
      rewrite (key_determines_row BudgetCategory.id _ c category Hck Hc' Hc)
        by congruence.
      symmetry. exact Hcu.
    + intros e He. apply in_app_iff in He as [He | [<- | []]]; auto.
  - apply delete_expense_inv in H
      as [[-> _] | (expense & _ & _ & _ & -> & _)]; [exact Hok |].
    apply consistent_fewer_expenses. exact Hok.
  - apply delete_budget_category_inv in H
      as [[-> _] | (category & _ & _ & _ & [(_ & ->) | (_ & ->)])];
      [exact Hok | |].
    + apply consistent_update_category; try exact Hok;
        intros c; apply (flushed_row_keys db_now c).
    + apply consistent_delete_category.
      apply (consistent_fewer_expenses
               (fun e => negb (expense_of category_id actor e))).
      exact Hok.
Qed.

(** X29: Whatever sequence of calls of [create_budget_category],
    [create_expense], [delete_expense] and [delete_budget_category] the
    ledger serves, by whichever users, the budget tables keep their
    constraints: category ids and expense ids stay unique, every expense
    names a stored category, that category belongs to the owner of the
    expense, and every amount is positive. *)
Theorem ledger_consistent_preserved (db db' : Db) :
  ledger_consistent db ->
  clos_refl_trans Db (fun d d' => exists actor, ledger_step actor d d')
                  db db' ->
  ledger_consistent db'.
Proof.
  intros Hok Hsteps.
  induction Hsteps as [db db' [actor Hstep] | db | db db1 db2 _ IH1 _ IH2];
    [| exact Hok | auto].
  exact (ledger_step_consistent actor db db' Hok Hstep).
Qed.

(** A selection that never holds on the rows a second one drops is not
    changed by it. *)
Lemma filter_after_drop {A : Type} (p keep : A -> bool) (l : list A) :
  (forall x, In x l -> keep x = false -> p x = false) ->
  filter p (filter keep l) = filter p l.
Proof.
  induction l as [| x l IH]; simpl; intros H; [reflexivity |].
  rewrite <- IH by (intros y Hy; apply H; now right).
  destruct (keep x) eqn:Hk; simpl; [reflexivity |].
  rewrite (H x (or_introl eq_refl) Hk). reflexivity.
Qed.

(** A selection that holds on no row with the key of an [UPDATE], before
    or after it, is not changed by it. *)
Lemma filter_after_update {A : Type} (p : A -> bool) (pk : A -> string)
    (k : string) (f : A -> A) (l : list A) :
  (forall x, In x l -> pk x = k -> p x = false /\ p (f x) = false) ->
  filter p (map (fun x => if String.eqb (pk x) k then f x else x) l)
  = filter p l.
Proof.
  induction l as [| x l IH]; simpl; intros H; [reflexivity |].
  rewrite IH by (intros y Hy; apply H; now right).
  destruct (String.eqb_spec (pk x) k) as [E | _]; [| reflexivity].
  destruct (H x (or_introl eq_refl) E) as [-> ->]. reflexivity.
Qed.

(** One call leaves the rows of the other users as they are. *)
Lemma ledger_step_others (actor : User.t) (db db' : Db) :
  ledger_consistent db -> ledger_step actor db db' ->
  users db' = users db /\ rows_of_others actor db' = rows_of_others actor db.
Proof.
  intros Hok Hstep. revert Hok.
  destruct Hstep
    as [category_data new_id db_now db0 r db0' H
       | expense_data new_id db_now db0 r db0' Hpos H
       | expense_id db0 r db0' H
       | category_id force db_now db0 r db0' H];
    intros (Hck & Hek & Hrc & Hoc & Hap).
  - pose proof (create_budget_category_store category_data actor new_id
                  db_now db0) as Hs.
    rewrite H in Hs. simpl in Hs. subst db0'. auto.
  - apply create_expense_inv in H
      as [[-> _] | (category & _ & _ & -> & _)]; [auto |].
    split; [reflexivity |]. unfold rows_of_others. simpl.
    rewrite filter_app. simpl. rewrite String.eqb_refl. simpl.
    rewrite app_nil_r. reflexivity.
  - apply delete_expense_inv in H
      as [[-> _] | (expense & Hin & Hid & Hu & -> & _)]; [auto |].
    split; [reflexivity |]. unfold rows_of_others. simpl. f_equal.
    apply filter_after_drop. intros e He Hk.
    apply Bool.negb_false_iff in Hk. apply String.eqb_eq in Hk.
    rewrite (key_determines_row Expense.id _ e expense Hek He Hin)
      by congruence.
    rewrite Hu, String.eqb_refl. reflexivity.
  - apply delete_budget_category_inv in H
      as [[-> _] | (category & Hin & Hid & Hu & [(_ & ->) | (_ & ->)])];
      [auto | |].
    + split; [reflexivity |]. unfold rows_of_others, flush_category. simpl.
      f_equal. apply filter_after_update. intros c Hc Hk.
      rewrite (proj2 (flushed_row_keys db_now c)).
      rewrite (key_determines_row BudgetCategory.id _ c category Hck Hc Hin)
        by congruence.
      rewrite Hu, String.eqb_refl. split; reflexivity.
    + split; [reflexivity |]. unfold rows_of_others. simpl. f_equal.
      * apply filter_after_drop. intros c Hc Hk.
        apply Bool.negb_false_iff in Hk. apply String.eqb_eq in Hk.
        rewrite (key_determines_row BudgetCategory.id _ c category Hck Hc
                   Hin) by congruence.
        rewrite Hu, String.eqb_refl. reflexivity.
      * rewrite filter_after_drop.
        -- apply filter_after_drop. intros e He Hk.
           apply Bool.negb_false_iff in Hk.
           apply expense_of_true in Hk as [_ Hk].
           rewrite Hk, String.eqb_refl. reflexivity.
        -- intros e He Hk. apply filter_In in He as [He _].
           apply Bool.negb_false_iff in Hk. apply String.eqb_eq in Hk.
           rewrite (Hoc e category He Hin) by congruence.
           rewrite Hu, String.eqb_refl. reflexivity.
Qed.

(** X30: A user's calls touch that user's rows only: over any sequence of
    calls of the four handlers by one user, started from tables that meet
    their constraints, the users table and every category and expense of
    every other user are left exactly as they were. *)
Theorem ledger_calls_isolated (actor : User.t) (db db' : Db) :
  ledger_consistent db ->
  clos_refl_trans Db (ledger_step actor) db db' ->
  users db' = users db
  /\ filter (fun c => negb (String.eqb (BudgetCategory.user_id c)
                                       (User.id actor)))
            (budget_categories db')
     = filter (fun c => negb (String.eqb (BudgetCategory.user_id c)
                                         (User.id actor)))
              (budget_categories db)
  /\ filter (fun e => negb (String.eqb (Expense.user_id e) (User.id actor)))
            (expenses db')
     = filter (fun e => negb (String.eqb (Expense.user_id e) (User.id actor)))
              (expenses db).
Proof.
  intros Hok Hsteps.
  assert (H : ledger_consistent db'
              /\ users db' = users db
              /\ rows_of_others actor db' = rows_of_others actor db).
  { induction Hsteps as [db db' Hstep | db | db db1 db2 _ IH1 _ IH2].
    - split; [exact (ledger_step_consistent actor db db' Hok Hstep) |].
      exact (ledger_step_others actor db db' Hok Hstep).
    - auto.
    - destruct (IH1 Hok) as (Hok1 & Hu1 & Hr1).
      destruct (IH2 Hok1) as (Hok2 & Hu2 & Hr2).
      split; [exact Hok2 |]. split; congruence. }
  destruct H as (_ & Hu & Hr). unfold rows_of_others in Hr.
  inversion Hr. auto.
Qed.

End LedgerInvariant.

(** ** The ledger on the sample stores *)

Section LedgerOnTheSampleStore.

Import Budget Ledger Samples.

Lemma shared_ledger_consistent : ledger_consistent shared_db.
Proof.
  unfold ledger_consistent, category_keys_unique, expense_keys_unique,
    expenses_reference_categories, expenses_owned_by_category_owner,
    amounts_positive. simpl.
  repeat split.
  - repeat constructor; simpl; intuition discriminate.
  - repeat constructor; simpl; intuition discriminate.
  - intros e [<- | [<- | [<- | [<- | []]]]];
      [exists food | exists food | exists travel | exists rent];
      simpl; auto.
  - intros e c [<- | [<- | [<- | [<- | []]]]] [<- | [<- | [<- | []]]];
      simpl; intros E; try reflexivity; discriminate E.
  - intros e [<- | [<- | [<- | [<- | []]]]]; reflexivity.
Qed.

Lemma get_recent_expenses_raises_witness :
  get_recent_expenses 10 bob sample_db today = Ok []
  /\ get_recent_expenses 10 alice sample_db today
     = Raise (TypeError
                "unsupported operand type(s) for -: 'datetime.date' and 'datetime.datetime'").
Proof.
  assert (H : 1 <= 10) by lia.
  destruct (get_recent_expenses_raises 10 bob sample_db today H)
    as [Hbob _].
  destruct (get_recent_expenses_raises 10 alice sample_db today H)
    as [_ Halice].
  split.
  - apply Hbob. intros e c He _ Hu. simpl in He.
    destruct He as [<- | [<- | [<- | []]]]; discriminate Hu.
  - apply (Halice lunch food); simpl; auto.
Defined.

Lemma create_then_get_expense_witness :
  exists r db',
    create_expense coffee alice "e4" 1710403200 sample_db = (Ok r, db')
    /\ get_expense "e4" alice db' = Ok r
    /\ er_description r = "Coffee"
    /\ er_category_name r = Some "Food"
    /\ er_remaining_budget r = Some 2000.
Proof.
  eexists. eexists. split; [reflexivity |].
  split; [| repeat split].
  exact (proj1 (create_then_get_expense coffee alice "e4" 1710403200
                  sample_db _ _ sample_keys_unique eq_refl)).
Defined.

Lemma create_then_delete_expense_witness :
  exists r db',
    create_expense coffee alice "e4" 1710403200 sample_db = (r, db')
    /\ List.length (expenses db') = 4%nat
    /\ delete_expense "e4" alice db'
       = (Ok "Expense deleted successfully", sample_db).
Proof.
  eexists. eexists. split; [reflexivity |]. split; [reflexivity |].
  destruct (create_then_delete_expense coffee alice "e4" 1710403200
              sample_db _ _ eq_refl)
    as [[Hsame _] | (_ & _ & Hdel)]; [discriminate Hsame | exact Hdel].
Defined.

Lemma create_expense_commits_before_validation_witness :
  exists db',
    create_expense
      (mkExpenseCreate "" 450 (mkdatetime (mkdate 2024 3 14) (clock 8 0))
                       None "c1")
      alice "e4" 1710403200 sample_db
    = (Raise (ValidationError "ExpenseResponse"), db')
    /\ List.length (expenses db') = 4%nat
    /\ get_expense "e4" alice db' = Raise (ValidationError "ExpenseResponse").
Proof.
  assert (Hfresh : forall e, In e (expenses sample_db) -> Expense.id e <> "e4").
  { intros e He. simpl in He.
    destruct He as [<- | [<- | [<- | []]]]; discriminate. }
  destruct (create_expense_commits_before_validation
              (mkExpenseCreate "" 450
                 (mkdatetime (mkdate 2024 3 14) (clock 8 0)) None "c1")
              alice "e4" 1710403200 sample_db food eq_refl Hfresh eq_refl)
    as (db' & Hrun & Hrows & _ & _ & Hget & _).
  exists db'. split; [exact Hrun |]. split; [| exact Hget].
  rewrite Hrows. reflexivity.
Defined.

Lemma expense_handlers_refuse_foreign_rows_witness :
  get_expense "e5" alice shared_db = Raise (HTTPException 404 "Expense not found")
  /\ delete_expense "e1" bob shared_db
     = (Raise (HTTPException 404 "Expense not found"), shared_db)
  /\ create_expense coffee bob "e4" 1710403200 shared_db
     = (Raise (HTTPException 404 "Budget category not found"), shared_db).
Proof.
  destruct shared_ledger_consistent as (Hck & Hek & _).
  destruct (expense_handlers_refuse_foreign_rows alice shared_db Hek Hck)
    as [Halice _].
  destruct (expense_handlers_refuse_foreign_rows bob shared_db Hek Hck)
    as [Hbob Hcreate].
  split; [| split].
  - apply (Halice deposit); [simpl; auto 10 | discriminate].
  - apply (Hbob lunch); [simpl; auto 10 | discriminate].
  - apply (Hcreate food coffee "e4" 1710403200);
      [simpl; auto 10 | discriminate | reflexivity].
Defined.

Lemma ledger_consistent_preserved_witness :
  ledger_consistent
    (snd (delete_budget_category "c2" alice true 1710403300
            (snd (create_expense coffee alice "e4" 1710403200 shared_db)))).
Proof.
  apply (ledger_consistent_preserved shared_db);
    [exact shared_ledger_consistent |].
  apply rt_trans
    with (y := snd (create_expense coffee alice "e4" 1710403200 shared_db)).
  - apply rt_step. exists alice.
    apply (create_expense_step alice coffee "e4" 1710403200 shared_db
             (fst (create_expense coffee alice "e4" 1710403200 shared_db)));
      [reflexivity | apply surjective_pairing].
  - apply rt_step. exists alice.
    eapply delete_budget_category_step. apply surjective_pairing.
Defined.

Lemma ledger_calls_isolated_witness :
  exists db',
    db' = snd (delete_budget_category "c2" alice true 1710403300
                 (snd (create_expense coffee alice "e4" 1710403200
                                      shared_db)))
    /\ map Expense.id (expenses db') = ["e1"; "e2"; "e5"; "e4"]
    /\ filter (fun c => negb (String.eqb (BudgetCategory.user_id c) "u1"))
              (budget_categories db') = [rent]
    /\ filter (fun e => negb (String.eqb (Expense.user_id e) "u1"))
              (expenses db') = [deposit].
Proof.
  eexists. split; [reflexivity |]. split; [reflexivity |].
  refine (proj2 (ledger_calls_isolated alice shared_db _
                   shared_ledger_consistent _)).
  apply rt_trans
    with (y := snd (create_expense coffee alice "e4" 1710403200 shared_db)).
  - apply rt_step.
    apply (create_expense_step alice coffee "e4" 1710403200 shared_db
             (fst (create_expense coffee alice "e4" 1710403200 shared_db)));
      [reflexivity | apply surjective_pairing].
  - apply rt_step.
    eapply delete_budget_category_step. apply surjective_pairing.
Defined.

End LedgerOnTheSampleStore.
